(** * StreamFX background removal: provider lifecycle and frame pipeline

    A shallow embedding of

    - [source/filters/filter-background-removal.cpp]
      (the filter instance: update, tick, render, provider switching),
    - [source/nvidia/vfx/nvidia-vfx-background-removal.cpp]
      (the NVIDIA green-screen adapter: size, resize, load, process),
    - [source/nvidia/cv/nvidia-cv-texture.cpp]
      (an accelerator-mapped texture: alloc, free, resize),
    - [source/filters/filter-nv-background-removal.cpp]
      (the size enforcement of the stand-alone NVIDIA filter),
    - [source/nvidia/cv/nvidia-cv.cpp] and
      [source/nvidia/vfx/nvidia-vfx.cpp]
      (the search for the two runtime libraries and their symbols),

    built with [ENABLE_FILTER_BACKGROUND_REMOVAL_NVIDIA] defined.

    Stateful code is written in a small state-and-exception monad over
    the object being mutated and a [world] that holds the observable
    trace, the status codes the accelerator runtime is going to return,
    and the thread pool's queue. *)

From Stdlib Require Import ZArith List Bool String Floats Uint63 Lia.
Import ListNotations.

Open Scope Z_scope.

(* ================================================================== *)
(** * Size enforcement of the stand-alone NVIDIA filter *)
(* ================================================================== *)

Module NvFilter.

(** [std::clamp<uint32_t>(v, lo, hi)]. *)
Definition clamp (v lo hi : Z) : Z :=
  if v <? lo then lo else if hi <? v then hi else v.

(** [static_cast<double>(x)] for a [uint32_t]: every such value is a
    binary64 number, the conversion is exact. *)
Definition to_double (x : Z) : float :=
  PrimFloat.of_uint63 (Uint63.of_Z x).

(** [static_cast<uint32_t>(round(d))]: [round] goes to the nearest
    integer, halfway cases away from zero; the conversion of the
    integral double to [uint32_t] is defined when the value fits, and
    is undefined behaviour otherwise (NaN, infinities, negatives, too
    large), which is [None] here. *)
Definition round_to_uint32 (d : float) : option Z :=
  match Prim2SF d with
  | S754_zero _ => Some 0
  | S754_finite false m e =>
      let r := if 0 <=? e then Z.pos m * 2 ^ e
               else (Z.pos m + 2 ^ (- e - 1)) / 2 ^ (- e) in
      if r <=? 4294967295 then Some r else None
  | S754_finite true m e =>
      (* a negative value rounds to zero only when above -0.5 *)
      let r := if 0 <=? e then Z.pos m * 2 ^ e
               else (Z.pos m + 2 ^ (- e - 1)) / 2 ^ (- e) in
      if r =? 0 then Some 0 else None
  | _ => None
  end.

(** [background_removal_instance::_enforce_size_nvidia_background_removal]. *)
Definition _enforce_size_nvidia_background_removal (x y : Z)
  : option (Z * Z) :=
  if y <? x then
    (* Dominant Width *)
    let ar := PrimFloat.div (to_double y) (to_double x) in
    let rx := clamp x 142 1920 in
    match round_to_uint32 (PrimFloat.mul (to_double rx) ar) with
    | Some ry => Some (rx, ry)
    | None => None
    end
  else
    (* Dominant Height *)
    let ar := PrimFloat.div (to_double x) (to_double y) in
    let ry := clamp y 80 1080 in
    match round_to_uint32 (PrimFloat.mul (to_double ry) ar) with
    | Some rx => Some (rx, ry)
    | None => None
    end.

Definition short_side (sz : Z * Z) : Z := Z.min (fst sz) (snd sz).
Definition long_side (sz : Z * Z) : Z := Z.max (fst sz) (snd sz).

End NvFilter.

(* ================================================================== *)
(** * Shared declarations *)
(* ================================================================== *)

(** [enum class background_removal_provider], with the integers the
    settings store for it. *)
Inductive background_removal_provider : Type :=
| INVALID
| AUTOMATIC
| NVIDIA_GREEN_SCREEN.

Definition provider_eqb (a b : background_removal_provider) : bool :=
  match a, b with
  | INVALID, INVALID => true
  | AUTOMATIC, AUTOMATIC => true
  | NVIDIA_GREEN_SCREEN, NVIDIA_GREEN_SCREEN => true
  | _, _ => false
  end.

Definition provider_to_int (p : background_removal_provider) : Z :=
  match p with
  | INVALID => -1
  | AUTOMATIC => 0
  | NVIDIA_GREEN_SCREEN => 1
  end.

(** The conversion of a 64-bit integer to the 32-bit [int] that lies
    under the enumeration: the low 32 bits, read as a signed number. *)
Definition to_int32 (i : Z) : Z :=
  (i + 2147483648) mod 4294967296 - 2147483648.

(** [static_cast<background_removal_provider>(i)] of the 64-bit integer
    the settings return: it is brought into the range of [int] first.  A
    value that then names no enumerator has no counterpart here; the
    callers say what the source does with one. *)
Definition provider_of_int (i : Z) : option background_removal_provider :=
  let i := to_int32 i in
  if i =? -1 then Some INVALID
  else if i =? 0 then Some AUTOMATIC
  else if i =? 1 then Some NVIDIA_GREEN_SCREEN
  else None.

(** [struct switch_provider_data_t]. *)
Record switch_provider_data_t : Type :=
  { spd_provider : background_removal_provider }.

(** What a texture holds, as far as the pipeline can tell frames apart. *)
Inductive pixels : Type :=
| Blank                            (* freshly allocated, never drawn *)
| Frame (n : nat)                  (* the n-th upstream frame *)
| Matte (src : pixels)             (* the accelerator's matte of [src] *)
| Masked (color alpha : pixels).   (* colour of one, alpha of the other *)

Inductive gs_color_format : Type := GS_RGBA_UNORM | GS_A8.

(** [gs::texture]: size, format and content. *)
Module GS.
Record texture : Type :=
  { get_width : Z;
    get_height : Z;
    get_color_format : gs_color_format;
    get_pixels : pixels }.
End GS.

(** The members of the adapter that own accelerator-side buffers; they
    name the buffer a runtime call works on. *)
Inductive role : Type :=
| r_input | r_source | r_destination | r_output | r_tmp.

Inductive parameter : Type :=
| PARAMETER_INPUT_IMAGE_0
| PARAMETER_OUTPUT_IMAGE_0
| PARAMETER_MODE
| PARAMETER_CUDA_STREAM
| PARAMETER_MODEL_DIRECTORY.

(** [nvidia::cv::result], reduced to success and the failure codes. *)
Inductive result : Type :=
| SUCCESS
| FAILURE (code : Z).

Definition is_success (r : result) : bool :=
  match r with SUCCESS => true | FAILURE _ => false end.

(** The entry points of the accelerator runtime the modelled code calls.
    The last three stand for [nvidia::cv::image]'s constructor, [resize]
    and destructor, whose file is not part of the sources at hand. *)
Inductive nvcall : Type :=
| NvVFX_CreateEffect
| NvVFX_DestroyEffect
| NvVFX_SetCudaStream
| NvVFX_SetString (p : parameter)
| NvVFX_SetImage (p : parameter) (img : role)
| NvVFX_SetU32 (p : parameter) (v : Z)
| NvVFX_Load
| NvVFX_Run
| NvCVImage_InitFromD3D11Texture (img : role)
| NvCVImage_MapResource (img : role)
| NvCVImage_UnmapResource (img : role)
| NvCVImage_Dealloc (img : role)
| NvCVImage_Transfer (src dst tmp : role)
| cv_image_new (img : role) (w h : Z)
| cv_image_resize (img : role) (w h : Z)
| cv_image_delete (img : role).

(** The [ST_PREFIX] of the file that logs. *)
Inductive component : Type :=
| filter_background_removal
| nvidia_vfx_background_removal
| nvidia_cv_texture.

Inductive log_level : Type := LOG_ERROR | LOG_WARNING | LOG_INFO | LOG_DEBUG.

(** Everything the code does that is visible from outside the objects. *)
Inductive event : Type :=
| Call (c : nvcall) (r : result)
| NewTexture (img : role) (w h : Z) (fmt : gs_color_format)
| CopyTexture (dst : role)
| Log (l : log_level) (from : component) (msg : string)
| Lock
| Unlock
| SkipVideoFilter
| ProcessFilterBegin (ok : bool)
| CaptureInput (w h : Z)
| MaskInput (w h : Z)
| DrawSprite (t : GS.texture) (w h : Z)
| MakeSwitchData (old : background_removal_provider)
| PoolPop (handle : nat)
| PoolPush (handle : nat).

(** A queued task of [util::threadpool]: its handle and the data bound
    to [task_switch_provider]. *)
Record task : Type :=
  { task_handle : nat;
    task_data : switch_provider_data_t }.

(** The world: the trace so far (oldest first), the status codes the
    next runtime calls return (an exhausted script answers [SUCCESS]),
    and the thread pool's queue with its next free handle. *)
Record world : Type :=
  { trace : list event;
    script : list result;
    pool : list task;
    next_handle : nat }.

Definition record_event (e : event) (w : world) : world :=
  {| trace := trace w ++ [e];
     script := script w;
     pool := pool w;
     next_handle := next_handle w |}.

Definition next_result (w : world) : result :=
  match script w with
  | [] => SUCCESS
  | r :: _ => r
  end.

Definition consume_result (w : world) : world :=
  {| trace := trace w;
     script := tl (script w);
     pool := pool w;
     next_handle := next_handle w |}.

(** ** The monad: a mutable object, the world, and C++ exceptions *)

(** What can cut a computation short: a [std::runtime_error], the one
    exception the modelled code throws; the dereference of an empty
    pointer, which is not an exception and which no handler for
    [std::exception] receives; and [std::terminate], which is called when
    an exception is about to leave a destructor (destructors are
    [noexcept] unless they say otherwise, and none here does): the
    process ends on the spot, no handler receives anything and no
    destructor runs after it. *)
Inductive exn : Type :=
| runtime_error (what : string)
| null_pointer
| terminate.

Inductive outcome (A : Type) : Type :=
| Ok (a : A)
| Throw (e : exn).
Arguments Ok {A} a.
Arguments Throw {A} e.

(** The outcome is the end of the process. *)
Definition ends_process {A : Type} (o : outcome A) : bool :=
  match o with Throw terminate => true | _ => false end.

Definition M (S A : Type) : Type := S -> world -> outcome A * S * world.

Definition ret {S A : Type} (a : A) : M S A :=
  fun s w => (Ok a, s, w).

Definition bind {S A B : Type} (m : M S A) (k : A -> M S B) : M S B :=
  fun s w =>
    match m s w with
    | (Ok a, s', w') => k a s' w'
    | (Throw e, s', w') => (Throw e, s', w')
    end.

Definition throw {S A : Type} (e : exn) : M S A :=
  fun s w => (Throw e, s, w).

Definition get {S : Type} : M S S :=
  fun s w => (Ok s, s, w).

Definition modify {S : Type} (f : S -> S) : M S unit :=
  fun s w => (Ok tt, f s, w).

Definition emit {S : Type} (e : event) : M S unit :=
  fun s w => (Ok tt, s, record_event e w).

(** One call into the runtime: it answers with the next scripted code. *)
Definition nv {S : Type} (c : nvcall) : M S result :=
  fun s w =>
    let r := next_result w in
    (Ok r, s, record_event (Call c r) (consume_result w)).

Declare Scope monad_scope.
Delimit Scope monad_scope with monad.
Notation "x <- m ;; k" := (bind m (fun x => k))
  (at level 61, m at next level, right associativity) : monad_scope.
Notation "m ;; k" := (bind m (fun _ => k))
  (at level 61, right associativity) : monad_scope.
Open Scope monad_scope.

(** The call pattern of the adapter and of the mapped texture:
    [if (auto res = call; res != SUCCESS) { D_LOG_ERROR(msg); throw
    std::runtime_error(what); }]. *)
Definition checked {S : Type} (c : nvcall) (from : component)
    (msg what : string) : M S unit :=
  res <- nv c ;;
  if is_success res then ret tt
  else emit (Log LOG_ERROR from msg) ;; throw (runtime_error what).

(** Builds an object: runs its constructor body on the initial members.
    An exception that leaves the body unwinds the object: [unwind]
    destroys the members as the body left them, the destructor of the
    object itself does not run, and the exception goes on to the caller
    with no object left behind.  When a member's destructor ends the
    process during the unwinding, that is the outcome. *)
Definition construct {S T : Type} (init : T) (body : M T unit)
    (unwind : T -> M S unit) : M S T :=
  fun s w =>
    match body init w with
    | (Ok _, t, w') => (Ok t, s, w')
    | (Throw (runtime_error what), t, w') =>
        match unwind t s w' with
        | (Ok _, _, w'') => (Throw (runtime_error what), s, w'')
        | (Throw e, _, w'') => (Throw e, s, w'')
        end
    | (Throw e, _, w') => (Throw e, s, w')
    end.

(** Runs a method on a member held through a pointer; the member keeps
    what the method did to it when the method throws. *)
Definition on_member {S T A : Type} (member : S -> option T)
    (store : option T -> S -> S) (m : M T A) : M S A :=
  fun s w =>
    match member s with
    | Some t => let '(o, t', w') := m t w in (o, store (Some t') s, w')
    | None => (Throw null_pointer, s, w)
    end.

(* ================================================================== *)
(** * nvidia::cv: accelerator-mapped buffers *)
(* ================================================================== *)

Module CV.

(** The state of an [NvCVImage] bound to a texture. *)
Inductive binding : Type :=
| released      (* no accelerator-side storage *)
| initialized   (* wrapped around the texture, not mapped *)
| mapped.       (* mapped into the accelerator's address space *)

(** [class nvidia::cv::texture]; [tag] is the object's identity. *)
Record texture : Type :=
  { tag : role;
    _texture : GS.texture;
    _image : binding }.

Definition set_image (b : binding) (t : texture) : texture :=
  {| tag := tag t; _texture := _texture t; _image := b |}.

Definition set_texture (g : GS.texture) (t : texture) : texture :=
  {| tag := tag t; _texture := g; _image := _image t |}.

Definition get_texture (t : texture) : GS.texture := _texture t.

(** [texture::alloc]. *)
Definition alloc : M texture unit :=
  this <- get ;;
  checked (NvCVImage_InitFromD3D11Texture (tag this)) nvidia_cv_texture
    "Object 0x%PRIxPTR failed NvCVImage_InitFromD3D11Texture call with error: %s"
    "NvCVImage_InitFromD3D11Texture" ;;
  modify (set_image initialized) ;;
  checked (NvCVImage_MapResource (tag this)) nvidia_cv_texture
    "Object 0x%PRIxPTR failed NvCVImage_MapResource call with error: %s"
    "NvCVImage_MapResource" ;;
  modify (set_image mapped).

(** [texture::free]. *)
Definition free : M texture unit :=
  this <- get ;;
  checked (NvCVImage_UnmapResource (tag this)) nvidia_cv_texture
    "Object 0x%PRIxPTR failed NvCVImage_UnmapResource call with error: %s"
    "NvCVImage_UnmapResource" ;;
  modify (set_image initialized) ;;
  checked (NvCVImage_Dealloc (tag this)) nvidia_cv_texture
    "Object 0x%PRIxPTR failed NvCVImage_Dealloc call with error: %s"
    "NvCVImage_Dealloc" ;;
  modify (set_image released).

Definition make_gs_texture (w h : Z) (fmt : gs_color_format) : GS.texture :=
  {| GS.get_width := w; GS.get_height := h; GS.get_color_format := fmt;
     GS.get_pixels := Blank |}.

(** [texture::texture(width, height, pix_fmt)].  When [alloc] throws,
    the members are destroyed, not the texture: [~texture] and its
    [free] do not run, and the members ask nothing of the runtime. *)
Definition new_texture {S : Type} (r : role) (width height : Z)
    (pix_fmt : gs_color_format) : M S texture :=
  construct
    {| tag := r;
       _texture := make_gs_texture width height pix_fmt;
       _image := released |}
    (emit (NewTexture r width height pix_fmt) ;;
     alloc)
    (fun _ => ret tt).

(** [texture::resize]. *)
Definition resize (width height : Z) : M texture unit :=
  this <- get ;;
  emit (Log LOG_DEBUG nvidia_cv_texture
          "Resizing object 0x%PRIxPTR to %PRIu32x%PRIu32...") ;;
  free ;;
  emit (NewTexture (tag this) width height
          (GS.get_color_format (_texture this))) ;;
  modify (set_texture
            (make_gs_texture width height
               (GS.get_color_format (_texture this)))) ;;
  alloc.

(** [texture::~texture]: [free(); _texture.reset();].  The destructor is
    [noexcept]: the exception [free] throws when the runtime refuses to
    unmap or to deallocate cannot leave it, and [std::terminate] ends the
    process, after [free] has logged the refusal. *)
Definition delete_texture {S : Type} (t : texture) : M S unit :=
  fun s w =>
    match free t w with
    | (Ok a, _, w') => (Ok a, s, w')
    | (Throw _, _, w') => (Throw terminate, s, w')
    end.

(** Modelled from the spec: [nvidia::cv::image] (nvidia-cv-image.cpp is
    not among the sources).  The Resource Pool contract gives a buffer a
    size, allocates it through the runtime, reallocates it on [resize]
    and signals a failure of either by an exception; nothing more is
    assumed, and each operation is one opaque runtime request. *)
Record image : Type :=
  { itag : role;
    image_width : Z;
    image_height : Z }.

(** Modelled from the spec: the constructor of [nvidia::cv::image], one
    allocation request that raises an exception when it fails; an image
    that was not allocated has nothing to release. *)
Definition new_image {S : Type} (r : role) (width height : Z) : M S image :=
  construct
    {| itag := r; image_width := width; image_height := height |}
    (checked (cv_image_new r width height) nvidia_cv_texture
       "image allocation failed" "image")
    (fun _ => ret tt).

(** Modelled from the spec: [nvidia::cv::image::resize], one
    reallocation request that raises an exception when it fails. *)
Definition resize_image (width height : Z) : M image unit :=
  this <- get ;;
  checked (cv_image_resize (itag this) width height) nvidia_cv_texture
    "image reallocation failed" "image" ;;
  modify (fun i => {| itag := itag i; image_width := width;
                      image_height := height |}).

(** Modelled from the spec: the destructor of [nvidia::cv::image], one
    release request. *)
Definition delete_image {S : Type} (i : image) : M S unit :=
  _ <- nv (cv_image_delete (itag i)) ;; ret tt.

End CV.

(* ================================================================== *)
(** * nvidia::vfx::background_removal: the green-screen adapter *)
(* ================================================================== *)

Module VFX.

Definition here : component := nvidia_vfx_background_removal.

(** [class nvidia::vfx::background_removal]; [_fx] tells whether the
    effect handle is held. *)
Record background_removal : Type :=
  { _fx : bool;
    _input : option CV.texture;
    _source : option CV.image;
    _destination : option CV.image;
    _output : option CV.texture;
    _tmp : option CV.image;
    _dirty : bool }.

Definition set_fx (v : bool) (o : background_removal) :=
  {| _fx := v; _input := _input o; _source := _source o;
     _destination := _destination o; _output := _output o;
     _tmp := _tmp o; _dirty := _dirty o |}.

Definition set_input (v : option CV.texture) (o : background_removal) :=
  {| _fx := _fx o; _input := v; _source := _source o;
     _destination := _destination o; _output := _output o;
     _tmp := _tmp o; _dirty := _dirty o |}.

Definition set_source (v : option CV.image) (o : background_removal) :=
  {| _fx := _fx o; _input := _input o; _source := v;
     _destination := _destination o; _output := _output o;
     _tmp := _tmp o; _dirty := _dirty o |}.

Definition set_destination (v : option CV.image) (o : background_removal) :=
  {| _fx := _fx o; _input := _input o; _source := _source o;
     _destination := v; _output := _output o;
     _tmp := _tmp o; _dirty := _dirty o |}.

Definition set_output (v : option CV.texture) (o : background_removal) :=
  {| _fx := _fx o; _input := _input o; _source := _source o;
     _destination := _destination o; _output := v;
     _tmp := _tmp o; _dirty := _dirty o |}.

Definition set_tmp (v : option CV.image) (o : background_removal) :=
  {| _fx := _fx o; _input := _input o; _source := _source o;
     _destination := _destination o; _output := _output o;
     _tmp := v; _dirty := _dirty o |}.

Definition set_dirty (v : bool) (o : background_removal) :=
  {| _fx := _fx o; _input := _input o; _source := _source o;
     _destination := _destination o; _output := _output o;
     _tmp := _tmp o; _dirty := v |}.

(** [background_removal::size(size, input_size, output_size)]: the two
    reference parameters as they are when the call returns. *)
Definition size (size input_size output_size : Z * Z)
  : (Z * Z) * (Z * Z) :=
  let output_size := (fst input_size, snd output_size) in
  let output_size := (fst output_size, snd input_size) in
  (input_size, output_size).

(** [(width != t->get_texture()->get_width())
     || (height != t->get_texture()->get_height())]. *)
Definition size_differs (width height : Z) (t : CV.texture) : bool :=
  negb (width =? GS.get_width (CV.get_texture t))
  || negb (height =? GS.get_height (CV.get_texture t)).

(** [!_input || !_source || size differs from _input]. *)
Definition input_changed (width height : Z) (o : background_removal)
  : bool :=
  match _input o, _source o with
  | Some t, Some _ => size_differs width height t
  | _, _ => true
  end.

(** [!_destination || !_output || size differs from _output]. *)
Definition output_changed (width height : Z) (o : background_removal)
  : bool :=
  match _destination o, _output o with
  | Some _, Some t => size_differs width height t
  | _, _ => true
  end.

(** [background_removal::resize]. *)
Definition resize (width height : Z) : M background_removal unit :=
  this <- get ;;
  (match _tmp this with
   | None =>
       i <- CV.new_image r_tmp width height ;;
       modify (set_tmp (Some i))
   | Some _ => ret tt
   end) ;;
  (* Input Size was changed. *)
  this <- get ;;
  (if input_changed width height this then
     (match _input this with
      | Some _ => on_member _input set_input (CV.resize width height)
      | None =>
          t <- CV.new_texture r_input width height GS_RGBA_UNORM ;;
          modify (set_input (Some t))
      end) ;;
     (match _source this with
      | Some _ =>
          on_member _source set_source (CV.resize_image width height)
      | None =>
          i <- CV.new_image r_source width height ;;
          modify (set_source (Some i))
      end) ;;
     checked (NvVFX_SetImage PARAMETER_INPUT_IMAGE_0 r_source) here
       "Failed to set input image due to error: %s" "SetImage failed." ;;
     checked (NvVFX_SetU32 PARAMETER_MODE 0) here
       "Failed to set mode due to error: %s" "SetU32 failed." ;;
     modify (set_dirty true)
   else ret tt) ;;
  (* Input Size or Scale was changed. *)
  this <- get ;;
  (if output_changed width height this then
     (match _destination this with
      | Some _ =>
          on_member _destination set_destination
            (CV.resize_image width height)
      | None =>
          i <- CV.new_image r_destination width height ;;
          modify (set_destination (Some i))
      end) ;;
     (match _output this with
      | Some _ => on_member _output set_output (CV.resize width height)
      | None =>
          t <- CV.new_texture r_output width height GS_A8 ;;
          modify (set_output (Some t))
      end) ;;
     checked (NvVFX_SetImage PARAMETER_OUTPUT_IMAGE_0 r_destination) here
       "Failed to set output image due to error: %s" "SetImage failed." ;;
     modify (set_dirty true)
   else ret tt).

(** [background_removal::load]. *)
Definition load : M background_removal unit :=
  checked NvVFX_SetCudaStream here
    "Failed to set CUDA stream due to error: %s" "SetCudaStream failed." ;;
  checked NvVFX_Load here
    "Failed to initialize effect due to error: %s" "Load failed." ;;
  modify (set_dirty false).

(** The deleter the constructor gives [_fx]:
    [NvVFX_DestroyEffect(handle)], whose status code nobody reads. *)
Definition destroy_effect {S : Type} : M S unit :=
  _ <- nv NvVFX_DestroyEffect ;; ret tt.

(** Modelled from the spec: the destruction of the members when the
    constructor throws.  The class definition
    (nvidia-vfx-background-removal.hpp) is not among the sources; the
    members are taken to be declared in the order in which the
    constructor initialises and the destructor releases them, the effect
    handle before the five buffers, and they are destroyed in the reverse
    of that order.  A member that was not built yet asks nothing of the
    runtime; a mapped texture is released by [~texture], which ends the
    process when the runtime refuses. *)
Definition unwind_background_removal {S : Type} (o : background_removal)
  : M S unit :=
  (match _tmp o with Some i => CV.delete_image i | None => ret tt end) ;;
  (match _output o with Some t => CV.delete_texture t | None => ret tt end) ;;
  (match _destination o with
   | Some i => CV.delete_image i | None => ret tt end) ;;
  (match _source o with Some i => CV.delete_image i | None => ret tt end) ;;
  (match _input o with Some t => CV.delete_texture t | None => ret tt end) ;;
  (if _fx o then destroy_effect else ret tt).

(** [background_removal::background_removal()]. *)
Definition new_background_removal {S : Type} : M S background_removal :=
  construct
    {| _fx := false; _input := None; _source := None;
       _destination := None; _output := None; _tmp := None;
       _dirty := true |}
    (checked NvVFX_CreateEffect here
       "Failed to create effect due to error: %s" "CreateEffect failed." ;;
     modify (set_fx true) ;;
     checked NvVFX_SetCudaStream here
       "Failed to set CUDA stream due to error: %s"
       "SetCudaStream failed." ;;
     checked (NvVFX_SetString PARAMETER_MODEL_DIRECTORY) here
       "Failed to set model directory due to error: %s"
       "SetString failed." ;;
     resize 160 90 ;;
     load)
    unwind_background_removal.

(** [gs_copy_texture(dst, src)]. *)
Definition copy_into (src : GS.texture) (dst : CV.texture) : CV.texture :=
  CV.set_texture
    {| GS.get_width := GS.get_width (CV._texture dst);
       GS.get_height := GS.get_height (CV._texture dst);
       GS.get_color_format := GS.get_color_format (CV._texture dst);
       GS.get_pixels := GS.get_pixels src |}
    dst.

(** The accelerator's result, as it arrives in the output texture. *)
Definition store_matte (src : GS.texture) (dst : CV.texture) : CV.texture :=
  CV.set_texture
    {| GS.get_width := GS.get_width (CV._texture dst);
       GS.get_height := GS.get_height (CV._texture dst);
       GS.get_color_format := GS.get_color_format (CV._texture dst);
       GS.get_pixels := Matte (GS.get_pixels src) |}
    dst.

(** [background_removal::process(in)]. *)
Definition process (in_ : GS.texture)
  : M background_removal (option GS.texture) :=
  (* Resize if the size or scale was changed. *)
  resize (GS.get_width in_) (GS.get_height in_) ;;
  (* Reload effect if dirty. *)
  this <- get ;;
  (if _dirty this then load else ret tt) ;;
  (* Copy parameter to input. *)
  on_member _input set_input
    (emit (CopyTexture r_input) ;; modify (copy_into in_)) ;;
  (* Copy input to source. *)
  checked (NvCVImage_Transfer r_input r_source r_tmp) here
    "Failed to transfer input to processing source due to error: %s"
    "Transfer failed." ;;
  (* Process source to destination. *)
  checked NvVFX_Run here
    "Failed to process due to error: %s" "Run failed." ;;
  (* Copy destination to output. *)
  checked (NvCVImage_Transfer r_destination r_output r_tmp) here
    "Failed to transfer processing result to output due to error: %s"
    "Transfer failed." ;;
  on_member _output set_output (modify (store_matte in_)) ;;
  (* Return output. *)
  this <- get ;;
  ret (option_map CV.get_texture (_output this)).

(** [background_removal::~background_removal()]: the members are
    released in the order written.  A texture the runtime refuses to
    unmap or to deallocate ends the process in [~texture]; the members
    after it are not released then. *)
Definition delete_background_removal {S : Type} (o : background_removal)
  : M S unit :=
  (if _fx o then destroy_effect else ret tt) ;;
  (match _input o with Some t => CV.delete_texture t | None => ret tt end) ;;
  (match _source o with Some i => CV.delete_image i | None => ret tt end) ;;
  (match _destination o with
   | Some i => CV.delete_image i | None => ret tt end) ;;
  (match _output o with Some t => CV.delete_texture t | None => ret tt end) ;;
  (match _tmp o with Some i => CV.delete_image i | None => ret tt end).

End VFX.

(* ================================================================== *)
(** * filter::background_removal: the filter instance *)
(* ================================================================== *)

(** Runs [m] and hands an exception of any kind to [handler]:
    [try { m } catch (...) { handler }].  The end of the process is no
    exception and reaches no handler. *)
Definition try_catch_all {S A : Type} (m : M S A) (handler : M S A)
  : M S A :=
  fun s w =>
    match m s w with
    | (Ok a, s', w') => (Ok a, s', w')
    | (Throw terminate, s', w') => (Throw terminate, s', w')
    | (Throw _, s', w') => handler s' w'
    end.

(** [try { m } catch (std::exception const& ex) { handler }]. *)
Definition try_catch_std {S A : Type} (m : M S A) (handler : string -> M S A)
  : M S A :=
  fun s w =>
    match m s w with
    | (Ok a, s', w') => (Ok a, s', w')
    | (Throw (runtime_error what), s', w') => handler what s' w'
    | (Throw null_pointer, s', w') => (Throw null_pointer, s', w')
    | (Throw terminate, s', w') => (Throw terminate, s', w')
    end.

(** [std::unique_lock<std::mutex> ul(_provider_lock)] around [m]: the
    lock is released however [m] ends, unless the process ends in [m]:
    then nothing is unwound and the lock is never released. *)
Definition with_lock {S A : Type} (m : M S A) : M S A :=
  fun s w =>
    match m s (record_event Lock w) with
    | (Throw terminate, s', w') => (Throw terminate, s', w')
    | (o, s', w') => (o, s', record_event Unlock w')
    end.

(** Modelled from the spec: [util::threadpool] (util-threadpool.cpp is
    not among the sources).  "Enqueue an asynchronous task capturing
    [old]" appends the task under a fresh handle; "cancel/evict it from
    the task queue (best-effort)" removes the task with that handle if it
    is still queued. *)
Definition threadpool_push {S : Type} (data : switch_provider_data_t)
  : M S nat :=
  fun s w =>
    let h := next_handle w in
    (Ok h, s,
     {| trace := trace w ++ [PoolPush h];
        script := script w;
        pool := pool w ++ [{| task_handle := h; task_data := data |}];
        next_handle := Datatypes.S h |}).

(** Modelled from the spec: [util::threadpool::pop], the removal of a
    task that has not started ("cancel/evict it from the task queue"). *)
Definition threadpool_pop {S : Type} (h : nat) : M S unit :=
  fun s w =>
    (Ok tt, s,
     {| trace := trace w ++ [PoolPop h];
        script := script w;
        pool := filter (fun t => negb (Nat.eqb (task_handle t) h)) (pool w);
        next_handle := next_handle w |}).

(** Modelled from the spec: a worker of [util::threadpool]
    (util-threadpool.cpp is not among the sources) takes the oldest
    queued task off the queue to run it.  Only "the not-yet-started task"
    can be removed from the pool; "an already-running task is not
    preemptible and is allowed to finish", so from here on [pop] no
    longer finds the task. *)
Definition threadpool_take {S : Type} : M S (option switch_provider_data_t) :=
  fun s w =>
    match pool w with
    | [] => (Ok None, s, w)
    | t :: rest =>
        (Ok (Some (task_data t)), s,
         {| trace := trace w; script := script w; pool := rest;
            next_handle := next_handle w |})
    end.

Module Filter.

Definition here : component := filter_background_removal.

(** What the host shows the filter during one callback. *)
Record host : Type :=
  { parent : option nat;      (* obs_filter_get_parent(_self) *)
    target : option nat;      (* obs_filter_get_target(_self) *)
    base_width : Z;           (* obs_source_get_base_width(target) *)
    base_height : Z;          (* obs_source_get_base_height(target) *)
    filter_begin : bool;      (* obs_source_process_filter_begin(...) *)
    frame : nat;              (* the upstream frame it then draws *)
    mask_throws : bool }.     (* the masking block raises an exception *)

(** [class background_removal_factory], the member the instance asks. *)
Record background_removal_factory : Type :=
  { _nvidia_available : bool }.

(** [class background_removal_instance].  A render target is its
    texture; the channel-mask effect belongs to the host side. *)
Record background_removal_instance : Type :=
  { _in_size : Z * Z;
    _out_size : Z * Z;
    _provider_ready : bool;
    _provider : background_removal_provider;
    _provider_task : option nat;
    _input : GS.texture;
    _mask : option GS.texture;
    _masked : GS.texture;
    _dirty : bool;
    _nvidia_fx : option VFX.background_removal }.

Definition set_in_size (v : Z * Z) (o : background_removal_instance) :=
  {| _in_size := v; _out_size := _out_size o;
     _provider_ready := _provider_ready o; _provider := _provider o;
     _provider_task := _provider_task o; _input := _input o;
     _mask := _mask o; _masked := _masked o; _dirty := _dirty o;
     _nvidia_fx := _nvidia_fx o |}.

Definition set_out_size (v : Z * Z) (o : background_removal_instance) :=
  {| _in_size := _in_size o; _out_size := v;
     _provider_ready := _provider_ready o; _provider := _provider o;
     _provider_task := _provider_task o; _input := _input o;
     _mask := _mask o; _masked := _masked o; _dirty := _dirty o;
     _nvidia_fx := _nvidia_fx o |}.

Definition set_provider_ready (v : bool) (o : background_removal_instance) :=
  {| _in_size := _in_size o; _out_size := _out_size o;
     _provider_ready := v; _provider := _provider o;
     _provider_task := _provider_task o; _input := _input o;
     _mask := _mask o; _masked := _masked o; _dirty := _dirty o;
     _nvidia_fx := _nvidia_fx o |}.

Definition set_provider (v : background_removal_provider)
    (o : background_removal_instance) :=
  {| _in_size := _in_size o; _out_size := _out_size o;
     _provider_ready := _provider_ready o; _provider := v;
     _provider_task := _provider_task o; _input := _input o;
     _mask := _mask o; _masked := _masked o; _dirty := _dirty o;
     _nvidia_fx := _nvidia_fx o |}.

Definition set_provider_task (v : option nat)
    (o : background_removal_instance) :=
  {| _in_size := _in_size o; _out_size := _out_size o;
     _provider_ready := _provider_ready o; _provider := _provider o;
     _provider_task := v; _input := _input o;
     _mask := _mask o; _masked := _masked o; _dirty := _dirty o;
     _nvidia_fx := _nvidia_fx o |}.

Definition set_input (v : GS.texture) (o : background_removal_instance) :=
  {| _in_size := _in_size o; _out_size := _out_size o;
     _provider_ready := _provider_ready o; _provider := _provider o;
     _provider_task := _provider_task o; _input := v;
     _mask := _mask o; _masked := _masked o; _dirty := _dirty o;
     _nvidia_fx := _nvidia_fx o |}.

Definition set_mask (v : option GS.texture)
    (o : background_removal_instance) :=
  {| _in_size := _in_size o; _out_size := _out_size o;
     _provider_ready := _provider_ready o; _provider := _provider o;
     _provider_task := _provider_task o; _input := _input o;
     _mask := v; _masked := _masked o; _dirty := _dirty o;
     _nvidia_fx := _nvidia_fx o |}.

Definition set_masked (v : GS.texture) (o : background_removal_instance) :=
  {| _in_size := _in_size o; _out_size := _out_size o;
     _provider_ready := _provider_ready o; _provider := _provider o;
     _provider_task := _provider_task o; _input := _input o;
     _mask := _mask o; _masked := v; _dirty := _dirty o;
     _nvidia_fx := _nvidia_fx o |}.

Definition set_dirty (v : bool) (o : background_removal_instance) :=
  {| _in_size := _in_size o; _out_size := _out_size o;
     _provider_ready := _provider_ready o; _provider := _provider o;
     _provider_task := _provider_task o; _input := _input o;
     _mask := _mask o; _masked := _masked o; _dirty := v;
     _nvidia_fx := _nvidia_fx o |}.

Definition set_nvidia_fx (v : option VFX.background_removal)
    (o : background_removal_instance) :=
  {| _in_size := _in_size o; _out_size := _out_size o;
     _provider_ready := _provider_ready o; _provider := _provider o;
     _provider_task := _provider_task o; _input := _input o;
     _mask := _mask o; _masked := _masked o; _dirty := _dirty o;
     _nvidia_fx := v |}.

(** [static background_removal_provider provider_priority[]]. *)
Definition provider_priority : list background_removal_provider :=
  [NVIDIA_GREEN_SCREEN].

(** [background_removal_factory::is_provider_available]. *)
Definition is_provider_available (f : background_removal_factory)
    (provider : background_removal_provider) : bool :=
  match provider with
  | NVIDIA_GREEN_SCREEN => _nvidia_available f
  | _ => false
  end.

(** ** The NVIDIA hooks of the instance *)

(** [nvidia_load]: [_nvidia_fx = std::make_shared<background_removal>()];
    the adapter held before, if any, is released by the assignment, after
    the new one is built.  When the constructor throws, nothing is
    assigned. *)
Definition nvidia_load : M background_removal_instance unit :=
  this <- get ;;
  fx <- VFX.new_background_removal ;;
  modify (set_nvidia_fx (Some fx)) ;;
  match _nvidia_fx this with
  | Some old => VFX.delete_background_removal old
  | None => ret tt
  end.

(** [nvidia_unload]: [_nvidia_fx.reset()]. *)
Definition nvidia_unload : M background_removal_instance unit :=
  this <- get ;;
  modify (set_nvidia_fx None) ;;
  match _nvidia_fx this with
  | Some old => VFX.delete_background_removal old
  | None => ret tt
  end.

(** [nvidia_size]. *)
Definition nvidia_size : M background_removal_instance unit :=
  this <- get ;;
  match _nvidia_fx this with
  | None => ret tt
  | Some _ =>
      let in_size := _in_size this in
      let '(input_size, output_size) :=
        VFX.size in_size (_in_size this) (_out_size this) in
      modify (set_in_size input_size) ;;
      modify (set_out_size output_size)
  end.

(** [nvidia_process]. *)
Definition nvidia_process : M background_removal_instance unit :=
  this <- get ;;
  match _nvidia_fx this with
  | None => modify (set_mask (Some (_input this)))
  | Some _ =>
      m <- on_member _nvidia_fx set_nvidia_fx (VFX.process (_input this)) ;;
      modify (set_mask m)
  end.

(** ** Switching the provider *)

Definition switching : event :=
  Log LOG_INFO here
    "Instance '%s' is switching provider from '%s' to '%s'.".

(** [switch_provider]. *)
Definition switch_provider (provider : background_removal_provider)
  : M background_removal_instance unit :=
  with_lock
    (this <- get ;;
     (* Safeguard against calls made from unlocked memory. *)
     if provider_eqb provider (_provider this) then ret tt
     else
       (* Log information. *)
       emit switching ;;
       (* 1.If there is an existing task, attempt to cancel it. *)
       (match _provider_task this with
        | Some t => threadpool_pop t
        | None => ret tt
        end) ;;
       (* 2. Build data to pass into the task. *)
       emit (MakeSwitchData (_provider this)) ;;
       let spd := {| spd_provider := _provider this |} in
       modify (set_provider provider) ;;
       (* 3. Then spawn a new task to switch provider. *)
       h <- threadpool_push spd ;;
       modify (set_provider_task (Some h))).

(** Step 3 of the task: unload the previous provider. *)
Definition unload_previous (spd : switch_provider_data_t)
  : M background_removal_instance unit :=
  match spd_provider spd with
  | NVIDIA_GREEN_SCREEN => nvidia_unload
  | _ => ret tt
  end.

(** Step 4 of the task: load the new provider, the one [_provider]
    names when the task runs. *)
Definition load_new : M background_removal_instance unit :=
  this <- get ;;
  match _provider this with
  | NVIDIA_GREEN_SCREEN => nvidia_load
  | _ => ret tt
  end.

Definition switch_failed : event :=
  Log LOG_ERROR here
    "Instance '%s' failed switching provider with error: %s".

Definition switch_done : event :=
  Log LOG_INFO here "Instance '%s' switched provider from '%s' to '%s'.".

(** [task_switch_provider] up to the lock: step 1, which the worker
    does while another thread may hold the lock. *)
Definition task_begin : M background_removal_instance unit :=
  (* 1. Mark the provider as no longer ready. *)
  modify (set_provider_ready false).

(** [task_switch_provider] from the lock on. *)
Definition task_locked (spd : switch_provider_data_t)
  : M background_removal_instance unit :=
  (* 2. Lock the provider from being used. *)
  with_lock
    (try_catch_std
       ((* 3. Unload the previous provider. *)
        unload_previous spd ;;
        (* 4. Load the new provider. *)
        load_new ;;
        (* Log information. *)
        emit switch_done ;;
        (* 5. Set the new provider as valid. *)
        modify (set_provider_ready true))
       (fun _ => emit switch_failed)).

(** [task_switch_provider], when the worker gets the lock at once. *)
Definition task_switch_provider (spd : switch_provider_data_t)
  : M background_removal_instance unit :=
  task_begin ;;
  task_locked spd.

(** A pool worker starts on the oldest queued task: it takes the task
    off the queue and does step 1.  The result is the data of the task
    it now has to finish, if there was a task. *)
Definition start_next_task
  : M background_removal_instance (option switch_provider_data_t) :=
  t <- threadpool_take ;;
  match t with
  | Some spd => task_begin ;; ret (Some spd)
  | None => ret None
  end.

(** A pool worker that no other thread gets in the way of: the oldest
    queued task is taken off the queue and run from its first step to
    its last. *)
Definition run_next_task : M background_removal_instance bool :=
  t <- threadpool_take ;;
  match t with
  | Some spd => task_switch_provider spd ;; ret true
  | None => ret false
  end.

(** ** Configuration *)

(** The loop of [update] over [provider_priority]: the first available
    entry replaces [provider] and ends the loop. *)
Fixpoint resolve_automatic (f : background_removal_factory)
    (priority : list background_removal_provider)
    (provider : background_removal_provider)
  : background_removal_provider :=
  match priority with
  | [] => provider
  | v :: rest =>
      if is_provider_available f v then v
      else resolve_automatic f rest provider
  end.

(** [update(data)]; [data] is the integer stored under [ST_KEY_PROVIDER].
    An integer that names no enumerator differs from [_provider], so
    [switch_provider] is entered and [cstring] raises its "Missing
    Conversion Entry" while the first log line is put together. *)
Definition update (f : background_removal_factory) (data : Z)
  : M background_removal_instance unit :=
  match provider_of_int data with
  | Some provider =>
      let provider :=
        if provider_eqb provider AUTOMATIC
        then resolve_automatic f provider_priority provider
        else provider in
      (* Check if the provider was changed, and if so switch. *)
      this <- get ;;
      (if negb (provider_eqb provider (_provider this))
       then switch_provider provider
       else ret tt) ;;
      this <- get ;;
      if _provider_ready this then with_lock (ret tt) else ret tt
  | None =>
      with_lock (throw (runtime_error "Missing Conversion Entry"))
  end.

(** ** Tick and render *)

Definition is_none {A : Type} (o : option A) : bool :=
  match o with None => true | Some _ => false end.

(** [get_width], [get_height]. *)
Definition get_width (this : background_removal_instance) : Z :=
  Z.max (fst (_out_size this)) 1.
Definition get_height (this : background_removal_instance) : Z :=
  Z.max (snd (_out_size this)) 1.

(** [video_tick]. *)
Definition video_tick (h : host) : M background_removal_instance unit :=
  let width := base_width h in
  let height := base_height h in
  modify (set_in_size (width, height)) ;;
  modify (set_out_size (width, height)) ;;
  (* Allow the provider to restrict the size. *)
  this <- get ;;
  (if negb (is_none (target h)) && _provider_ready this then
     with_lock
       (match _provider this with
        | NVIDIA_GREEN_SCREEN => nvidia_size
        | _ => ret tt
        end)
   else ret tt) ;;
  modify (set_dirty true).

(** The capture of the incoming frame into [_input], once
    [obs_source_process_filter_begin] has agreed. *)
Definition capture (h : host) : M background_removal_instance unit :=
  this <- get ;;
  emit (CaptureInput (fst (_in_size this)) (snd (_in_size this))) ;;
  modify (set_input
            {| GS.get_width := fst (_in_size this);
               GS.get_height := snd (_in_size this);
               GS.get_color_format := GS_RGBA_UNORM;
               GS.get_pixels := Frame (frame h) |}).

(** The [switch (_provider)] inside the processing [try]. *)
Definition process_step : M background_removal_instance unit :=
  this <- get ;;
  match _provider this with
  | NVIDIA_GREEN_SCREEN => nvidia_process
  | _ => modify (set_mask None)
  end.

(** The masking block: the captured colours with the mask's alpha are
    drawn into [_masked].  An exception in it is taken to arise before
    anything is drawn. *)
Definition mask_step (h : host) (width height : Z) (mask : GS.texture)
  : M background_removal_instance unit :=
  if mask_throws h then throw (runtime_error "masking failed")
  else
    this <- get ;;
    emit (MaskInput width height) ;;
    modify (set_masked
              {| GS.get_width := width;
                 GS.get_height := height;
                 GS.get_color_format := GS_RGBA_UNORM;
                 GS.get_pixels := Masked (GS.get_pixels (_input this))
                                      (GS.get_pixels mask) |}).

Definition no_result : event :=
  Log LOG_ERROR here "Provider '%s' did not return a result.".

(** The body of [if (_dirty) { ... }]; [false] stands for the early
    [return]s of [video_render]. *)
Definition refresh (h : host) (width height : Z)
  : M background_removal_instance bool :=
  (* Lock the provider from being changed. *)
  with_lock
    (emit (ProcessFilterBegin (filter_begin h)) ;;
     if filter_begin h then
       (* Capture the incoming frame. *)
       capture h ;;
       (* Process the captured input with the provider. *)
       processed <- try_catch_all (process_step ;; ret true)
                      (emit SkipVideoFilter ;; ret false) ;;
       if processed then
         this <- get ;;
         match _mask this with
         | None =>
             emit no_result ;;
             emit SkipVideoFilter ;;
             ret false
         | Some mask =>
             (* Mask the input with the mask from the provider. *)
             masked <- try_catch_all
                         (mask_step h width height mask ;; ret true)
                         (emit SkipVideoFilter ;; ret false) ;;
             if masked then modify (set_dirty false) ;; ret true
             else ret false
         end
       else ret false
     else
       emit SkipVideoFilter ;;
       ret false).

(** Draw the result for the next filter to use. *)
Definition draw : M background_removal_instance unit :=
  this <- get ;;
  emit (DrawSprite (_masked this)
          (fst (_out_size this)) (snd (_out_size this))).

(** The test that makes [video_render] skip the filter, on [target]
    after it has fallen back to [parent]. *)
Definition must_skip (h : host) (this : background_removal_instance)
  : bool :=
  let target :=
    match target h with Some t => Some t | None => parent h end in
  negb (_provider_ready this) || is_none target
  || (base_width h =? 0) || (base_height h =? 0).

(** [video_render]. *)
Definition video_render (h : host) : M background_removal_instance unit :=
  let width := base_width h in
  let height := base_height h in
  this <- get ;;
  if must_skip h this then emit SkipVideoFilter
  else
    proceed <- (if _dirty this then refresh h width height
                else ret true) ;;
    if proceed then draw else ret tt.

(** [background_removal_instance(data, self)] before [load(data)]. *)
Definition initial : background_removal_instance :=
  let rt := CV.make_gs_texture 1 1 GS_RGBA_UNORM in
  {| _in_size := (1, 1);
     _out_size := (1, 1);
     _provider_ready := false;
     _provider := INVALID;
     _provider_task := None;
     _input := rt;
     _mask := Some rt;
     _masked := rt;
     _dirty := false;
     _nvidia_fx := None |}.

End Filter.

(* ================================================================== *)
(** * filter::background_removal: creation, destruction, callbacks *)
(* ================================================================== *)

Module FilterLife.
Import Filter.

(** [background_removal_instance(data, self)]: the members as the
    initialiser list and the body leave them, then [load(data)], which is
    [update(data)], when there are settings. *)
Definition new_instance (f : background_removal_factory) (data : option Z)
  : M background_removal_instance unit :=
  match data with
  | Some d => update f d
  | None => ret tt
  end.

(** [~background_removal_instance()]: under the lock the adapter of the
    active provider is unloaded; the members are destroyed after the
    body, which releases an adapter that is still held.  A release the
    runtime refuses ends the process, as in [CV.delete_texture]. *)
Definition delete_instance : M background_removal_instance unit :=
  with_lock
    (this <- get ;;
     match _provider this with
     | NVIDIA_GREEN_SCREEN => nvidia_unload
     | _ => ret tt
     end) ;;
  this <- get ;;
  match _nvidia_fx this with
  | Some fx =>
      modify (set_nvidia_fx None) ;;
      VFX.delete_background_removal fx
  | None => ret tt
  end.

(** What the host and the thread pool do with an instance. *)
Inductive call : Type :=
| do_update (f : background_removal_factory) (data : Z)
| do_tick (h : host)
| do_render (h : host)
| do_task.

Definition perform (c : call) : M background_removal_instance unit :=
  match c with
  | do_update f data => update f data
  | do_tick h => video_tick h
  | do_render h => video_render h
  | do_task => _ <- run_next_task ;; ret tt
  end.

(** A history of calls, each on what the one before left; an exception
    that a call lets out ends that call and nothing else, and the end of
    the process ends the history. *)
Fixpoint perform_all (cs : list call) (s : background_removal_instance)
    (w : world) : background_removal_instance * world :=
  match cs with
  | [] => (s, w)
  | c :: rest =>
      match perform c s w with
      | (Throw terminate, s', w') => (s', w')
      | (_, s', w') => perform_all rest s' w'
      end
  end.

(** ** Workers next to the host

    A task that a worker has begun is not run in one piece: step 1 is
    done when the worker picks the task up, the rest when the worker gets
    the lock, and the host, the user and other workers may come in
    between.  The callbacks of the host are taken whole. *)

(** The instance and its world, the tasks that workers have begun and
    not finished (oldest first), and whether the process has ended. *)
Record system : Type :=
  { instance : background_removal_instance;
    surroundings : world;
    begun : list switch_provider_data_t;
    ended : bool }.

(** One step of the system. *)
Inductive move : Type :=
| calls (c : call)        (* a callback, or a task run in one piece *)
| begins                  (* a worker picks up the oldest queued task *)
| proceeds (n : nat).     (* the worker of the n-th begun task gets the lock *)

(** The list without its [n]-th element. *)
Fixpoint without {A : Type} (n : nat) (l : list A) : list A :=
  match n, l with
  | _, [] => []
  | O, _ :: rest => rest
  | Datatypes.S n, a :: rest => a :: without n rest
  end.

(** What a step makes of the system; once the process has ended nothing
    moves any more. *)
Definition move_on (m : move) (p : system) : system :=
  if ended p then p
  else
    match m with
    | calls c =>
        let '(r, s, w) := perform c (instance p) (surroundings p) in
        {| instance := s; surroundings := w; begun := begun p;
           ended := ends_process r |}
    | begins =>
        let '(r, s, w) := start_next_task (instance p) (surroundings p) in
        {| instance := s; surroundings := w;
           begun := match r with
                    | Ok (Some spd) => begun p ++ [spd]
                    | _ => begun p
                    end;
           ended := ends_process r |}
    | proceeds n =>
        match nth_error (begun p) n with
        | Some spd =>
            let '(r, s, w) := task_locked spd (instance p) (surroundings p) in
            {| instance := s; surroundings := w;
               begun := without n (begun p);
               ended := ends_process r |}
        | None => p
        end
    end.

(** A history of steps, each on what the one before left. *)
Fixpoint play (ms : list move) (p : system) : system :=
  match ms with
  | [] => p
  | m :: rest => play rest (move_on m p)
  end.

(** The system around an instance no task of which is under way. *)
Definition at_rest (s : background_removal_instance) (w : world) : system :=
  {| instance := s; surroundings := w; begun := []; ended := false |}.

(** Requests for a provider, one after the other. *)
Fixpoint request_all (ps : list background_removal_provider)
    (s : background_removal_instance) (w : world)
  : background_removal_instance * world :=
  match ps with
  | [] => (s, w)
  | p :: rest =>
      let '(_, s', w') := switch_provider p s w in
      request_all rest s' w'
  end.

End FilterLife.

(* ================================================================== *)
(** * nvidia::cv::cv and nvidia::vfx::vfx: finding the runtime *)
(* ================================================================== *)

Module Loader.
Local Open Scope string_scope.

(** A [std::filesystem::path], by its components; the empty path is the
    default-constructed one. *)
Definition path : Type := list string.

(** A loaded shared library: which one it is, and what
    [load_symbol] finds in it. *)
Record library : Type :=
  { image : nat;
    load_symbol : string -> bool }.

(** What the process sees of the machine. *)
Record platform : Type :=
  { win32 : bool;                    (* WIN32 is defined *)
    dxgicommon : bool;               (* __dxgicommon_h__ is defined *)
    load : path -> option library;   (* util::library::load; None: it throws *)
    getenv : string -> option path;  (* GetEnvironmentVariableW, size > 0 *)
    program_files : option path;     (* SHGetKnownFolderPath, S_OK *)
    file_exists : path -> bool }.    (* std::filesystem::exists *)

Definition ENV_NVIDIA_AR_SDK_PATH : string := "NV_AR_SDK_PATH".
Definition ENV_NVIDIA_VIDEO_EFFECTS_SDK_PATH : string :=
  "NV_VIDEO_EFFECTS_PATH".

(** [std::filesystem::exists]; the empty path names nothing. *)
Definition path_exists (pf : platform) (p : path) : bool :=
  match p with
  | [] => false
  | _ => file_exists pf p
  end.

(** [str / "NVIDIA Corporation" / sdk / LIB_NAME]. *)
Definition install_path (base : path) (sdk lib_name : string) : path :=
  (base ++ ["NVIDIA Corporation"; sdk; lib_name])%list.

(** [throw std::runtime_error("Failed to load '" LIB_NAME "'.")]. *)
Definition failed_to_load (lib_name : string) : exn :=
  runtime_error ("Failed to load '" ++ lib_name ++ "'.").

(** The [NV*_LOAD_SYMBOL] lines, in order: the first name the library
    does not have ends the constructor. *)
Fixpoint load_symbols (lib_name : string) (lib : library)
    (names : list string) : outcome unit :=
  match names with
  | [] => Ok tt
  | name :: rest =>
      if load_symbol lib name then load_symbols lib_name lib rest
      else
        Throw (runtime_error
                 ("Failed to load '" ++ name ++ "' from '" ++ lib_name
                  ++ "'."))
  end.

(** ** nvidia::cv::cv *)

Module CVImage.

Definition LIB_NAME (pf : platform) : string :=
  if win32 pf then "NVCVImage.dll" else "libNVCVImage.so".

(** Step 1 of the constructor: [_vfx_sdk_path] and [_ar_sdk_path] when
    the block has run. *)
Definition sdk_paths (pf : platform) : path * path :=
  let _vfx_sdk_path : path := [] in
  let _ar_sdk_path : path := [] in
  let _vfx_sdk_path :=
    match getenv pf ENV_NVIDIA_VIDEO_EFFECTS_SDK_PATH with
    | Some p => p
    | None =>
        match program_files pf with
        | Some str => install_path str "NVIDIA Video Effects" (LIB_NAME pf)
        | None => _vfx_sdk_path
        end
    end in
  match getenv pf ENV_NVIDIA_AR_SDK_PATH with
  | Some p => (_vfx_sdk_path, p)
  | None =>
      match program_files pf with
      | Some str =>
          (install_path str "NVIDIA AR SDK" (LIB_NAME pf), _ar_sdk_path)
      | None => (_vfx_sdk_path, _ar_sdk_path)
      end
  end.

(** Step 2: [_lib_paths]. *)
Definition lib_paths (pf : platform) : list path :=
  let '(_vfx_sdk_path, _ar_sdk_path) := sdk_paths pf in
  ((if path_exists pf _vfx_sdk_path then [_vfx_sdk_path] else [])
   ++ (if path_exists pf _ar_sdk_path then [_ar_sdk_path] else []))%list.

(** Step 3, the loop: every path is tried; a load that succeeds is
    assigned to [_library], one that throws is logged and passed over. *)
Fixpoint try_paths (pf : platform) (paths : list path)
    (_library : option library) : option library :=
  match paths with
  | [] => _library
  | p :: rest =>
      match load pf p with
      | Some lib => try_paths pf rest (Some lib)
      | None => try_paths pf rest _library
      end
  end.

(** The [try] block and its handler. *)
Definition find_library (pf : platform) : outcome library :=
  match load pf [LIB_NAME pf] with
  | Some lib => Ok lib
  | None =>
      if win32 pf then
        match lib_paths pf with
        | [] => Throw (failed_to_load (LIB_NAME pf))
        | paths =>
            match try_paths pf paths None with
            | Some lib => Ok lib
            | None => Throw (failed_to_load (LIB_NAME pf))
            end
        end
      else Throw (runtime_error "Not yet implemented.")
  end.

Definition symbols (pf : platform) : list string :=
  (["NvCVImage_Init"; "NvCVImage_InitView"; "NvCVImage_Alloc";
   "NvCVImage_Realloc"; "NvCVImage_Dealloc"; "NvCVImage_Create";
   "NvCVImage_Destroy"; "NvCVImage_ComponentOffsets"; "NvCVImage_Transfer";
   "NvCVImage_TransferRect"; "NvCVImage_TransferFromYUV";
   "NvCVImage_TransferToYUV"; "NvCVImage_MapResource";
   "NvCVImage_UnmapResource"; "NvCVImage_Composite";
   "NvCVImage_CompositeRect"; "NvCVImage_CompositeOverConstant";
   "NvCVImage_FlipY"; "NvCVImage_GetYUVPointers";
   "NvCV_GetErrorStringFromCode"]
  ++ (if win32 pf then
        ["NvCVImage_InitFromD3D11Texture"; "NvCVImage_ToD3DFormat";
         "NvCVImage_FromD3DFormat"]
        ++ (if dxgicommon pf then
              ["NvCVImage_ToD3DColorSpace"; "NvCVImage_FromD3DColorSpace"]
            else [])
      else []))%list.

(** [nvidia::cv::cv::cv()]. *)
Definition new_cv (pf : platform) : outcome library :=
  match find_library pf with
  | Ok lib =>
      match load_symbols (LIB_NAME pf) lib (symbols pf) with
      | Ok _ => Ok lib
      | Throw e => Throw e
      end
  | Throw e => Throw e
  end.

End CVImage.

(** ** nvidia::vfx::vfx *)

Module VideoEffects.

Definition LIB_NAME (pf : platform) : string :=
  if win32 pf then "NVVideoEffects.dll" else "libNVVideoEffects.so".

(** Step 1: [_vfx_sdk_path]. *)
Definition sdk_path (pf : platform) : path :=
  match getenv pf ENV_NVIDIA_VIDEO_EFFECTS_SDK_PATH with
  | Some p => p
  | None =>
      match program_files pf with
      | Some str => install_path str "NVIDIA Video Effects" (LIB_NAME pf)
      | None => []
      end
  end.

(** The [try] block and its handler. *)
Definition find_library (pf : platform) : outcome library :=
  match load pf [LIB_NAME pf] with
  | Some lib => Ok lib
  | None =>
      if win32 pf then
        let _vfx_sdk_path := sdk_path pf in
        if negb (path_exists pf _vfx_sdk_path)
        then Throw (failed_to_load (LIB_NAME pf))
        else
          match load pf _vfx_sdk_path with
          | Some lib => Ok lib
          | None => Throw (failed_to_load (LIB_NAME pf))
          end
      else Throw (runtime_error "Not yet implemented.")
  end.

Definition symbols : list string :=
  ["NvVFX_GetVersion"; "NvVFX_CreateEffect"; "NvVFX_DestroyEffect";
   "NvVFX_SetU32"; "NvVFX_SetS32"; "NvVFX_SetF32"; "NvVFX_SetF64";
   "NvVFX_SetU64"; "NvVFX_SetImage"; "NvVFX_SetObject"; "NvVFX_SetString";
   "NvVFX_SetCudaStream"; "NvVFX_GetU32"; "NvVFX_GetS32"; "NvVFX_GetF32";
   "NvVFX_GetF64"; "NvVFX_GetU64"; "NvVFX_GetImage"; "NvVFX_GetObject";
   "NvVFX_GetString"; "NvVFX_GetCudaStream"; "NvVFX_Run"; "NvVFX_Load"].

(** [nvidia::vfx::vfx::vfx()]. *)
Definition new_vfx (pf : platform) : outcome library :=
  match find_library pf with
  | Ok lib =>
      match load_symbols (LIB_NAME pf) lib symbols with
      | Ok _ => Ok lib
      | Throw e => Throw e
      end
  | Throw e => Throw e
  end.

End VideoEffects.

(** ** The shared runtime objects and the factory of the filter *)

(** [nvidia::cv::cv::get()] and [nvidia::vfx::vfx::get()]: [instance] is
    the object the static weak pointer still leads to, if it has not
    expired; otherwise one is built. *)
Definition get_cv (pf : platform) (instance : option library)
  : outcome library :=
  match instance with
  | None => CVImage.new_cv pf
  | Some lib => Ok lib
  end.

Definition get_vfx (pf : platform) (instance : option library)
  : outcome library :=
  match instance with
  | None => VideoEffects.new_vfx pf
  | Some lib => Ok lib
  end.

(** [background_removal_factory()]: the three runtimes are fetched in
    order inside [try { ... } catch (const std::exception&)]; [cuda] is
    what [nvidia::cuda::obs::get()] does.  The result is the factory and
    whether it registered the filter with the host. *)
Definition new_factory (pf : platform) (cuda : outcome unit)
    (cv_instance vfx_instance : option library)
  : outcome (Filter.background_removal_factory * bool) :=
  let any_available := false in
  (* 1. Try and load any configured providers. *)
  let attempt :=
    match cuda with
    | Ok _ =>
        match get_cv pf cv_instance with
        | Ok _ =>
            match get_vfx pf vfx_instance with
            | Ok _ => Ok true
            | Throw e => Throw e
            end
        | Throw e => Throw e
        end
    | Throw e => Throw e
    end in
  let caught :=
    match attempt with
    | Ok available => Ok available
    | Throw (runtime_error _) => Ok false
    | Throw e => Throw e
    end in
  match caught with
  | Ok _nvidia_available =>
      let any_available := any_available || _nvidia_available in
      (* 2. Check if any of them managed to load at all; 3. register. *)
      Ok ({| Filter._nvidia_available := _nvidia_available |}, any_available)
  | Throw e => Throw e
  end.

Close Scope string_scope.
End Loader.

(* ================================================================== *)
(** * Vocabulary of the properties *)
(* ================================================================== *)

(** An empty world, and the two factories there are. *)
Definition quiet : world :=
  {| trace := []; script := []; pool := []; next_handle := 0%nat |}.

Definition with_nvidia : Filter.background_removal_factory :=
  {| Filter._nvidia_available := true |}.

Definition without_nvidia : Filter.background_removal_factory :=
  {| Filter._nvidia_available := false |}.

(** A host view of a 1280x720 source that lets the filter capture. *)
Definition hd_view (n : nat) : Filter.host :=
  {| Filter.parent := Some 1%nat;
     Filter.target := Some 2%nat;
     Filter.base_width := 1280;
     Filter.base_height := 720;
     Filter.filter_begin := true;
     Filter.frame := n;
     Filter.mask_throws := false |}.

(** Runs [m] after an earlier step, whatever that step's outcome was. *)
Definition and_then {S A B : Type} (m : M S B) (x : outcome A * S * world)
  : outcome B * S * world :=
  match x with (_, s, w) => m s w end.

(** The events a step added to the trace [before] it. *)
Definition added (before : list event) (after : list event) : list event :=
  skipn (List.length before) after.

(** [m] never changes the object it runs on. *)
Definition keeps_state {S A : Type} (m : M S A) : Prop :=
  forall s w, snd (fst (m s w)) = s.

(** The outcome is the dereference of an empty pointer. *)
Definition null_throw {A : Type} (o : outcome A) : bool :=
  match o with Throw null_pointer => true | _ => false end.

(** [m] never dereferences a null pointer. *)
Definition never_null {S A : Type} (m : M S A) : Prop :=
  forall s w, null_throw (fst (fst (m s w))) = false.

(** [m] never ends the process. *)
Definition never_ends {S A : Type} (m : M S A) : Prop :=
  forall s w, ends_process (fst (fst (m s w))) = false.

(** The outcome is no exception: a return, or the end of the process. *)
Definition no_exception {A : Type} (o : outcome A) : bool :=
  match o with
  | Ok _ => true
  | Throw terminate => true
  | Throw _ => false
  end.

(** [m] raises no exception its caller could catch. *)
Definition raises_nothing {S A : Type} (m : M S A) : Prop :=
  forall s w, no_exception (fst (fst (m s w))) = true.

Module VFXTerms.

(** One reallocation cycle of a mapped texture: unmap and deallocate
    the old buffer, create the texture anew, wrap and map it. *)
Definition reallocation (t : CV.texture) (width height : Z) : list event :=
  [Log LOG_DEBUG nvidia_cv_texture
     "Resizing object 0x%PRIxPTR to %PRIu32x%PRIu32...";
   Call (NvCVImage_UnmapResource (CV.tag t)) SUCCESS;
   Call (NvCVImage_Dealloc (CV.tag t)) SUCCESS;
   NewTexture (CV.tag t) width height (GS.get_color_format (CV._texture t));
   Call (NvCVImage_InitFromD3D11Texture (CV.tag t)) SUCCESS;
   Call (NvCVImage_MapResource (CV.tag t)) SUCCESS].

(** The texture and the image after their cycle. *)
Definition reallocated (t : CV.texture) (width height : Z) : CV.texture :=
  {| CV.tag := CV.tag t;
     CV._texture :=
       CV.make_gs_texture width height (GS.get_color_format (CV._texture t));
     CV._image := CV.mapped |}.

Definition resized_image (i : CV.image) (width height : Z) : CV.image :=
  {| CV.itag := CV.itag i; CV.image_width := width;
     CV.image_height := height |}.

(** What [resize] does for the input side and for the output side when
    it finds the size changed. *)
Definition input_cycle (t : CV.texture) (i : CV.image) (width height : Z)
  : list event :=
  reallocation t width height
  ++ [Call (cv_image_resize (CV.itag i) width height) SUCCESS;
      Call (NvVFX_SetImage PARAMETER_INPUT_IMAGE_0 r_source) SUCCESS;
      Call (NvVFX_SetU32 PARAMETER_MODE 0) SUCCESS].

Definition output_cycle (i : CV.image) (t : CV.texture) (width height : Z)
  : list event :=
  [Call (cv_image_resize (CV.itag i) width height) SUCCESS]
  ++ reallocation t width height
  ++ [Call (NvVFX_SetImage PARAMETER_OUTPUT_IMAGE_0 r_destination) SUCCESS].

(** The whole of what a [resize] to [width] x [height] has to do. *)
Definition resize_work (input : CV.texture) (source destination : CV.image)
    (output : CV.texture) (width height : Z) : list event :=
  (if VFX.size_differs width height input
   then input_cycle input source width height else [])
  ++ (if VFX.size_differs width height output
      then output_cycle destination output width height else []).

(** The requests in a stretch of the trace, without their status codes
    and without the error log lines. *)
Definition attempted (evs : list event) : list event :=
  map (fun e => match e with Call c _ => Call c SUCCESS | _ => e end)
    (filter (fun e =>
               match e with Log LOG_ERROR _ _ => false | _ => true end)
       evs).

(** An adapter whose five buffers exist, as they do from the end of its
    constructor on. *)
Definition bound (o : VFX.background_removal)
    (input : CV.texture) (source destination : CV.image)
    (output : CV.texture) (tmp : CV.image) : Prop :=
  VFX._input o = Some input
  /\ VFX._source o = Some source
  /\ VFX._destination o = Some destination
  /\ VFX._output o = Some output
  /\ VFX._tmp o = Some tmp.

(** The adapter as its constructor leaves it with a runtime that
    reports success: buffers of 160x90, loaded, not dirty. *)
Definition fresh_input : CV.texture :=
  {| CV.tag := r_input;
     CV._texture := CV.make_gs_texture 160 90 GS_RGBA_UNORM;
     CV._image := CV.mapped |}.

Definition fresh_output : CV.texture :=
  {| CV.tag := r_output;
     CV._texture := CV.make_gs_texture 160 90 GS_A8;
     CV._image := CV.mapped |}.

Definition fresh_image (r : role) : CV.image :=
  {| CV.itag := r; CV.image_width := 160; CV.image_height := 90 |}.

Definition fresh_adapter : VFX.background_removal :=
  {| VFX._fx := true;
     VFX._input := Some fresh_input;
     VFX._source := Some (fresh_image r_source);
     VFX._destination := Some (fresh_image r_destination);
     VFX._output := Some fresh_output;
     VFX._tmp := Some (fresh_image r_tmp);
     VFX._dirty := false |}.

End VFXTerms.

Module FilterTerms.
Import Filter.

(** Unloading and loading touch no member but [_nvidia_fx], and
    dereference no empty pointer. *)
Definition only_fx {A : Type} (m : M background_removal_instance A)
  : Prop :=
  forall s w,
    exists o fx w',
      m s w = (o, set_nvidia_fx fx s, w') /\ null_throw o = false.

(** The attempt of the task: unload the previous provider, then load
    the new one. *)
Definition attempt (spd : switch_provider_data_t)
  : M background_removal_instance unit :=
  unload_previous spd ;; load_new.

(** The queue after [threadpool()->pop(_provider_task)], if there was a
    task handle. *)
Definition cancelled (handle : option nat) (queue : list task)
  : list task :=
  match handle with
  | Some h => filter (fun t => negb (Nat.eqb (task_handle t) h)) queue
  | None => queue
  end.

(** A filter that runs the NVIDIA provider: the settings asked for it
    and the pool has run the switch. *)
Definition running
  : outcome bool * background_removal_instance * world :=
  Eval vm_compute in
    and_then run_next_task (update with_nvidia 1 initial quiet).

(** The first provider of the priority list the factory can offer, or
    the automatic value itself when it can offer none. *)
Definition first_available (f : background_removal_factory)
  : background_removal_provider :=
  match find (is_provider_available f) provider_priority with
  | Some v => v
  | None => AUTOMATIC
  end.

(** The instance once the incoming frame is in [_input]. *)
Definition captured (h : host) (s : background_removal_instance)
  : background_removal_instance :=
  set_input
    {| GS.get_width := fst (_in_size s);
       GS.get_height := snd (_in_size s);
       GS.get_color_format := GS_RGBA_UNORM;
       GS.get_pixels := Frame (frame h) |}
    s.

(** The world once the lock is held and the frame captured. *)
Definition capturing (s : background_removal_instance) (w : world)
  : world :=
  record_event
    (CaptureInput (fst (_in_size s)) (snd (_in_size s)))
    (record_event (ProcessFilterBegin true) (record_event Lock w)).

(** How the processing [try] block of a render call ends, when the
    call gets that far. *)
Definition processed (h : host) (s : background_removal_instance)
    (w : world) : outcome unit * background_removal_instance * world :=
  process_step (captured h s) (capturing s w).

(** The cached frame after a composite of [mask] over the capture. *)
Definition composite (width height : Z) (input mask : GS.texture)
  : GS.texture :=
  {| GS.get_width := width;
     GS.get_height := height;
     GS.get_color_format := GS_RGBA_UNORM;
     GS.get_pixels := Masked (GS.get_pixels input) (GS.get_pixels mask) |}.

(** The world with [evs] added to its trace. *)
Definition after (evs : list event) (w : world) : world :=
  {| trace := trace w ++ evs;
     script := script w;
     pool := pool w;
     next_handle := next_handle w |}.

(** A render call that is not skipped and finds the dirty flag set
    runs the refresh and, unless that returned early, draws. *)
Definition render_dirty (h : host) : M background_removal_instance unit :=
  proceed <- refresh h (base_width h) (base_height h) ;;
  if proceed then draw else ret tt.

(** The instance after a refresh that went through. *)
Definition refreshed (h : host) (mask : GS.texture)
    (s2 : background_removal_instance) : background_removal_instance :=
  set_dirty false
    (set_masked
       (composite (base_width h) (base_height h) (_input s2) mask) s2).

(** The members the refresh leaves alone when it returns early. *)
Definition frame_kept (s s2 : background_removal_instance) : Prop :=
  _masked s2 = _masked s
  /\ _dirty s2 = _dirty s
  /\ _provider s2 = _provider s
  /\ _provider_ready s2 = _provider_ready s
  /\ _out_size s2 = _out_size s
  /\ is_none (_nvidia_fx s2) = is_none (_nvidia_fx s).

(** The log lines of the filter instance itself among [evs]. *)
Definition filter_logs (evs : list event) : list event :=
  filter (fun e =>
            match e with
            | Log _ filter_background_removal _ => true
            | _ => false
            end) evs.

(** The world with the runtime about to answer [codes]. *)
Definition scripted (codes : list result) (w : world) : world :=
  {| trace := trace w; script := codes; pool := pool w;
     next_handle := next_handle w |}.

(** The running filter after it has rendered frame 7 of a 1280x720
    source and has been ticked again. *)
Definition warmed_up
  : outcome unit * background_removal_instance * world :=
  Eval vm_compute in
    and_then (video_tick (hd_view 8))
      (and_then (video_render (hd_view 7))
         (and_then (video_tick (hd_view 7)) running)).

(** The running filter after it has rendered frame 7. *)
Definition rendered
  : outcome unit * background_removal_instance * world :=
  Eval vm_compute in
    and_then (video_render (hd_view 7))
      (and_then (video_tick (hd_view 7)) running).

End FilterTerms.

Module AdapterTerms.
Import VFXTerms.

(** The texture is [width] x [height]. *)
Definition has_size (t : CV.texture) (width height : Z) : Prop :=
  GS.get_width (CV.get_texture t) = width
  /\ GS.get_height (CV.get_texture t) = height.

(** The image is [width] x [height]. *)
Definition image_has_size (i : CV.image) (width height : Z) : Prop :=
  CV.image_width i = width /\ CV.image_height i = height.

(** An adapter in working order at [width] x [height]: it holds its
    effect, its buffers exist under their own names, the two textures
    are mapped, and all but the scratch image have that size. *)
Definition settled (o : VFX.background_removal) (width height : Z) : Prop :=
  exists input source destination output tmp,
    bound o input source destination output tmp
    /\ VFX._fx o = true
    /\ (CV.tag input = r_input /\ CV.itag source = r_source
        /\ CV.itag destination = r_destination
        /\ CV.tag output = r_output /\ CV.itag tmp = r_tmp)
    /\ (CV._image input = CV.mapped /\ CV._image output = CV.mapped)
    /\ (has_size input width height /\ has_size output width height)
    /\ (image_has_size source width height
        /\ image_has_size destination width height).

(** Frame [n] of a 1280x720 source, as the filter hands it over. *)
Definition hd_frame (n : nat) : GS.texture :=
  {| GS.get_width := 1280;
     GS.get_height := 720;
     GS.get_color_format := GS_RGBA_UNORM;
     GS.get_pixels := Frame n |}.

(** The trace ends with an error line of the adapter or of one of its
    textures. *)
Definition logged_last (w : world) : Prop :=
  exists pre from msg,
    trace w = pre ++ [Log LOG_ERROR from msg]
    /\ from <> filter_background_removal.

(** What the constructor of the adapter asks of the runtime, in order,
    when nothing fails. *)
Definition construction : list event :=
  [Call NvVFX_CreateEffect SUCCESS;
   Call NvVFX_SetCudaStream SUCCESS;
   Call (NvVFX_SetString PARAMETER_MODEL_DIRECTORY) SUCCESS;
   Call (cv_image_new r_tmp 160 90) SUCCESS;
   NewTexture r_input 160 90 GS_RGBA_UNORM;
   Call (NvCVImage_InitFromD3D11Texture r_input) SUCCESS;
   Call (NvCVImage_MapResource r_input) SUCCESS;
   Call (cv_image_new r_source 160 90) SUCCESS;
   Call (NvVFX_SetImage PARAMETER_INPUT_IMAGE_0 r_source) SUCCESS;
   Call (NvVFX_SetU32 PARAMETER_MODE 0) SUCCESS;
   Call (cv_image_new r_destination 160 90) SUCCESS;
   NewTexture r_output 160 90 GS_A8;
   Call (NvCVImage_InitFromD3D11Texture r_output) SUCCESS;
   Call (NvCVImage_MapResource r_output) SUCCESS;
   Call (NvVFX_SetImage PARAMETER_OUTPUT_IMAGE_0 r_destination) SUCCESS;
   Call NvVFX_SetCudaStream SUCCESS;
   Call NvVFX_Load SUCCESS].

(** A stretch of the trace up to its first error line, that line
    included, and what follows it. *)
Fixpoint until_error (evs : list event) : list event :=
  match evs with
  | [] => []
  | Log LOG_ERROR from msg :: _ => [Log LOG_ERROR from msg]
  | e :: rest => e :: until_error rest
  end.

Fixpoint after_error (evs : list event) : list event :=
  match evs with
  | [] => []
  | Log LOG_ERROR _ _ :: rest => rest
  | _ :: rest => after_error rest
  end.

Definition role_eqb (a b : role) : bool :=
  match a, b with
  | r_input, r_input => true
  | r_source, r_source => true
  | r_destination, r_destination => true
  | r_output, r_output => true
  | r_tmp, r_tmp => true
  | _, _ => false
  end.

(** What a stretch of the constructor's trace has built: the effect, an
    image, a mapped texture. *)
Definition effect_created (evs : list event) : bool :=
  existsb (fun e =>
             match e with
             | Call NvVFX_CreateEffect SUCCESS => true
             | _ => false
             end) evs.

Definition image_allocated (r : role) (evs : list event) : bool :=
  existsb (fun e =>
             match e with
             | Call (cv_image_new r' _ _) SUCCESS => role_eqb r r'
             | _ => false
             end) evs.

Definition texture_mapped (r : role) (evs : list event) : bool :=
  existsb (fun e =>
             match e with
             | Call (NvCVImage_MapResource r') SUCCESS => role_eqb r r'
             | _ => false
             end) evs.

(** What the destruction of the members owes the runtime after [evs]:
    the release of everything [evs] has built, the member declared last
    first. *)
Definition unwinding (evs : list event) : list event :=
  (if image_allocated r_tmp evs
   then [Call (cv_image_delete r_tmp) SUCCESS] else [])
  ++ (if texture_mapped r_output evs
      then [Call (NvCVImage_UnmapResource r_output) SUCCESS;
            Call (NvCVImage_Dealloc r_output) SUCCESS] else [])
  ++ (if image_allocated r_destination evs
      then [Call (cv_image_delete r_destination) SUCCESS] else [])
  ++ (if image_allocated r_source evs
      then [Call (cv_image_delete r_source) SUCCESS] else [])
  ++ (if texture_mapped r_input evs
      then [Call (NvCVImage_UnmapResource r_input) SUCCESS;
            Call (NvCVImage_Dealloc r_input) SUCCESS] else [])
  ++ (if effect_created evs
      then [Call NvVFX_DestroyEffect SUCCESS] else []).

(** What [process] asks for when there is nothing to resize or load. *)
Definition frame_work : list event :=
  [CopyTexture r_input;
   Call (NvCVImage_Transfer r_input r_source r_tmp) SUCCESS;
   Call NvVFX_Run SUCCESS;
   Call (NvCVImage_Transfer r_destination r_output r_tmp) SUCCESS].

(** What the destructor of a settled adapter asks for. *)
Definition release : list event :=
  [Call NvVFX_DestroyEffect SUCCESS;
   Call (NvCVImage_UnmapResource r_input) SUCCESS;
   Call (NvCVImage_Dealloc r_input) SUCCESS;
   Call (cv_image_delete r_source) SUCCESS;
   Call (cv_image_delete r_destination) SUCCESS;
   Call (NvCVImage_UnmapResource r_output) SUCCESS;
   Call (NvCVImage_Dealloc r_output) SUCCESS;
   Call (cv_image_delete r_tmp) SUCCESS].

(** [process] after its call of [resize]. *)
Definition finish (in_ : GS.texture)
  : M VFX.background_removal (option GS.texture) :=
  this <- get ;;
  (if VFX._dirty this then VFX.load else ret tt) ;;
  on_member VFX._input VFX.set_input
    (emit (CopyTexture r_input) ;; modify (VFX.copy_into in_)) ;;
  checked (NvCVImage_Transfer r_input r_source r_tmp) VFX.here
    "Failed to transfer input to processing source due to error: %s"
    "Transfer failed." ;;
  checked NvVFX_Run VFX.here
    "Failed to process due to error: %s" "Run failed." ;;
  checked (NvCVImage_Transfer r_destination r_output r_tmp) VFX.here
    "Failed to transfer processing result to output due to error: %s"
    "Transfer failed." ;;
  on_member VFX._output VFX.set_output (modify (VFX.store_matte in_)) ;;
  this <- get ;;
  ret (option_map CV.get_texture (VFX._output this)).

End AdapterTerms.

Module PipelineTerms.
Import Filter FilterTerms FilterLife VFXTerms AdapterTerms.

(** An adapter that holds its effect handle and its five buffers. *)
Definition alive (o : VFX.background_removal) : Prop :=
  VFX._fx o = true
  /\ exists input source destination output tmp,
       bound o input source destination output tmp.

(** The adapter the instance holds, if it holds one, is alive. *)
Definition holds_buffers (fx : option VFX.background_removal) : Prop :=
  match fx with
  | Some o => alive o
  | None => True
  end.

(** Every queued task is the one whose handle the instance keeps, and
    there is at most one. *)
Definition queue_in_hand (s : background_removal_instance) (w : world)
  : Prop :=
  Forall (fun t => _provider_task s = Some (task_handle t)) (pool w)
  /\ (List.length (pool w) <= 1)%nat.

(** What holds of an instance at every moment of its life, whatever
    tasks are under way: its adapter, if any, is alive, and the queue
    holds at most the task it knows of. *)
Definition consistent (s : background_removal_instance) (w : world)
  : Prop :=
  holds_buffers (_nvidia_fx s)
  /\ queue_in_hand s w.

(** The adapter the task leaves when both its steps go through: the
    one step 4 builds when the provider now active is the NVIDIA one,
    none when only the previous one was, and otherwise whatever was
    there. *)
Definition adapter_after (previous : background_removal_provider)
    (s : background_removal_instance) : option VFX.background_removal :=
  match _provider s with
  | NVIDIA_GREEN_SCREEN => Some fresh_adapter
  | _ =>
      match previous with
      | NVIDIA_GREEN_SCREEN => None
      | _ => _nvidia_fx s
      end
  end.

(** The host shows a source to draw: a target or a parent, of a size
    that is not zero either way. *)
Definition presentable (h : host) : bool :=
  negb (is_none (match target h with Some t => Some t | None => parent h end))
  && negb (base_width h =? 0) && negb (base_height h =? 0).

(** [m] leaves the thread pool alone. *)
Definition keeps_pool {S A : Type} (m : M S A) : Prop :=
  forall s w,
    pool (snd (m s w)) = pool w
    /\ next_handle (snd (m s w)) = next_handle w.

(** The calls into the runtime among [evs]. *)
Definition runtime_calls (evs : list event) : list event :=
  filter (fun e => match e with Call _ _ => true | _ => false end) evs.

(** The requests to destroy an effect among [evs]. *)
Definition destroy_requests (evs : list event) : list event :=
  filter (fun e =>
            match e with
            | Call NvVFX_DestroyEffect _ => true
            | _ => false
            end) evs.

End PipelineTerms.

Module LoaderTerms.
Import Loader.
Local Open Scope string_scope.

(** The library has every name of the list. *)
Definition complete (lib : library) (names : list string) : Prop :=
  forall name, In name names -> load_symbol lib name = true.

(** The last path of the list that loads, if any. *)
Definition last_loadable (pf : platform) (paths : list path)
  : option library :=
  match find (fun p => match load pf p with Some _ => true | None => false end)
          (rev paths) with
  | Some p => load pf p
  | None => None
  end.

(** A Windows machine on which only the Video Effects SDK is installed,
    at [where_], announced by its environment variable. *)
Definition video_effects_only (where_ : path) (lib : library) : platform :=
  {| win32 := true;
     dxgicommon := false;
     load := fun p => if list_eq_dec string_dec p where_ then Some lib
                      else None;
     getenv := fun name =>
                 if string_dec name ENV_NVIDIA_VIDEO_EFFECTS_SDK_PATH
                 then Some where_ else None;
     program_files := Some ["C:"; "Program Files"];
     file_exists := fun p => if list_eq_dec string_dec p where_ then true
                             else false |}.

(** A library that has every symbol. *)
Definition full_library : library :=
  {| image := 1%nat; load_symbol := fun _ => true |}.

Close Scope string_scope.
End LoaderTerms.

Module CycleTerms.
Import Filter FilterTerms FilterLife VFXTerms AdapterTerms PipelineTerms.

(** One tick and one render call for each view of the host, in order. *)
Fixpoint frames (hs : list host) : list call :=
  match hs with
  | [] => []
  | h :: rest => do_tick h :: do_render h :: frames rest
  end.


(** The host lets the filter capture a source to draw. *)
Definition capturable (h : host) : Prop :=
  presentable h = true /\ filter_begin h = true.


(** An instance whose provider is marked ready and has no
    implementation: the NVIDIA provider ran, the settings then named no
    provider, and the pool ran that switch too. *)
Definition idling : background_removal_instance * world :=
  Eval vm_compute in
    perform_all
      [do_update with_nvidia 1; do_task; do_update with_nvidia (-1); do_task]
      initial quiet.

(** An instance in the window between the request for the NVIDIA
    provider and the run of the task: the provider that was there before
    had been marked ready.  From the state above the settings asked for
    NVIDIA again, and the host ticked. *)
Definition awaiting_switch
  : background_removal_instance * world :=
  Eval vm_compute in
    perform_all
      [do_update with_nvidia 1; do_task; do_update with_nvidia (-1); do_task;
       do_update with_nvidia 1; do_tick (hd_view 5)]
      initial quiet.



End CycleTerms.

(* ================================================================== *)
(** * Properties *)
(* ================================================================== *)
(* ================================================================== *)

Lemma added_app (before evs : list event) : added before (before ++ evs) = evs.
Proof.
  unfold added. induction before as [|e before IH]; simpl; auto.
Qed.

Lemma added_same (before : list event) : added before before = [].
Proof.
  unfold added. induction before as [|e before IH]; simpl; auto.
Qed.

Lemma provider_eqb_eq (a b : background_removal_provider) :
  provider_eqb a b = true <-> a = b.
Proof. destruct a, b; simpl; split; intro H; congruence. Qed.

Lemma provider_eqb_refl (a : background_removal_provider) :
  provider_eqb a a = true.
Proof. now destruct a. Qed.

Lemma provider_eqb_neq (a b : background_removal_provider) :
  provider_eqb a b = false <-> a <> b.
Proof. destruct a, b; simpl; split; intro H; congruence. Qed.

Lemma provider_of_to_int (p : background_removal_provider) :
  provider_of_int (provider_to_int p) = Some p.
Proof. now destruct p. Qed.

(** Only the low 32 bits of the stored integer count. *)
Example provider_of_int_wraps :
  provider_of_int 4294967297 = Some NVIDIA_GREEN_SCREEN
  /\ provider_of_int 4294967295 = Some INVALID
  /\ provider_of_int 2 = None.
Proof. repeat split. Qed.

(* ------------------------------------------------------------------ *)
(** ** Computations that leave the object alone *)

Lemma keeps_ret {S A} (a : A) : keeps_state (@ret S A a).
Proof. now intros s w. Qed.

Lemma keeps_bind {S A B} (m : M S A) (k : A -> M S B) :
  keeps_state m -> (forall a, keeps_state (k a)) -> keeps_state (bind m k).
Proof.
  intros Hm Hk s w. unfold bind.
  specialize (Hm s w). destruct (m s w) as [[[a|e] s1] w1]; simpl in *; subst.
  - apply Hk.
  - reflexivity.
Qed.

Lemma keeps_nv {S} c : keeps_state (@nv S c).
Proof. now intros s w. Qed.

Lemma keeps_emit {S} e : keeps_state (@emit S e).
Proof. now intros s w. Qed.

Lemma keeps_throw {S A} e : keeps_state (@throw S A e).
Proof. now intros s w. Qed.

Lemma keeps_checked {S} c from msg what : keeps_state (@checked S c from msg what).
Proof.
  unfold checked. apply keeps_bind; [apply keeps_nv|].
  intros r. destruct (is_success r).
  - apply keeps_ret.
  - apply keeps_bind; [apply keeps_emit| intros; apply keeps_throw].
Qed.

Lemma keeps_construct {S T} (init : T) body unwind :
  keeps_state (@construct S T init body unwind).
Proof.
  intros s w. unfold construct.
  destruct (body init w) as [[[a|[what| |]] t] w1]; try reflexivity.
  destruct (unwind t s w1) as [[[a|e] t1] w2]; reflexivity.
Qed.

Lemma keeps_delete_texture {S} t : keeps_state (@CV.delete_texture S t).
Proof.
  intros s w. unfold CV.delete_texture.
  destruct (CV.free t w) as [[[a|e] t1] w1]; reflexivity.
Qed.

Lemma never_ret {S A} (a : A) : never_null (@ret S A a).
Proof. now intros s w. Qed.

Lemma never_bind {S A B} (m : M S A) (k : A -> M S B) :
  never_null m -> (forall a, never_null (k a)) -> never_null (bind m k).
Proof.
  intros Hm Hk s w. unfold bind.
  specialize (Hm s w). destruct (m s w) as [[[a|e] s1] w1]; simpl in *.
  - apply Hk.
  - exact Hm.
Qed.

Lemma never_nv {S} c : never_null (@nv S c).
Proof. now intros s w. Qed.
Lemma never_emit {S} e : never_null (@emit S e).
Proof. now intros s w. Qed.
Lemma never_get {S} : never_null (@get S).
Proof. now intros s w. Qed.
Lemma never_modify {S} f : never_null (@modify S f).
Proof. now intros s w. Qed.
Lemma never_throw_runtime {S A} what : never_null (@throw S A (runtime_error what)).
Proof. now intros s w. Qed.

Lemma never_checked {S} c from msg what : never_null (@checked S c from msg what).
Proof.
  unfold checked. apply never_bind; [apply never_nv|].
  intros r. destruct (is_success r).
  - apply never_ret.
  - apply never_bind; [apply never_emit| intros; apply never_throw_runtime].
Qed.

Ltac never_null_step :=
  first [ apply never_checked | apply never_get | apply never_modify
        | apply never_ret | apply never_nv | apply never_emit
        | apply never_bind; [|intros] ].

Lemma never_free : never_null CV.free.
Proof. unfold CV.free. repeat never_null_step. Qed.

Lemma never_delete_texture {S} t : never_null (@CV.delete_texture S t).
Proof.
  intros s w. unfold CV.delete_texture.
  destruct (CV.free t w) as [[[a|e] t1] w1]; reflexivity.
Qed.

Lemma never_delete_image {S} i : never_null (@CV.delete_image S i).
Proof. unfold CV.delete_image. repeat never_null_step. Qed.

Lemma never_delete_background_removal {S} o :
  never_null (@VFX.delete_background_removal S o).
Proof.
  unfold VFX.delete_background_removal.
  repeat first
    [ apply never_delete_texture | apply never_delete_image
    | never_null_step
    | match goal with
      | |- never_null (if ?b then _ else _) => destruct b
      | |- never_null (match ?x with Some _ => _ | None => _ end) => destruct x
      end ].
Qed.

(** Case analysis on the status code the next runtime call returns. *)
Ltac next_code :=
  match goal with
  | |- context [match ?sc with [] => _ | _ :: _ => _ end] =>
      is_var sc; destruct sc as [|[|?] sc]
  end.

Lemma never_new_background_removal {S} :
  never_null (@VFX.new_background_removal S).
Proof.
  intros s [tr sc pl nh].
  cbv -[app].
  repeat next_code; reflexivity.
Qed.

(* ------------------------------------------------------------------ *)
(** ** Computations that do not end the process *)

Lemma lives_ret {S A} (a : A) : never_ends (@ret S A a).
Proof. now intros s w. Qed.

Lemma lives_bind {S A B} (m : M S A) (k : A -> M S B) :
  never_ends m -> (forall a, never_ends (k a)) -> never_ends (bind m k).
Proof.
  intros Hm Hk s w. unfold bind.
  specialize (Hm s w). destruct (m s w) as [[[a|e] s1] w1]; simpl in *.
  - apply Hk.
  - exact Hm.
Qed.

Lemma lives_nv {S} c : never_ends (@nv S c).
Proof. now intros s w. Qed.
Lemma lives_emit {S} e : never_ends (@emit S e).
Proof. now intros s w. Qed.
Lemma lives_get {S} : never_ends (@get S).
Proof. now intros s w. Qed.
Lemma lives_modify {S} f : never_ends (@modify S f).
Proof. now intros s w. Qed.
Lemma lives_throw_runtime {S A} what :
  never_ends (@throw S A (runtime_error what)).
Proof. now intros s w. Qed.

Lemma lives_checked {S} c from msg what :
  never_ends (@checked S c from msg what).
Proof.
  unfold checked. apply lives_bind; [apply lives_nv|].
  intros r. destruct (is_success r).
  - apply lives_ret.
  - apply lives_bind; [apply lives_emit| intros; apply lives_throw_runtime].
Qed.

Lemma lives_on_member {S T A} (member : S -> option T) store (m : M T A) :
  never_ends m -> never_ends (on_member member store m).
Proof.
  intros Hm s w. unfold on_member.
  destruct (member s) as [t|]; [|reflexivity].
  specialize (Hm t w). destruct (m t w) as [[o t'] w']. exact Hm.
Qed.

(** A constructor whose members ask nothing of the runtime when they
    are destroyed does not end the process unless its body does. *)
Lemma lives_construct {S T} (init : T) (body : M T unit) :
  never_ends body ->
  never_ends (@construct S T init body (fun _ => ret tt)).
Proof.
  intros Hb s w. unfold construct.
  specialize (Hb init w).
  destruct (body init w) as [[[a|[what| |]] t] w1]; simpl in *;
    first [reflexivity | discriminate Hb].
Qed.

Ltac lives_step :=
  first [ apply lives_checked | apply lives_get | apply lives_modify
        | apply lives_ret | apply lives_nv | apply lives_emit
        | apply lives_on_member | apply lives_construct
        | apply lives_bind; [|intros] ].

Lemma lives_alloc : never_ends CV.alloc.
Proof. unfold CV.alloc. repeat lives_step. Qed.

Lemma lives_free : never_ends CV.free.
Proof. unfold CV.free. repeat lives_step. Qed.

Lemma lives_texture_resize width height : never_ends (CV.resize width height).
Proof.
  unfold CV.resize.
  repeat first [apply lives_free | apply lives_alloc | lives_step].
Qed.

Lemma lives_new_texture {S} r width height fmt :
  never_ends (@CV.new_texture S r width height fmt).
Proof.
  unfold CV.new_texture.
  repeat first [apply lives_alloc | lives_step].
Qed.

Lemma lives_new_image {S} r width height :
  never_ends (@CV.new_image S r width height).
Proof. unfold CV.new_image. repeat lives_step. Qed.

Lemma lives_resize_image width height :
  never_ends (CV.resize_image width height).
Proof. unfold CV.resize_image. repeat lives_step. Qed.

Ltac lives_walk :=
  repeat first
    [ apply lives_texture_resize | apply lives_new_texture
    | apply lives_new_image | apply lives_resize_image
    | lives_step
    | match goal with
      | |- never_ends (if ?b then _ else _) => destruct b
      | |- never_ends (match ?x with Some _ => _ | None => _ end) =>
          destruct x
      end ].

(** [resize], [load] and [process] destroy nothing: whatever the runtime
    answers, they return or throw. *)
Lemma lives_resize width height : never_ends (VFX.resize width height).
Proof. unfold VFX.resize. lives_walk. Qed.

Lemma lives_load : never_ends VFX.load.
Proof. unfold VFX.load. lives_walk. Qed.

Lemma lives_process in_ : never_ends (VFX.process in_).
Proof.
  unfold VFX.process.
  repeat first [apply lives_resize | apply lives_load | lives_walk].
Qed.

(* ------------------------------------------------------------------ *)
(** ** Size enforcement *)

Module NvFilterSpec.
Import NvFilter.

(** The branch taken for a wide input clamps the width, the long side,
    into [142, 1920], and the one for a tall or square input clamps
    the height into [80, 1080]; the other side follows. *)
Lemma enforce_size_clamps_dominant (x y : Z) (out : Z * Z) :
  _enforce_size_nvidia_background_removal x y = Some out ->
  if y <? x then fst out = clamp x 142 1920
  else snd out = clamp y 80 1080.
Proof.
  unfold _enforce_size_nvidia_background_removal.
  destruct (y <? x).
  - destruct (round_to_uint32 _); intros [= <-]; reflexivity.
  - destruct (round_to_uint32 _); intros [= <-]; reflexivity.
Qed.

(** C8, the input on which the function misses the limits its comments
    name: for 4000x30 it returns 1920x14, whose short side is 14 and
    not 80. *)
Lemma enforce_size_4000x30_short_side_is_not_80 :
  _enforce_size_nvidia_background_removal 4000 30 = Some (1920, 14)
  /\ short_side (1920, 14) <> 80.
Proof.
  split; [vm_compute; reflexivity | vm_compute; discriminate].
Qed.

(** C8: what the function does with 4000x30.  It returns 1920x14: the
    branch for a wide input clamps the width, the long side, into
    [142, 1920] and lets the height follow from the aspect ratio (14.4,
    rounded to 14).  Nothing then brings the height into the range of 80
    to 1080 lines that the comments of the function name as the limit it
    is there to keep: the short side of the result lies below 80. *)
Theorem enforce_size_4000x30 :
  _enforce_size_nvidia_background_removal 4000 30 = Some (1920, 14)
  /\ long_side (1920, 14) = clamp (long_side (4000, 30)) 142 1920
  /\ 2 * Z.abs (short_side (1920, 14) * 4000 - 1920 * 30) <= 4000
  /\ short_side (1920, 14) < 80.
Proof.
  split; [vm_compute; reflexivity|].
  split; [reflexivity|].
  split; [vm_compute; discriminate | reflexivity].
Qed.

End NvFilterSpec.

(* ------------------------------------------------------------------ *)
(** ** The adapter's size report *)

Module VFXSpec.
Import VFXTerms.

(** C10: [size] reports the input size as the output size, component
    by component, whatever the sizes are, and hands the input size
    back as it was; the instance's [nvidia_size] therefore makes
    [_out_size] equal to [_in_size] when an adapter is loaded, and does
    nothing when none is. *)
Theorem size_is_identity :
  (forall size input_size output_size : Z * Z,
      let '(input_size', output_size') :=
        VFX.size size input_size output_size in
      input_size' = input_size
      /\ fst output_size' = fst input_size
      /\ snd output_size' = snd input_size)
  /\ (forall (s : Filter.background_removal_instance) (w : world),
         Filter.nvidia_size s w
         = (Ok tt,
            match Filter._nvidia_fx s with
            | Some _ => Filter.set_out_size (Filter._in_size s) s
            | None => s
            end,
            w)).
Proof.
  split.
  - intros size [iw ih] [ow oh]. simpl. auto.
  - intros s w. unfold Filter.nvidia_size, bind, get.
    destruct (Filter._nvidia_fx s) eqn:E; [|reflexivity].
    destruct s as [[iw ih] [ow oh] ? ? ? ? ? ? ? ?].
    simpl in *. reflexivity.
Qed.


(** ** Resizing the adapter's buffers *)

Ltac resize_crank :=
  cbv -[app VFX.size_differs added reallocation input_cycle output_cycle
        reallocated resized_image orb].

Ltac size_case :=
  match goal with
  | |- context [VFX.size_differs ?w ?h ?t] =>
      destruct (VFX.size_differs w h t)
  end.

Ltac resize_path :=
  intros E;
  first
    [ discriminate E
    | injection E as <- <-; cbn [trace];
      repeat rewrite <- app_assoc;
      first [rewrite added_app | rewrite added_same];
      repeat split ].

(** A completed [resize] of an adapter that has its buffers. *)
Lemma resize_completed (o : VFX.background_removal)
    (input : CV.texture) (source destination : CV.image)
    (output : CV.texture) (tmp : CV.image)
    (width height : Z) (w : world)
    (o' : VFX.background_removal) (w' : world) :
  bound o input source destination output tmp ->
  VFX.resize width height o w = (Ok tt, o', w') ->
  let in_changed := VFX.size_differs width height input in
  let out_changed := VFX.size_differs width height output in
  added (trace w) (trace w')
  = (if in_changed then input_cycle input source width height else [])
    ++ (if out_changed then output_cycle destination output width height
        else [])
  /\ VFX._input o'
     = Some (if in_changed then reallocated input width height else input)
  /\ VFX._source o'
     = Some (if in_changed then resized_image source width height
             else source)
  /\ VFX._destination o'
     = Some (if out_changed then resized_image destination width height
             else destination)
  /\ VFX._output o'
     = Some (if out_changed then reallocated output width height
             else output)
  /\ VFX._tmp o' = Some tmp
  /\ VFX._dirty o' = in_changed || out_changed || VFX._dirty o.
Proof.
  intros [Hi [Hs [Hd [Ho Ht]]]].
  destruct o as [fx oi os od oo ot dirty]. simpl in Hi, Hs, Hd, Ho, Ht.
  subst oi os od oo ot.
  destruct w as [tr sc pl nh].
  intros E in_changed out_changed. revert E.
  subst in_changed out_changed.
  resize_crank.
  repeat (first [next_code | size_case]; resize_crank).
  all: resize_path.
Qed.


Lemma size_differs_false (width height : Z) (t : CV.texture) :
  VFX.size_differs width height t = false
  <-> (GS.get_width (CV.get_texture t) = width
       /\ GS.get_height (CV.get_texture t) = height).
Proof.
  unfold VFX.size_differs.
  rewrite orb_false_iff, !negb_false_iff, !Z.eqb_eq.
  intuition congruence.
Qed.

(** Case analysis on the next status code when all of them are known to
    be [SUCCESS]. *)
Ltac success_code H :=
  match goal with
  | |- context [match ?sc with [] => _ | _ :: _ => _ end] =>
      is_var sc; destruct sc as [|[|?] sc];
      [ | simpl in H | simpl in H; discriminate H ]
  end.

(** With a runtime that reports success, [resize] completes. *)
Lemma resize_succeeds (o : VFX.background_removal)
    (input : CV.texture) (source destination : CV.image)
    (output : CV.texture) (tmp : CV.image)
    (width height : Z) (w : world) :
  bound o input source destination output tmp ->
  forallb is_success (script w) = true ->
  fst (fst (VFX.resize width height o w)) = Ok tt.
Proof.
  intros [Hi [Hs [Hd [Ho Ht]]]] Hok.
  destruct o as [fx oi os od oo ot dirty]. simpl in Hi, Hs, Hd, Ho, Ht.
  subst oi os od oo ot.
  destruct w as [tr sc pl nh]. simpl in Hok.
  resize_crank.
  repeat (first [success_code Hok | size_case]; resize_crank).
  all: reflexivity.
Qed.

(** The buffers exist when the constructor has returned, and [resize]
    keeps them in existence however it ends. *)
Lemma constructed_is_bound {S : Type} (s s' : S) (w w' : world)
    (o : VFX.background_removal) :
  VFX.new_background_removal s w = (Ok o, s', w') ->
  exists input source destination output tmp,
    bound o input source destination output tmp.
Proof.
  destruct w as [tr sc pl nh].
  cbv -[app].
  repeat next_code;
    (intros E; first [discriminate E | injection E as <- _ _]);
    do 5 eexists; repeat split.
Qed.

Lemma resize_keeps_bound (o : VFX.background_removal)
    (input : CV.texture) (source destination : CV.image)
    (output : CV.texture) (tmp : CV.image)
    (width height : Z) (w : world) :
  bound o input source destination output tmp ->
  exists input' source' destination' output',
    bound (snd (fst (VFX.resize width height o w)))
      input' source' destination' output' tmp.
Proof.
  intros [Hi [Hs [Hd [Ho Ht]]]].
  destruct o as [fx oi os od oo ot dirty]. simpl in Hi, Hs, Hd, Ho, Ht.
  subst oi os od oo ot.
  destruct w as [tr sc pl nh].
  resize_crank.
  repeat (first [next_code | size_case]; resize_crank).
  all: do 4 eexists; repeat split.
Qed.

Lemma fresh_adapter_constructed :
  fst (fst (VFX.new_background_removal tt quiet)) = Ok fresh_adapter.
Proof. vm_compute. reflexivity. Qed.

(** Whatever its outcome, a call of [resize] goes through an initial
    part of its work, in order: no buffer is reallocated twice, and none
    is touched when its size has not changed. *)
Lemma resize_attempts_its_work (o : VFX.background_removal)
    (input : CV.texture) (source destination : CV.image)
    (output : CV.texture) (tmp : CV.image)
    (width height : Z) (w : world) :
  bound o input source destination output tmp ->
  exists rest,
    resize_work input source destination output width height
    = attempted (added (trace w)
                   (trace (snd (VFX.resize width height o w))))
      ++ rest.
Proof.
  intros [Hi [Hs [Hd [Ho Ht]]]].
  destruct o as [fx oi os od oo ot dirty]. simpl in Hi, Hs, Hd, Ho, Ht.
  subst oi os od oo ot.
  destruct w as [tr sc pl nh].
  unfold resize_work.
  cbv -[app VFX.size_differs added reallocation input_cycle output_cycle
        attempted].
  repeat (first [next_code | size_case];
          cbv -[app VFX.size_differs added reallocation input_cycle
                output_cycle attempted]).
  all: repeat rewrite <- app_assoc;
    first [rewrite added_app | rewrite added_same];
    simpl; eexists; reflexivity.
Qed.

(** C7: for an adapter with its buffers, [resize(width, height)] with
    the size the input and output textures already have frees,
    allocates and maps nothing and leaves the dirty flag as it is; with
    another size, and a runtime that reports success, it completes, and
    a completed call has run exactly one reallocation cycle on each
    texture whose size differed (unmap, deallocate, new texture, wrap,
    map, at the requested size), has resized the matching image, has
    set the provider's image parameter again, and has marked the
    adapter dirty.  A call that a failing runtime call cuts short has
    gone through an initial part of that same work and no more. *)
Theorem resize_reallocates_on_change (o : VFX.background_removal)
    (input : CV.texture) (source destination : CV.image)
    (output : CV.texture) (tmp : CV.image)
    (width height : Z) (w : world) :
  bound o input source destination output tmp ->
  let in_changed := VFX.size_differs width height input in
  let out_changed := VFX.size_differs width height output in
  (GS.get_width (CV.get_texture input) = width
   /\ GS.get_height (CV.get_texture input) = height
   /\ GS.get_width (CV.get_texture output) = width
   /\ GS.get_height (CV.get_texture output) = height ->
   VFX.resize width height o w = (Ok tt, o, w))
  /\ (forallb is_success (script w) = true ->
      fst (fst (VFX.resize width height o w)) = Ok tt)
  /\ (forall o' w',
         VFX.resize width height o w = (Ok tt, o', w') ->
         added (trace w) (trace w')
         = (if in_changed then input_cycle input source width height
            else [])
           ++ (if out_changed
               then output_cycle destination output width height
               else [])
         /\ VFX._input o'
            = Some (if in_changed then reallocated input width height
                    else input)
         /\ VFX._output o'
            = Some (if out_changed then reallocated output width height
                    else output)
         /\ VFX._dirty o' = in_changed || out_changed || VFX._dirty o)
  /\ (exists rest,
         resize_work input source destination output width height
         = attempted (added (trace w)
                        (trace (snd (VFX.resize width height o w))))
           ++ rest).
Proof.
  intros Hb in_changed out_changed.
  split; [|split; [|split]].
  - intros [Hiw [Hih [How Hoh]]].
    assert (in_changed = false) as Hin
      by (apply size_differs_false; auto).
    assert (out_changed = false) as Hout
      by (apply size_differs_false; auto).
    destruct Hb as [Hi [Hs [Hd [Ho Ht]]]].
    unfold VFX.resize, bind, get.
    rewrite Ht. unfold ret at 1.
    unfold VFX.input_changed. rewrite Hi, Hs.
    fold in_changed. rewrite Hin. unfold ret at 1.
    unfold VFX.output_changed. rewrite Hd, Ho.
    fold out_changed. rewrite Hout. reflexivity.
  - apply (resize_succeeds o input source destination output tmp); assumption.
  - intros o' w' E.
    destruct (resize_completed o input source destination output tmp
                width height w o' w' Hb E)
      as [Htr [Hi' [_ [_ [Ho' [_ Hdirty]]]]]].
    auto.
  - apply (resize_attempts_its_work o input source destination output tmp).
    exact Hb.
Qed.

Lemma resize_reallocates_on_change_witness :
  bound fresh_adapter fresh_input (fresh_image r_source)
    (fresh_image r_destination) fresh_output (fresh_image r_tmp)
  /\ let '(r, o', w') := VFX.resize 1280 720 fresh_adapter quiet in
     r = Ok tt
     /\ trace w'
        = input_cycle fresh_input (fresh_image r_source) 1280 720
          ++ output_cycle (fresh_image r_destination) fresh_output 1280 720
     /\ VFX._input o' = Some (reallocated fresh_input 1280 720)
     /\ VFX._output o' = Some (reallocated fresh_output 1280 720)
     /\ VFX._dirty o' = true.
Proof.
  assert (bound fresh_adapter fresh_input (fresh_image r_source)
            (fresh_image r_destination) fresh_output (fresh_image r_tmp))
    as Hb by (repeat split).
  split; [exact Hb|].
  destruct (resize_reallocates_on_change fresh_adapter fresh_input
              (fresh_image r_source) (fresh_image r_destination)
              fresh_output (fresh_image r_tmp) 1280 720 quiet Hb)
    as [_ [Hok [Hc _]]].
  specialize (Hok eq_refl).
  destruct (VFX.resize 1280 720 fresh_adapter quiet) as [[r o'] w'].
  simpl in Hok. subst r.
  destruct (Hc o' w' eq_refl) as [Htr [Hi [Ho Hd]]].
  repeat split; assumption.
Defined.

End VFXSpec.

(* ------------------------------------------------------------------ *)
(** ** The filter instance *)

Module FilterSpec.
Import Filter FilterTerms.

Lemma keeps_delete_image {S} i : keeps_state (@CV.delete_image S i).
Proof.
  unfold CV.delete_image.
  apply keeps_bind; [apply keeps_nv | intros; apply keeps_ret].
Qed.

Lemma keeps_delete_background_removal {S} o :
  keeps_state (@VFX.delete_background_removal S o).
Proof.
  unfold VFX.delete_background_removal.
  repeat first
    [ apply keeps_delete_texture | apply keeps_delete_image
    | apply keeps_ret | apply keeps_nv
    | apply keeps_bind; [|intros]
    | match goal with
      | |- keeps_state (if ?b then _ else _) => destruct b
      | |- keeps_state (match ?x with Some _ => _ | None => _ end) =>
          destruct x
      end ].
Qed.

Lemma set_nvidia_fx_same (s : background_removal_instance) :
  set_nvidia_fx (_nvidia_fx s) s = s.
Proof. now destruct s. Qed.

Lemma only_fx_ret {A} (a : A) : only_fx (ret a).
Proof.
  intros s w. exists (Ok a), (_nvidia_fx s), w.
  now rewrite set_nvidia_fx_same.
Qed.

Lemma only_fx_nvidia_unload : only_fx nvidia_unload.
Proof.
  intros s w. unfold nvidia_unload, bind, get, modify.
  destruct (_nvidia_fx s) as [old|] eqn:E.
  - pose proof (keeps_delete_background_removal old
                  (set_nvidia_fx None s) w) as Hk.
    pose proof (never_delete_background_removal old
                  (set_nvidia_fx None s) w) as Hn.
    destruct (VFX.delete_background_removal old _ w) as [[o s1] w1].
    simpl in Hk, Hn. subst s1. now exists o, None, w1.
  - now exists (Ok tt), None, w.
Qed.

Lemma only_fx_nvidia_load : only_fx nvidia_load.
Proof.
  intros s w. unfold nvidia_load, bind, get, modify.
  pose proof (@never_new_background_removal _ s w) as Hn.
  pose proof (keeps_construct
                {| VFX._fx := false; VFX._input := None;
                   VFX._source := None; VFX._destination := None;
                   VFX._output := None; VFX._tmp := None;
                   VFX._dirty := true |}
                _ _ s w : snd (fst (VFX.new_background_removal s w)) = s)
    as Hk.
  destruct (VFX.new_background_removal s w) as [[[fx|e] s1] w1];
    simpl in Hk, Hn; subst s1.
  - destruct (_nvidia_fx s) as [old|] eqn:E.
    + pose proof (keeps_delete_background_removal old
                    (set_nvidia_fx (Some fx) s) w1) as Hk.
      pose proof (never_delete_background_removal old
                    (set_nvidia_fx (Some fx) s) w1) as Hd.
      destruct (VFX.delete_background_removal old _ w1) as [[o s2] w2].
      simpl in Hk, Hd. subst s2. now exists o, (Some fx), w2.
    + now exists (Ok tt), (Some fx), w1.
  - exists (Throw e), (_nvidia_fx s), w1.
    now rewrite set_nvidia_fx_same.
Qed.

Lemma only_fx_unload_previous spd : only_fx (unload_previous spd).
Proof.
  unfold unload_previous. destruct (spd_provider spd);
    auto using only_fx_ret, only_fx_nvidia_unload.
Qed.

Lemma only_fx_load_new : only_fx load_new.
Proof.
  intros s w. unfold load_new, bind, get.
  destruct (_provider s).
  - apply only_fx_ret.
  - apply only_fx_ret.
  - apply only_fx_nvidia_load.
Qed.

Lemma only_fx_bind {A B} (m : M background_removal_instance A)
    (k : A -> M background_removal_instance B) :
  only_fx m -> (forall a, only_fx (k a)) -> only_fx (bind m k).
Proof.
  intros Hm Hk s w. unfold bind.
  destruct (Hm s w) as [o [fx [w1 [-> Hn]]]].
  destruct o as [a|e].
  - destruct (Hk a (set_nvidia_fx fx s) w1) as [o2 [fx2 [w2 [-> Hn2]]]].
    now exists o2, fx2, w2.
  - now exists (Throw e), fx, w1.
Qed.

Lemma only_fx_attempt spd : only_fx (attempt spd).
Proof.
  apply only_fx_bind; [apply only_fx_unload_previous|].
  intros _. apply only_fx_load_new.
Qed.

(** The task from the lock on, by the way its attempt ended. *)
Lemma task_locked_unfold (spd : switch_provider_data_t)
    (s : background_removal_instance) (w : world) :
  task_locked spd s w
  = match attempt spd s (record_event Lock w) with
    | (Ok _, s2, w2) =>
        (Ok tt, set_provider_ready true s2,
         record_event Unlock (record_event switch_done w2))
    | (Throw (runtime_error _), s2, w2) =>
        (Ok tt, s2, record_event Unlock (record_event switch_failed w2))
    | (Throw null_pointer, s2, w2) =>
        (Throw null_pointer, s2, record_event Unlock w2)
    | (Throw terminate, s2, w2) => (Throw terminate, s2, w2)
    end.
Proof.
  unfold task_locked, attempt, with_lock, try_catch_std, bind, modify, emit.
  destruct (unload_previous spd _ _) as [[[[]|e1] s1] w1].
  - destruct (load_new s1 w1) as [[[[]|[what| |]] s2] w2]; reflexivity.
  - destruct e1; reflexivity.
Qed.

(** The task, by the way its attempt ended. *)
Lemma task_switch_provider_unfold (spd : switch_provider_data_t)
    (s : background_removal_instance) (w : world) :
  task_switch_provider spd s w
  = match attempt spd (set_provider_ready false s) (record_event Lock w) with
    | (Ok _, s2, w2) =>
        (Ok tt, set_provider_ready true s2,
         record_event Unlock (record_event switch_done w2))
    | (Throw (runtime_error _), s2, w2) =>
        (Ok tt, s2, record_event Unlock (record_event switch_failed w2))
    | (Throw null_pointer, s2, w2) =>
        (Throw null_pointer, s2, record_event Unlock w2)
    | (Throw terminate, s2, w2) => (Throw terminate, s2, w2)
    end.
Proof.
  exact (task_locked_unfold spd (set_provider_ready false s) w).
Qed.

(** The worker that is not interrupted, by what it finds queued. *)
Lemma run_next_task_unfold (s : background_removal_instance) (w : world) :
  run_next_task s w
  = match pool w with
    | [] => (Ok false, s, w)
    | t :: rest =>
        match task_switch_provider (task_data t) s
                {| trace := trace w; script := script w; pool := rest;
                   next_handle := next_handle w |} with
        | (Ok _, s', w') => (Ok true, s', w')
        | (Throw e, s', w') => (Throw e, s', w')
        end
    end.
Proof.
  unfold run_next_task, threadpool_take, bind at 1.
  destruct (pool w) as [|t rest]; [reflexivity|].
  unfold bind, ret.
  destruct (task_switch_provider _ _ _) as [[[[]|e] s'] w']; reflexivity.
Qed.

(** ** What a release can end in *)

Lemma quiet_ret {S A} (a : A) : raises_nothing (@ret S A a).
Proof. now intros s w. Qed.

Lemma quiet_bind {S A B} (m : M S A) (k : A -> M S B) :
  raises_nothing m -> (forall a, raises_nothing (k a)) ->
  raises_nothing (bind m k).
Proof.
  intros Hm Hk s w. unfold bind.
  specialize (Hm s w). destruct (m s w) as [[[a|e] s1] w1]; simpl in *.
  - apply Hk.
  - exact Hm.
Qed.

Lemma quiet_nv {S} c : raises_nothing (@nv S c).
Proof. now intros s w. Qed.

Lemma quiet_get {S} : raises_nothing (@get S).
Proof. now intros s w. Qed.

Lemma quiet_modify {S} f : raises_nothing (@modify S f).
Proof. now intros s w. Qed.

Lemma quiet_delete_texture {S} t : raises_nothing (@CV.delete_texture S t).
Proof.
  intros s w. unfold CV.delete_texture.
  destruct (CV.free t w) as [[[a|e] t1] w1]; reflexivity.
Qed.

Ltac quiet_step :=
  first [ apply quiet_delete_texture | apply quiet_ret | apply quiet_nv
        | apply quiet_get | apply quiet_modify
        | apply quiet_bind; [|intros]
        | match goal with
          | |- raises_nothing (if ?b then _ else _) => destruct b
          | |- raises_nothing (match ?x with Some _ => _ | None => _ end) =>
              destruct x
          end ].

(** The destructor of the adapter returns or ends the process. *)
Lemma quiet_delete_background_removal {S} o :
  raises_nothing (@VFX.delete_background_removal S o).
Proof.
  unfold VFX.delete_background_removal, VFX.destroy_effect, CV.delete_image.
  repeat quiet_step.
Qed.

Lemma quiet_unwind_background_removal {S} o :
  raises_nothing (@VFX.unwind_background_removal S o).
Proof.
  unfold VFX.unwind_background_removal, VFX.destroy_effect, CV.delete_image.
  repeat quiet_step.
Qed.

Lemma quiet_nvidia_unload : raises_nothing nvidia_unload.
Proof.
  unfold nvidia_unload.
  repeat first [apply quiet_delete_background_removal | quiet_step].
Qed.

(** Unloading the previous provider raises no exception the task could
    catch: what [texture::free] throws does not leave [~texture]. *)
Lemma quiet_unload_previous spd : raises_nothing (unload_previous spd).
Proof.
  unfold unload_previous.
  destruct (spd_provider spd);
    first [apply quiet_ret | apply quiet_nvidia_unload].
Qed.

(** After the task, [_provider_ready] is true only when the task set
    it, its last two steps being the success log line and the release
    of the lock; a value left from before the task never survives. *)
Lemma task_ready_is_fresh spd s w :
  let '(_, s', w') := task_switch_provider spd s w in
  _provider_ready s' = true ->
  exists pre, trace w' = pre ++ [switch_done; Unlock].
Proof.
  rewrite task_switch_provider_unfold.
  destruct (only_fx_attempt spd (set_provider_ready false s)
              (record_event Lock w)) as [o [fx [w2 [-> Hn]]]].
  destruct o as [[]|[what| |]]; simpl.
  - intros _. exists (trace w2). now rewrite <- app_assoc.
  - discriminate.
  - discriminate.
  - destruct fx; discriminate.
Qed.

(** The task writes [_provider_ready] and [_nvidia_fx] and nothing else. *)
Lemma task_switch_provider_frame spd s w :
  exists ready fx,
    snd (fst (task_switch_provider spd s w))
    = set_provider_ready ready (set_nvidia_fx fx s).
Proof.
  rewrite task_switch_provider_unfold.
  destruct (only_fx_attempt spd (set_provider_ready false s)
              (record_event Lock w)) as [o [fx [w2 [-> Hn]]]].
  destruct o as [[]|[what| |]]; simpl.
  - now exists true, fx.
  - now exists false, fx.
  - now exists false, fx.
  - now exists false, fx.
Qed.

(** C2: the task clears [_provider_ready] first.  A load of the new
    provider that raises an exception leaves the flag false and is
    logged, after which the lock is released and the task returns; the
    flag is true at the end only when the load went through, the success
    being logged before the flag is set.  Unloading the old provider
    raises nothing the task could catch: what the release of a buffer
    throws does not leave the destructor it is thrown in.  When that
    happens, in the unload or in the release that a load entails, the
    process ends where it is: the flag is false, the failure of the
    switch is not logged and the lock is not released. *)
Theorem task_switch_provider_ready (spd : switch_provider_data_t)
    (s : background_removal_instance) (w : world) :
  let s0 := set_provider_ready false s in
  let w0 := record_event Lock w in
  let '(o, s', w') := task_switch_provider spd s w in
  match unload_previous spd s0 w0 with
  | (Ok _, s1, w1) =>
      match load_new s1 w1 with
      | (Ok _, _, w2) =>
          o = Ok tt
          /\ _provider_ready s' = true
          /\ trace w' = trace w2 ++ [switch_done; Unlock]
      | (Throw (runtime_error _), _, w2) =>
          o = Ok tt
          /\ _provider_ready s' = false
          /\ trace w' = trace w2 ++ [switch_failed; Unlock]
      | (Throw e, _, w2) =>
          e = terminate
          /\ o = Throw terminate
          /\ _provider_ready s' = false
          /\ w' = w2
      end
  | (Throw e, _, w1) =>
      e = terminate
      /\ o = Throw terminate
      /\ _provider_ready s' = false
      /\ w' = w1
  end.
Proof.
  intros s0 w0.
  rewrite task_switch_provider_unfold. fold s0 w0.
  destruct (only_fx_attempt spd s0 w0) as [o [fx [w2 [E Hn]]]].
  rewrite E. unfold attempt, bind in E.
  pose proof (quiet_unload_previous spd s0 w0) as Hq.
  destruct (unload_previous spd s0 w0) as [[[[]|e1] s1] w1].
  - destruct (load_new s1 w1) as [[[[]|e2] s3] w3].
    + injection E as <- -> ->. simpl.
      rewrite <- app_assoc. auto.
    + injection E as <- -> ->. destruct e2; [|discriminate Hn|].
      * simpl. rewrite <- app_assoc. auto.
      * simpl. auto.
  - injection E as <- -> ->. simpl in Hq.
    destruct e1; try discriminate Hq. simpl. auto.
Qed.

(** C2, the run that goes wrong: the filter runs the NVIDIA provider and
    the settings name no provider any more; the runtime destroys the
    effect and then refuses to unmap the input texture.  The task does
    not return: the process ends inside the unload, the last line logged
    is the texture's own, the failure of the switch is not among the
    lines of the filter, and the lock is still held. *)
Lemma failed_unload_ends_the_process :
  let '(_, s, w) := running in
  let '(_, s1, w1) :=
    update with_nvidia (-1) s (scripted [SUCCESS; FAILURE 2] w) in
  let '(o, s2, w2) := run_next_task s1 w1 in
  o = Throw terminate
  /\ _provider_ready s2 = false
  /\ filter_logs (added (trace w1) (trace w2)) = []
  /\ added (trace w1) (trace w2)
     = [Lock;
        Call NvVFX_DestroyEffect SUCCESS;
        Call (NvCVImage_UnmapResource r_input) (FAILURE 2);
        Log LOG_ERROR nvidia_cv_texture
          "Object 0x%PRIxPTR failed NvCVImage_UnmapResource call with error: %s"].
Proof. vm_compute. repeat split. Qed.

(** ** Render: the skip test *)

Lemma must_skip_true_iff (h : host) (s : background_removal_instance) :
  must_skip h s = true
  <-> (_provider_ready s = false
       \/ (target h = None /\ parent h = None)
       \/ base_width h = 0
       \/ base_height h = 0).
Proof.
  unfold must_skip, is_none.
  rewrite !orb_true_iff, negb_true_iff, !Z.eqb_eq.
  destruct (target h), (parent h); intuition congruence.
Qed.

Lemma video_render_skipped (h : host) (s : background_removal_instance)
    (w : world) :
  must_skip h s = true ->
  video_render h s w = (Ok tt, s, record_event SkipVideoFilter w).
Proof.
  intros H. unfold video_render, bind, get. now rewrite H.
Qed.

(** C1: a render call made while the provider is not ready, or while
    the filter has no target (neither the next filter nor the parent),
    or while the target is zero wide or zero high, only tells the host
    to skip the filter: the instance, with its cached frame, its dirty
    flag and its adapter, is as before, and so are the pool and the
    runtime. *)
Theorem video_render_skips (h : host) (s : background_removal_instance)
    (w : world) :
  _provider_ready s = false
  \/ (target h = None /\ parent h = None)
  \/ base_width h = 0
  \/ base_height h = 0 ->
  video_render h s w = (Ok tt, s, record_event SkipVideoFilter w).
Proof.
  intros H. apply video_render_skipped.
  apply must_skip_true_iff. exact H.
Qed.

Lemma video_render_skips_witness :
  (_provider_ready initial = false
   \/ (target (hd_view 0) = None /\ parent (hd_view 0) = None)
   \/ base_width (hd_view 0) = 0
   \/ base_height (hd_view 0) = 0)
  /\ video_render (hd_view 0) initial quiet
     = (Ok tt, initial, record_event SkipVideoFilter quiet).
Proof.
  split.
  - left. reflexivity.
  - apply (video_render_skips (hd_view 0) initial quiet).
    left. reflexivity.
Defined.

(** ** Switching *)

(** C3: [switch_provider] called with the provider that is already
    active takes the lock, sees the two are equal and returns: nothing
    is allocated or queued, and the instance, with its active provider,
    its readiness flag and its task handle, is as before. *)
Theorem switch_provider_same (s : background_removal_instance)
    (w : world) :
  let '(o, s', w') := switch_provider (_provider s) s w in
  o = Ok tt
  /\ s' = s
  /\ pool w' = pool w
  /\ next_handle w' = next_handle w
  /\ script w' = script w
  /\ added (trace w) (trace w') = [Lock; Unlock].
Proof.
  unfold switch_provider, with_lock, bind, get.
  rewrite provider_eqb_refl. simpl.
  rewrite <- app_assoc, added_app. auto 6.
Qed.

Lemma switch_provider_other (provider : background_removal_provider)
    (s : background_removal_instance) (w : world) :
  provider <> _provider s ->
  switch_provider provider s w
  = (Ok tt,
     set_provider_task (Some (next_handle w)) (set_provider provider s),
     {| trace :=
          trace w
          ++ [Lock; switching]
          ++ match _provider_task s with
             | Some t => [PoolPop t]
             | None => []
             end
          ++ [MakeSwitchData (_provider s); PoolPush (next_handle w);
              Unlock];
        script := script w;
        pool :=
          cancelled (_provider_task s) (pool w)
          ++ [{| task_handle := next_handle w;
                 task_data := {| spd_provider := _provider s |} |}];
        next_handle := Datatypes.S (next_handle w) |}).
Proof.
  intros H. apply provider_eqb_neq in H.
  unfold switch_provider, with_lock, bind, get.
  rewrite H.
  destruct (_provider_task s) as [t|]; simpl;
    unfold record_event; simpl;
    repeat rewrite <- app_assoc; reflexivity.
Qed.

(** C4, as stated, fails: a filter that runs the NVIDIA provider and is
    told to switch to none still has [_provider_ready] set when
    [switch_provider] returns, with the active provider already
    changed. *)
Lemma switch_provider_leaves_ready_set :
  let '(_, s, w) := running in
  let '(_, s', _) := switch_provider INVALID s w in
  _provider s = NVIDIA_GREEN_SCREEN
  /\ _provider_ready s = true
  /\ _provider s' = INVALID
  /\ _provider_ready s' = true.
Proof. vm_compute. auto. Qed.

(** C4, amended: [switch_provider] called with a provider other than
    the active one has, when it returns, put the old identity into the
    task data, made the new provider the active one and queued a task
    that holds the old identity (after cancelling the task of the
    handle it held); it leaves [_provider_ready] as it was.  The flag is
    cleared by the queued task when that runs: after the task the flag
    is true only if the task itself set it at its end. *)
Theorem switch_provider_requests (provider : background_removal_provider)
    (s : background_removal_instance) (w : world) :
  provider <> _provider s ->
  let spd := {| spd_provider := _provider s |} in
  let '(o, s', w') := switch_provider provider s w in
  o = Ok tt
  /\ s' = set_provider_task (Some (next_handle w))
            (set_provider provider s)
  /\ _provider s' = provider
  /\ _provider_ready s' = _provider_ready s
  /\ In (MakeSwitchData (_provider s)) (added (trace w) (trace w'))
  /\ pool w' = cancelled (_provider_task s) (pool w)
               ++ [{| task_handle := next_handle w; task_data := spd |}]
  /\ (forall s2 w2,
         let '(_, s3, w3) := task_switch_provider spd s2 w2 in
         _provider_ready s3 = true ->
         exists pre, trace w3 = pre ++ [switch_done; Unlock]).
Proof.
  intros H spd. rewrite (switch_provider_other provider s w H).
  cbv beta iota. simpl trace. rewrite added_app.
  repeat split.
  - destruct (_provider_task s); simpl; auto.
  - intros s2 w2. apply task_ready_is_fresh.
Qed.

Lemma switch_provider_requests_witness :
  NVIDIA_GREEN_SCREEN <> _provider initial
  /\ let '(_, s', w') := switch_provider NVIDIA_GREEN_SCREEN initial quiet in
     _provider s' = NVIDIA_GREEN_SCREEN
     /\ _provider_ready s' = _provider_ready initial
     /\ pool w' = [{| task_handle := 0;
                      task_data := {| spd_provider := INVALID |} |}].
Proof.
  assert (NVIDIA_GREEN_SCREEN <> _provider initial) as H
    by (simpl; discriminate).
  split; [exact H|].
  pose proof (switch_provider_requests NVIDIA_GREEN_SCREEN initial quiet H)
    as T.
  cbv zeta in T.
  destruct (switch_provider NVIDIA_GREEN_SCREEN initial quiet)
    as [[o s'] w'].
  destruct T as [_ [_ [Hp [Hr [_ [Hq _]]]]]].
  split; [exact Hp|]. split; [exact Hr|]. exact Hq.
Defined.

(** ** Configuration *)

Lemma resolve_automatic_find (f : background_removal_factory)
    (priority : list background_removal_provider)
    (provider : background_removal_provider) :
  resolve_automatic f priority provider
  = match find (is_provider_available f) priority with
    | Some v => v
    | None => provider
    end.
Proof.
  induction priority as [|v rest IH]; simpl.
  - reflexivity.
  - destruct (is_provider_available f v); [reflexivity | exact IH].
Qed.

(** C9: an update whose settings select the automatic value first
    resolves it to the first provider of the priority list that the
    factory reports available, and then compares: if the resolved
    provider is the active one nothing is switched (no task is queued,
    the active provider and the task handle stay), otherwise a switch to
    the resolved provider is requested, which makes it the active one
    and queues the task that holds the old one. *)
Theorem update_automatic (f : background_removal_factory)
    (s : background_removal_instance) (w : world) :
  let resolved := first_available f in
  let '(o, s', w') := update f (provider_to_int AUTOMATIC) s w in
  o = Ok tt
  /\ (resolved = _provider s ->
      s' = s /\ pool w' = pool w /\ next_handle w' = next_handle w)
  /\ (resolved <> _provider s ->
      s' = set_provider_task (Some (next_handle w))
             (set_provider resolved s)
      /\ pool w' = cancelled (_provider_task s) (pool w)
                   ++ [{| task_handle := next_handle w;
                          task_data :=
                            {| spd_provider := _provider s |} |}]).
Proof.
  intros resolved.
  unfold update. rewrite provider_of_to_int.
  cbv beta iota zeta. rewrite provider_eqb_refl.
  rewrite resolve_automatic_find. fold (first_available f).
  fold resolved.
  unfold bind at 1. unfold get at 1. unfold bind at 1.
  destruct (provider_eqb resolved (_provider s)) eqn:E.
  - apply provider_eqb_eq in E. simpl.
    unfold bind, get, with_lock. simpl.
    destruct (_provider_ready s); simpl;
      (split; [reflexivity|]); (split; [auto | congruence]).
  - apply provider_eqb_neq in E.
    change (negb false) with true. cbv iota.
    rewrite (switch_provider_other resolved s w E).
    unfold bind, get, with_lock. simpl.
    destruct (_provider_ready s); simpl;
      (split; [reflexivity|]); (split; [congruence | auto]).
Qed.

Lemma update_automatic_witness :
  first_available with_nvidia <> _provider initial
  /\ let '(_, s', w') := update with_nvidia 0 initial quiet in
     s' = set_provider_task (Some 0%nat)
            (set_provider NVIDIA_GREEN_SCREEN initial)
     /\ pool w' = [{| task_handle := 0;
                      task_data := {| spd_provider := INVALID |} |}].
Proof.
  assert (first_available with_nvidia <> _provider initial) as H
    by (vm_compute; discriminate).
  split; [exact H|].
  pose proof (update_automatic with_nvidia initial quiet) as T.
  cbv zeta in T. change (provider_to_int AUTOMATIC) with 0 in T.
  destruct (update with_nvidia 0 initial quiet) as [[o s'] w'].
  destruct T as [_ [_ T]]. exact (T H).
Defined.

(** ** Render: refreshing the cached frame *)

Lemma set_mask_fx_same (m : option GS.texture)
    (s : background_removal_instance) :
  set_mask m (set_nvidia_fx (_nvidia_fx s) s) = set_mask m s.
Proof. now destruct s. Qed.

Lemma set_mask_same (s : background_removal_instance) :
  set_mask (_mask s) s = s.
Proof. now destruct s. Qed.

(** The processing step writes [_mask] and lets the adapter work on
    itself; an adapter stays loaded, none appears, and [_mask] keeps
    its value when the step throws. *)
Lemma process_step_frame (s : background_removal_instance) (w : world) :
  exists o m fx w',
    process_step s w = (o, set_mask m (set_nvidia_fx fx s), w')
    /\ is_none fx = is_none (_nvidia_fx s)
    /\ (forall e, o = Throw e -> m = _mask s).
Proof.
  unfold process_step, bind, get.
  assert (forall w' : world, exists o m fx w'',
             (Ok tt, set_mask None s, w')
             = (o, set_mask m (set_nvidia_fx fx s), w'')
             /\ is_none fx = is_none (_nvidia_fx s)
             /\ (forall e, o = Throw e -> m = _mask s)) as Hdefault.
  { intros w'. exists (Ok tt), None, (_nvidia_fx s), w'.
    rewrite set_mask_fx_same.
    split; [reflexivity|]. split; [reflexivity|].
    intros e He; discriminate He. }
  destruct (_provider s); try apply Hdefault.
  unfold nvidia_process, bind, get, modify, on_member.
  destruct (_nvidia_fx s) as [fx|] eqn:E.
  - cbv beta. rewrite E.
    destruct (VFX.process (_input s) fx w) as [[[m|e] fx1] w1].
    + exists (Ok tt), m, (Some fx1), w1.
      split; [reflexivity|]. split; [reflexivity|].
      intros e He; discriminate He.
    + exists (Throw e), (_mask s), (Some fx1), w1.
      split; [now destruct s|]. split; [reflexivity|]. reflexivity.
  - exists (Ok tt), (Some (_input s)), None, w.
    rewrite <- E, set_mask_fx_same.
    split; [reflexivity|]. split; [reflexivity|].
    intros e He; discriminate He.
Qed.

(** The processing step destroys nothing, so it cannot end the process:
    an exception it lets out is one the render call catches. *)
Lemma lives_process_step : never_ends process_step.
Proof.
  unfold process_step, nvidia_process.
  repeat first
    [ apply lives_process | lives_step
    | match goal with
      | |- never_ends (match ?x with
                       | INVALID => _ | AUTOMATIC => _
                       | NVIDIA_GREEN_SCREEN => _ end) => destruct x
      | |- never_ends (match ?x with Some _ => _ | None => _ end) =>
          destruct x
      end ].
Qed.

(** The ways through the body of [if (_dirty)]. *)
Lemma refresh_cases (h : host) (width height : Z)
    (s : background_removal_instance) (w : world) :
  if filter_begin h then
    let '(o2, s2, w2) := processed h s w in
    match o2 with
    | Throw _ =>
        refresh h width height s w
        = (Ok false, s2, after [SkipVideoFilter; Unlock] w2)
    | Ok _ =>
        match _mask s2 with
        | None =>
            refresh h width height s w
            = (Ok false, s2, after [no_result; SkipVideoFilter; Unlock] w2)
        | Some mask =>
            if mask_throws h then
              refresh h width height s w
              = (Ok false, s2, after [SkipVideoFilter; Unlock] w2)
            else
              refresh h width height s w
              = (Ok true,
                 set_dirty false
                   (set_masked (composite width height (_input s2) mask)
                      s2),
                 after [MaskInput width height; Unlock] w2)
        end
    end
  else
    refresh h width height s w
    = (Ok false, s,
       after [Lock; ProcessFilterBegin false; SkipVideoFilter; Unlock] w).
Proof.
  unfold refresh, with_lock, processed, try_catch_all, mask_step, capture,
    captured, capturing, after, composite, bind, emit, get, modify, ret,
    throw, record_event.
  cbv beta.
  destruct (filter_begin h) eqn:Hb; simpl.
  - match goal with
    | |- context [process_step ?a ?b] =>
        pose proof (lives_process_step a b) as Hl;
        destruct (process_step a b) as [[[[]|e] s2] w2]
    end; simpl.
    + destruct (_mask s2) as [mask|]; simpl.
      * destruct (mask_throws h); simpl;
          now rewrite <- !app_assoc.
      * now rewrite <- !app_assoc.
    + destruct e; [| |discriminate Hl]; simpl; now rewrite <- !app_assoc.
  - now rewrite <- !app_assoc.
Qed.

Lemma processed_frame (h : host) (s : background_removal_instance)
    (w : world) :
  exists o m fx w',
    processed h s w = (o, set_mask m (set_nvidia_fx fx (captured h s)), w')
    /\ is_none fx = is_none (_nvidia_fx s)
    /\ (forall e, o = Throw e -> m = _mask s).
Proof.
  unfold processed.
  destruct (process_step_frame (captured h s) (capturing s w))
    as [o [m [fx [w' [E [Hfx Hm]]]]]].
  exists o, m, fx, w'. auto.
Qed.

Lemma video_render_dirty (h : host) (s : background_removal_instance)
    (w : world) :
  must_skip h s = false -> _dirty s = true ->
  video_render h s w = render_dirty h s w.
Proof.
  intros Hs Hd. unfold video_render, render_dirty, bind at 1, get at 1.
  now rewrite Hs, Hd.
Qed.

Lemma video_render_clean (h : host) (s : background_removal_instance)
    (w : world) :
  must_skip h s = false -> _dirty s = false ->
  video_render h s w
  = (Ok tt, s,
     after [DrawSprite (_masked s) (fst (_out_size s))
              (snd (_out_size s))] w).
Proof.
  intros Hs Hd. unfold video_render, bind, get.
  now rewrite Hs, Hd.
Qed.

(** A render call of a dirty instance, by the way its refresh ends:
    it returns early, the instance being what the processing step left,
    or it composites, clears the flag and draws. *)
Lemma render_dirty_cases (h : host) (s : background_removal_instance)
    (w : world) :
  (filter_begin h = false
   /\ render_dirty h s w
      = (Ok tt, s,
         after [Lock; ProcessFilterBegin false; SkipVideoFilter; Unlock]
           w))
  \/ (filter_begin h = true
      /\ exists o2 s2 w2,
          processed h s w = (o2, s2, w2)
          /\ ((exists e, o2 = Throw e
               /\ render_dirty h s w
                  = (Ok tt, s2, after [SkipVideoFilter; Unlock] w2))
              \/ (o2 = Ok tt /\ _mask s2 = None
                  /\ render_dirty h s w
                     = (Ok tt, s2,
                        after [no_result; SkipVideoFilter; Unlock] w2))
              \/ (exists mask,
                     o2 = Ok tt /\ _mask s2 = Some mask
                     /\ mask_throws h = true
                     /\ render_dirty h s w
                        = (Ok tt, s2,
                           after [SkipVideoFilter; Unlock] w2))
              \/ (exists mask,
                     o2 = Ok tt /\ _mask s2 = Some mask
                     /\ mask_throws h = false
                     /\ render_dirty h s w
                        = (Ok tt, refreshed h mask s2,
                           after
                             [MaskInput (base_width h) (base_height h);
                              Unlock;
                              DrawSprite (_masked (refreshed h mask s2))
                                (fst (_out_size s2))
                                (snd (_out_size s2))]
                             w2)))).
Proof.
  pose proof (refresh_cases h (base_width h) (base_height h) s w) as R.
  unfold render_dirty, bind.
  destruct (filter_begin h).
  - right. split; [reflexivity|].
    destruct (processed h s w) as [[o2 s2] w2].
    exists o2, s2, w2. split; [reflexivity|].
    destruct o2 as [[]|e].
    + destruct (_mask s2) as [mask|] eqn:Hm.
      * destruct (mask_throws h) eqn:Ht; rewrite R.
        -- right. right. left. exists mask. auto.
        -- right. right. right. exists mask.
           repeat (split; [reflexivity|]).
           unfold draw, bind, get, emit, record_event, after, refreshed.
           simpl. now rewrite <- app_assoc.
      * rewrite R. right. left. auto.
    + rewrite R. left. exists e. auto.
  - left. rewrite R. auto.
Qed.

Lemma processed_keeps_frame (h : host) (s : background_removal_instance)
    (w : world) (o2 : outcome unit) (s2 : background_removal_instance)
    (w2 : world) :
  processed h s w = (o2, s2, w2) -> frame_kept s s2.
Proof.
  intros E.
  destruct (processed_frame h s w) as [o [m [fx [w' [E' [Hfx _]]]]]].
  rewrite E in E'. injection E' as -> -> ->.
  unfold frame_kept. simpl. auto 7.
Qed.

(** C5, as stated, fails where the processing step throws: the
    adapter's run fails on frame 8, the adapter logs that and raises,
    and the filter skips the frame without a log line of its own. *)
Lemma throwing_process_is_not_logged_by_the_filter :
  let '(_, s, w) := warmed_up in
  let w := scripted [SUCCESS; FAILURE 1] w in
  let '(o, s', w') := video_render (hd_view 8) s w in
  fst (fst (processed (hd_view 8) s w))
  = Throw (runtime_error "Run failed.")
  /\ added (trace w) (trace w')
     = [Lock; ProcessFilterBegin true; CaptureInput 1280 720;
        CopyTexture r_input;
        Call (NvCVImage_Transfer r_input r_source r_tmp) SUCCESS;
        Call NvVFX_Run (FAILURE 1);
        Log LOG_ERROR nvidia_vfx_background_removal
          "Failed to process due to error: %s";
        SkipVideoFilter; Unlock]
  /\ filter_logs (added (trace w) (trace w')) = [].
Proof. vm_compute. auto. Qed.

(** C5, amended: in a render call whose processing step returns no
    result texture the filter logs that, and in one whose processing
    step throws it logs nothing itself; either way it then skips this
    one frame and returns with the cached composited frame, the dirty
    flag, the active provider, its readiness and the loaded adapter in
    place, so that the next render call that is not skipped runs the
    refresh again. *)
Theorem process_failure_skips_frame (h : host)
    (s : background_removal_instance) (w : world)
    (o2 : outcome unit) (s2 : background_removal_instance) (w2 : world) :
  must_skip h s = false ->
  _dirty s = true ->
  filter_begin h = true ->
  processed h s w = (o2, s2, w2) ->
  (exists e, o2 = Throw e) \/ (o2 = Ok tt /\ _mask s2 = None) ->
  video_render h s w
  = (Ok tt, s2,
     after (match o2 with
            | Ok _ => [no_result]
            | Throw _ => []
            end ++ [SkipVideoFilter; Unlock]) w2)
  /\ _masked s2 = _masked s
  /\ _dirty s2 = true
  /\ _provider s2 = _provider s
  /\ _provider_ready s2 = _provider_ready s
  /\ is_none (_nvidia_fx s2) = is_none (_nvidia_fx s)
  /\ (forall h' w',
         must_skip h' s2 = false ->
         video_render h' s2 w' = render_dirty h' s2 w').
Proof.
  intros Hs Hd Hb E Hfail.
  destruct (processed_keeps_frame h s w o2 s2 w2 E)
    as [Hm [Hd2 [Hp [Hr [_ Hfx]]]]].
  rewrite Hd in Hd2.
  split; [|repeat (split; [assumption|]);
           intros h' w' Hs'; now apply video_render_dirty].
  rewrite (video_render_dirty h s w Hs Hd).
  destruct (render_dirty_cases h s w) as [[Hb' _]|[_ C]];
    [congruence|].
  destruct C as [o2' [s2' [w2' [E' C]]]].
  rewrite E in E'. injection E' as <- <- <-.
  destruct C as [[e [-> ->]] | [[-> [Hn ->]] | [C | C]]].
  - reflexivity.
  - reflexivity.
  - destruct C as [mask [-> [Hn _]]].
    destruct Hfail as [[e He]|[_ Hn']]; congruence.
  - destruct C as [mask [-> [Hn _]]].
    destruct Hfail as [[e He]|[_ Hn']]; congruence.
Qed.

Lemma process_failure_skips_frame_witness :
  let '(_, s, w) := warmed_up in
  let w := scripted [SUCCESS; FAILURE 1] w in
  let '(o2, s2, w2) := processed (hd_view 8) s w in
  must_skip (hd_view 8) s = false
  /\ _dirty s = true
  /\ video_render (hd_view 8) s w
     = (Ok tt, s2, after [SkipVideoFilter; Unlock] w2)
  /\ _masked s2 = _masked s
  /\ _dirty s2 = true.
Proof.
  destruct warmed_up as [[o s] w] eqn:Ew. cbv zeta.
  set (w1 := scripted [SUCCESS; FAILURE 1] w).
  destruct (processed (hd_view 8) s w1) as [[o2 s2] w2] eqn:E.
  assert (must_skip (hd_view 8) s = false) as Hs
    by (injection Ew as <- <- <-; reflexivity).
  assert (_dirty s = true) as Hd
    by (injection Ew as <- <- <-; reflexivity).
  assert (o2 = Throw (runtime_error "Run failed.")) as Ho.
  { injection Ew as <- <- <-. vm_compute in E. now injection E as <- _ _. }
  destruct (process_failure_skips_frame (hd_view 8) s w1 o2 s2 w2
              Hs Hd eq_refl E
              (or_introl (ex_intro _ (runtime_error "Run failed.") Ho)))
    as [Hv [Hm [Hd2 _]]].
  rewrite Ho in Hv. simpl in Hv.
  repeat split; assumption.
Defined.

(** ** The dirty flag *)

Lemma last_event (pre pre' : list event) (e e' : event) :
  pre ++ [e] = pre' ++ [e'] -> e = e'.
Proof. intros H. now apply app_inj_tail in H. Qed.

Lemma after_snoc (evs : list event) (e : event) (w : world) :
  trace (after (evs ++ [e]) w) = (trace w ++ evs) ++ [e].
Proof. simpl. now rewrite app_assoc. Qed.

(** [video_tick] ends normally with the dirty flag set and both sizes
    those of the target; the cached frame is not touched. *)
Lemma video_tick_result (h : host) (s : background_removal_instance)
    (w : world) :
  let '(o, s', _) := video_tick h s w in
  o = Ok tt
  /\ _dirty s' = true
  /\ _in_size s' = (base_width h, base_height h)
  /\ _out_size s' = (base_width h, base_height h)
  /\ _masked s' = _masked s.
Proof.
  unfold video_tick, with_lock, nvidia_size, VFX.size, bind, get, modify,
    ret.
  simpl.
  destruct (target h), (_provider_ready s), (_provider s); simpl;
    try (repeat split; fail);
    destruct (_nvidia_fx s); simpl; repeat split.
Qed.

(** A render call whose last act is the presentation draws [_masked]
    as the call leaves it, at [_out_size]. *)
Lemma video_render_presents_cache (h : host)
    (s : background_removal_instance) (w : world)
    (pre : list event) (t : GS.texture) (a b : Z) :
  let '(_, s', w') := video_render h s w in
  trace w' = pre ++ [DrawSprite t a b] ->
  t = _masked s' /\ a = fst (_out_size s') /\ b = snd (_out_size s').
Proof.
  destruct (must_skip h s) eqn:Hs.
  - rewrite (video_render_skipped h s w Hs). simpl.
    intros E. apply last_event in E. discriminate E.
  - destruct (_dirty s) eqn:Hd.
    + rewrite (video_render_dirty h s w Hs Hd).
      destruct (render_dirty_cases h s w) as [[_ ->]|[_ C]].
      * change [Lock; ProcessFilterBegin false; SkipVideoFilter; Unlock]
          with ([Lock; ProcessFilterBegin false; SkipVideoFilter]
                ++ [Unlock]).
        rewrite after_snoc. intros E. apply last_event in E.
        discriminate E.
      * destruct C as [o2 [s2 [w2 [_ C]]]].
        destruct C as [[e [_ ->]] | [[_ [_ ->]] | [C | C]]].
        -- change [SkipVideoFilter; Unlock]
             with ([SkipVideoFilter] ++ [Unlock]).
           rewrite after_snoc. intros E. apply last_event in E.
           discriminate E.
        -- change [no_result; SkipVideoFilter; Unlock]
             with ([no_result; SkipVideoFilter] ++ [Unlock]).
           rewrite after_snoc. intros E. apply last_event in E.
           discriminate E.
        -- destruct C as [mask [_ [_ [_ ->]]]].
           change [SkipVideoFilter; Unlock]
             with ([SkipVideoFilter] ++ [Unlock]).
           rewrite after_snoc. intros E. apply last_event in E.
           discriminate E.
        -- destruct C as [mask [_ [_ [_ ->]]]].
           match goal with
           | |- context [after [?x; ?y; ?z] w2] =>
               change [x; y; z] with ([x; y] ++ [z])
           end.
           rewrite after_snoc. intros E. apply last_event in E.
           injection E as <- <- <-. auto.
    + rewrite (video_render_clean h s w Hs Hd).
      change (after [?e] w) with (record_event e w). simpl.
      intros E. apply last_event in E. injection E as <- <- <-. auto.
Qed.

(** A render call clears the dirty flag only when it has composited:
    the mask the provider returned is put over the frame just captured,
    and then the result is drawn. *)
Lemma video_render_clears_after_composite (h : host)
    (s : background_removal_instance) (w : world) :
  let '(_, s', w') := video_render h s w in
  _dirty s = true -> _dirty s' = false ->
  exists mask pre,
    _mask s' = Some mask
    /\ _masked s'
       = composite (base_width h) (base_height h) (_input s') mask
    /\ GS.get_pixels (_input s') = Frame (frame h)
    /\ trace w'
       = pre ++ [MaskInput (base_width h) (base_height h); Unlock;
                 DrawSprite (_masked s') (fst (_out_size s'))
                   (snd (_out_size s'))].
Proof.
  destruct (must_skip h s) eqn:Hs.
  - rewrite (video_render_skipped h s w Hs). congruence.
  - destruct (_dirty s) eqn:Hd.
    + rewrite (video_render_dirty h s w Hs Hd).
      destruct (render_dirty_cases h s w) as [[_ ->]|[_ C]];
        [congruence|].
      destruct C as [o2 [s2 [w2 [E C]]]].
      pose proof (processed_keeps_frame h s w o2 s2 w2 E)
        as [_ [Hd2 _]].
      destruct (processed_frame h s w) as [o [m [fx [w' [E' _]]]]].
      rewrite E in E'. injection E' as Ho Hs2 Hw.
      destruct C as [[e [_ ->]] | [[_ [_ ->]] | [C | C]]];
        try congruence.
      * destruct C as [mask [_ [_ [_ ->]]]]. congruence.
      * destruct C as [mask [_ [Hm [_ ->]]]].
        intros _ _. exists mask, (trace w2).
        split; [exact Hm|]. split; [reflexivity|].
        split; [rewrite Hs2; reflexivity|]. reflexivity.
    + destruct (video_render h s w) as [[o s'] w']. congruence.
Qed.

(** Neither a configuration update nor the switch task writes the
    dirty flag. *)
Lemma update_keeps_dirty (f : background_removal_factory) (data : Z)
    (s : background_removal_instance) (w : world) :
  _dirty (snd (fst (update f data s w))) = _dirty s.
Proof.
  unfold update.
  destruct (provider_of_int data) as [p|]; [|reflexivity].
  cbv zeta.
  set (r := if provider_eqb p AUTOMATIC
            then resolve_automatic f provider_priority p else p).
  unfold bind at 1. unfold get at 1. unfold bind at 1.
  destruct (provider_eqb r (_provider s)) eqn:E.
  - simpl. unfold bind, get, with_lock. simpl.
    destruct (_provider_ready s); reflexivity.
  - apply provider_eqb_neq in E.
    change (negb false) with true. cbv iota.
    rewrite (switch_provider_other r s w E).
    unfold bind, get, with_lock. simpl.
    destruct (_provider_ready s); reflexivity.
Qed.

Lemma task_keeps_dirty (spd : switch_provider_data_t)
    (s : background_removal_instance) (w : world) :
  _dirty (snd (fst (task_switch_provider spd s w))) = _dirty s.
Proof.
  destruct (task_switch_provider_frame spd s w) as [ready [fx ->]].
  reflexivity.
Qed.

(** C6: a render call that is not skipped and finds the dirty flag
    clear captures nothing, does not call the provider and does not
    write the cached texture: all it does is draw that texture; a
    render call that ends in the presentation draws the cached texture;
    every tick sets the dirty flag, and it is cleared only by a render
    call that has just composited a fresh frame, never by an update or
    by the switch task. *)
Theorem dirty_flag_gates_refresh :
  (forall h s w,
      must_skip h s = false -> _dirty s = false ->
      video_render h s w
      = (Ok tt, s,
         after [DrawSprite (_masked s) (fst (_out_size s))
                  (snd (_out_size s))] w))
  /\ (forall h s w pre t a b,
         let '(_, s', w') := video_render h s w in
         trace w' = pre ++ [DrawSprite t a b] ->
         t = _masked s'
         /\ a = fst (_out_size s') /\ b = snd (_out_size s'))
  /\ (forall h s w,
         let '(o, s', _) := video_tick h s w in
         o = Ok tt /\ _dirty s' = true)
  /\ (forall h s w,
         let '(_, s', w') := video_render h s w in
         _dirty s = true -> _dirty s' = false ->
         exists mask pre,
           _mask s' = Some mask
           /\ _masked s'
              = composite (base_width h) (base_height h) (_input s') mask
           /\ GS.get_pixels (_input s') = Frame (frame h)
           /\ trace w'
              = pre ++ [MaskInput (base_width h) (base_height h); Unlock;
                        DrawSprite (_masked s') (fst (_out_size s'))
                          (snd (_out_size s'))])
  /\ (forall f data s w,
         _dirty (snd (fst (update f data s w))) = _dirty s)
  /\ (forall spd s w,
         _dirty (snd (fst (task_switch_provider spd s w))) = _dirty s).
Proof.
  split; [exact video_render_clean|].
  split; [exact video_render_presents_cache|].
  split.
  { intros h s w. pose proof (video_tick_result h s w) as T.
    destruct (video_tick h s w) as [[o s'] w'].
    destruct T as [Ho [Hd _]]. auto. }
  split; [exact video_render_clears_after_composite|].
  split; [exact update_keeps_dirty | exact task_keeps_dirty].
Qed.

Lemma dirty_flag_gates_refresh_witness :
  let '(_, s, w) := rendered in
  must_skip (hd_view 9) s = false
  /\ _dirty s = false
  /\ video_render (hd_view 9) s w
     = (Ok tt, s, after [DrawSprite (_masked s) 1280 720] w)
  /\ GS.get_pixels (_masked s) = Masked (Frame 7) (Matte (Frame 7)).
Proof.
  destruct rendered as [[o s] w] eqn:E.
  assert (must_skip (hd_view 9) s = false) as Hs
    by (injection E as <- <- <-; reflexivity).
  assert (_dirty s = false) as Hd
    by (injection E as <- <- <-; reflexivity).
  assert (_out_size s = (1280, 720)) as Ho
    by (injection E as <- <- <-; reflexivity).
  pose proof (proj1 dirty_flag_gates_refresh (hd_view 9) s w Hs Hd) as T.
  rewrite Ho in T. simpl fst in T. simpl snd in T.
  repeat split; try assumption.
  injection E as <- <- <-; reflexivity.
Defined.

(** ** Scenarios *)

(** The runtime refuses to create the effect: the load of the new
    provider raises, the task logs the failure and the filter is left
    not ready; the render call then passes the frame through. *)
Example failed_load_leaves_filter_unready :
  let '(_, s, w) :=
    and_then run_next_task
      (update with_nvidia 1 initial (scripted [FAILURE 5] quiet)) in
  _provider s = NVIDIA_GREEN_SCREEN
  /\ _provider_ready s = false
  /\ _nvidia_fx s = None
  /\ filter_logs (trace w) = [switching; switch_failed]
  /\ video_render (hd_view 1) s w
     = (Ok tt, s, record_event SkipVideoFilter w).
Proof. vm_compute. repeat split. Qed.

(** From creation to the first composited frame: before the switch has
    run the frame passes through; after it, the frame drawn has the
    colours of the capture and the alpha of the provider's matte. *)
Example first_composited_frame :
  let '(_, s0, w0) := update with_nvidia 0 initial quiet in
  let '(_, s1, w1) :=
    and_then (video_render (hd_view 1)) (video_tick (hd_view 1) s0 w0) in
  let '(_, s2, w2) := run_next_task s1 w1 in
  let '(_, s3, w3) :=
    and_then (video_render (hd_view 2)) (video_tick (hd_view 2) s2 w2) in
  added (trace w0) (trace w1) = [SkipVideoFilter]
  /\ _provider_ready s2 = true
  /\ _dirty s3 = false
  /\ last (trace w3) Lock
     = DrawSprite
         {| GS.get_width := 1280;
            GS.get_height := 720;
            GS.get_color_format := GS_RGBA_UNORM;
            GS.get_pixels := Masked (Frame 2) (Matte (Frame 2)) |}
         1280 720.
Proof. vm_compute. repeat split. Qed.

End FilterSpec.

(* ------------------------------------------------------------------ *)
(** ** The adapter and its textures, call by call *)

Module AdapterSpec.
Import VFXTerms AdapterTerms.

Ltac crank :=
  cbv -[app added attempted VFX.size_differs reallocation input_cycle
        output_cycle reallocated resized_image orb negb Z.eqb
        construction frame_work release].

Ltac code_case :=
  match goal with
  | |- context [match ?sc with [] => _ | _ :: _ => _ end] =>
      is_var sc; destruct sc as [|[|?] sc]
  end.

Ltac solve_logged :=
  do 3 eexists; split; [reflexivity | discriminate].

Ltac norm_added :=
  repeat rewrite <- app_assoc;
  first [rewrite added_app | rewrite added_same];
  simpl.

Lemma ends_logged (pre evs : list event) (from : component) (msg : string) :
  last evs Lock = Log LOG_ERROR from msg ->
  from <> filter_background_removal ->
  exists pre' from' msg',
    pre ++ evs = pre' ++ [Log LOG_ERROR from' msg']
    /\ from' <> filter_background_removal.
Proof.
  intros Hl Hf.
  destruct evs as [|e evs]; [discriminate Hl|].
  exists (pre ++ removelast (e :: evs)), from, msg.
  split; [|exact Hf].
  rewrite <- app_assoc, <- Hl.
  f_equal. apply app_removelast_last. discriminate.
Qed.

Ltac solve_logged_at_end :=
  eapply ends_logged; [reflexivity | discriminate].

(** ** The mapped texture *)

(** X1: [texture::resize], for every texture and every answer of the
    runtime: the requests are an initial part of one reallocation cycle;
    a call that returns leaves the texture mapped, at the requested size,
    in its old format; a call that throws has logged the failing request
    and leaves the texture unmapped unless the unmapping itself failed. *)
Theorem texture_resize_contract (t : CV.texture) (width height : Z)
    (w : world) :
  let '(r, t', w') := CV.resize width height t w in
  (exists rest,
      reallocation t width height
      = attempted (added (trace w) (trace w')) ++ rest)
  /\ match r with
     | Ok _ =>
         t' = reallocated t width height
         /\ added (trace w) (trace w') = reallocation t width height
     | Throw e =>
         (exists what, e = runtime_error what)
         /\ logged_last w'
         /\ (t' = t \/ CV._image t' <> CV.mapped)
     end.
Proof.
  destruct t as [tag tex img]. destruct w as [tr sc pl nh].
  crank.
  repeat (code_case; crank).
  all: split; [norm_added; eexists; reflexivity|].
  all: try (split; [reflexivity | norm_added; reflexivity]).
  all: split; [eexists; reflexivity|].
  all: split; [solve_logged|].
  all: first [left; reflexivity | right; discriminate].
Qed.

(** ** The adapter: construction *)

(** X2: The constructor, for every answer of the runtime.  Up to the first
    request that fails its requests are an initial part of one fixed
    sequence.  When it returns, the whole sequence was run and the
    adapter is the one with mapped 160x90 buffers, loaded and not dirty;
    it returns whenever the runtime reports success.  When a request
    fails, the failure is logged and the members built so far are
    destroyed, last member first: every image allocated is deleted, every
    texture mapped is unmapped and deallocated, the effect, if created,
    is destroyed, and nothing else is asked for; then the exception
    reaches the caller.  When the runtime refuses to unmap or to
    deallocate a texture during that, the refusal is logged and the
    process ends with the rest not released. *)
Theorem construction_contract {S : Type} (s : S) (w : world) :
  let '(r, s', w') := VFX.new_background_removal s w in
  let evs := added (trace w) (trace w') in
  s' = s
  /\ (exists rest, construction = attempted (until_error evs) ++ rest)
  /\ match r with
     | Ok o => o = fresh_adapter /\ evs = construction
     | Throw (runtime_error _) =>
         (exists from msg,
             last (until_error evs) Lock = Log LOG_ERROR from msg
             /\ from <> filter_background_removal)
         /\ attempted (after_error evs) = unwinding (until_error evs)
     | Throw terminate =>
         logged_last w'
         /\ after_error evs <> []
         /\ exists rest,
              unwinding (until_error evs)
              = attempted (after_error evs) ++ rest
     | Throw null_pointer => False
     end
  /\ (forallb is_success (script w) = true -> r = Ok fresh_adapter).
Proof.
  destruct w as [tr sc pl nh].
  crank.
  repeat (code_case; crank).
  all: split; [reflexivity|].
  all: norm_added.
  all: split; [eexists; reflexivity|].
  all: split; [|intros H; first [reflexivity | discriminate H]].
  all: first
    [ split; [reflexivity | reflexivity]
    | split; [do 2 eexists; split; [reflexivity | discriminate]
             | reflexivity]
    | split; [solve_logged_at_end
             | split; [discriminate | eexists; reflexivity]] ].
Qed.

(** The runtime refuses to load the model, the last request of the
    constructor: the five buffers and the effect are released in the
    reverse of the order of the members before the exception reaches the
    caller. *)
Example construction_unwinds_what_it_built :
  let '(r, _, w') :=
    VFX.new_background_removal tt
      (FilterTerms.scripted
         (repeat SUCCESS 14 ++ [FAILURE 9]) quiet) in
  r = Throw (runtime_error "Load failed.")
  /\ skipn 17 (trace w')
     = [Log LOG_ERROR nvidia_vfx_background_removal
          "Failed to initialize effect due to error: %s";
        Call (cv_image_delete r_tmp) SUCCESS;
        Call (NvCVImage_UnmapResource r_output) SUCCESS;
        Call (NvCVImage_Dealloc r_output) SUCCESS;
        Call (cv_image_delete r_destination) SUCCESS;
        Call (cv_image_delete r_source) SUCCESS;
        Call (NvCVImage_UnmapResource r_input) SUCCESS;
        Call (NvCVImage_Dealloc r_input) SUCCESS;
        Call NvVFX_DestroyEffect SUCCESS].
Proof. vm_compute. split; reflexivity. Qed.

Lemma fresh_adapter_settled : settled fresh_adapter 160 90.
Proof.
  exists fresh_input, (fresh_image r_source), (fresh_image r_destination),
    fresh_output, (fresh_image r_tmp).
  repeat split.
Qed.

(** ** The adapter: processing a frame *)

Ltac size_case :=
  match goal with
  | |- context [VFX.size_differs ?w ?h ?t] =>
      destruct (VFX.size_differs w h t) eqn:?
  end.

Ltac flag_case :=
  match goal with
  | |- context [if ?b then _ else _] => is_var b; destruct b
  end.

Ltac open_bound Hb o :=
  let Hi := fresh in let Hs := fresh in let Hd := fresh in
  let Ho := fresh in let Ht := fresh in
  destruct Hb as [Hi [Hs [Hd [Ho Ht]]]];
  destruct o as [fx oi os od oo ot dirty];
  simpl in Hi, Hs, Hd, Ho, Ht;
  subst oi os od oo ot.

(** [process] keeps the effect handle and the five buffers of an
    adapter that has them, however it ends. *)
Lemma process_keeps_buffers (o : VFX.background_removal)
    (input : CV.texture) (source destination : CV.image)
    (output : CV.texture) (tmp : CV.image)
    (in_ : GS.texture) (w : world) :
  bound o input source destination output tmp ->
  VFX._fx (snd (fst (VFX.process in_ o w))) = VFX._fx o
  /\ exists input' source' destination' output',
       bound (snd (fst (VFX.process in_ o w)))
         input' source' destination' output' tmp.
Proof.
  intros Hb. open_bound Hb o.
  destruct w as [tr sc pl nh].
  crank.
  repeat (first [code_case | size_case | flag_case]; crank).
  all: split; [reflexivity | do 4 eexists; repeat split].
Qed.

(** X3: Whatever the runtime answers, [process] on an adapter that has its
    buffers either returns a texture or throws a [std::runtime_error]
    whose cause it has logged, and the adapter still has its buffers
    and its effect handle: it never returns without a result and never
    reaches through an empty pointer. *)
Theorem process_outcome (o : VFX.background_removal)
    (input : CV.texture) (source destination : CV.image)
    (output : CV.texture) (tmp : CV.image)
    (in_ : GS.texture) (w : world) :
  bound o input source destination output tmp ->
  let '(r, o', w') := VFX.process in_ o w in
  (exists input' source' destination' output',
      bound o' input' source' destination' output' tmp)
  /\ VFX._fx o' = VFX._fx o
  /\ match r with
     | Ok m => exists t, m = Some t
     | Throw e => (exists what, e = runtime_error what) /\ logged_last w'
     end.
Proof.
  intros Hb. open_bound Hb o.
  destruct w as [tr sc pl nh].
  crank.
  repeat (first [code_case | size_case | flag_case]; crank).
  all: split; [do 4 eexists; repeat split|].
  all: split; [reflexivity|].
  all: first [ eexists; reflexivity
             | split; [eexists; reflexivity | solve_logged] ].
Qed.

Lemma process_outcome_witness :
  bound fresh_adapter fresh_input (fresh_image r_source)
    (fresh_image r_destination) fresh_output (fresh_image r_tmp)
  /\ let '(r, o', w') := VFX.process (hd_frame 7) fresh_adapter quiet in
     (exists input' source' destination' output',
         bound o' input' source' destination' output' (fresh_image r_tmp))
     /\ VFX._fx o' = VFX._fx fresh_adapter
     /\ match r with
        | Ok m => exists t, m = Some t
        | Throw e => (exists what, e = runtime_error what) /\ logged_last w'
        end.
Proof.
  assert (bound fresh_adapter fresh_input (fresh_image r_source)
            (fresh_image r_destination) fresh_output (fresh_image r_tmp))
    as H by (repeat split).
  split; [exact H|].
  exact (process_outcome fresh_adapter _ _ _ _ _ (hd_frame 7) quiet H).
Defined.

Lemma size_differs_true (width height : Z) (t : CV.texture) :
  VFX.size_differs width height t = true ->
  ~ has_size t width height.
Proof.
  intros E [Hw Hh].
  assert (VFX.size_differs width height t = false) as F
    by (apply VFXSpec.size_differs_false; auto).
  congruence.
Qed.

Ltac open_settled H o :=
  let input := fresh "input" in let source := fresh "source" in
  let destination := fresh "destination" in
  let output := fresh "output" in let tmp := fresh "tmp" in
  let Hb := fresh in let Hfx := fresh in
  let Ti := fresh in let Ts := fresh in let Td := fresh in
  let To := fresh in let Tt := fresh in
  let Mi := fresh in let Mo := fresh in
  let Siw := fresh in let Sih := fresh in
  let Sow := fresh in let Soh := fresh in
  let Ssw := fresh in let Ssh := fresh in
  let Sdw := fresh in let Sdh := fresh in
  destruct H as [input [source [destination [output [tmp
    [Hb [Hfx [[Ti [Ts [Td [To Tt]]]] [[Mi Mo]
      [[[Siw Sih] [Sow Soh]] [[Ssw Ssh] [Sdw Sdh]]]]]]]]]]]];
  open_bound Hb o;
  destruct input as [itag [iw ih ifmt ipx] iimg];
  destruct output as [otag [ow oh ofmt opx] oimg];
  destruct source as [stag sw sh];
  destruct destination as [dtag dw dh];
  destruct tmp as [ttag tw th];
  simpl in Hfx, Ti, Ts, Td, To, Tt, Mi, Mo, Siw, Sih, Sow, Soh,
    Ssw, Ssh, Sdw, Sdh;
  subst.

Ltac crank_sizes :=
  cbv -[app added attempted reallocation input_cycle output_cycle
        reallocated resized_image Z.eqb construction frame_work
        release].

Ltac eqb_case :=
  match goal with
  | |- context [Z.eqb ?a ?a] => rewrite (Z.eqb_refl a)
  | H : Z.eqb ?a ?b = _ |- context [Z.eqb ?a ?b] => rewrite H
  | |- context [Z.eqb ?a ?b] => destruct (Z.eqb a b) eqn:?
  end.

Ltac eqb_facts :=
  repeat match goal with
    | H : Z.eqb _ _ = true |- _ => apply Z.eqb_eq in H
    end.

Ltac show_settled :=
  do 5 eexists; unfold bound, has_size, image_has_size; simpl;
  repeat split; reflexivity.

(** A [resize] that returns keeps an adapter in working order, now at
    the requested size; either it found that size in place and changed
    nothing, or the adapter is now dirty. *)
Lemma resize_settles (o : VFX.background_removal) (w0 h0 : Z)
    (width height : Z) (w : world)
    (o1 : VFX.background_removal) (w1 : world) :
  settled o w0 h0 ->
  VFX.resize width height o w = (Ok tt, o1, w1) ->
  settled o1 width height
  /\ ((o1 = o /\ w1 = w /\ w0 = width /\ h0 = height)
      \/ VFX._dirty o1 = true).
Proof.
  intros H. open_settled H o.
  destruct w as [tr sc pl nh].
  crank_sizes.
  repeat (first [code_case | eqb_case]; crank_sizes).
  all: intros E; first [discriminate E | injection E as <- <-].
  all: eqb_facts; subst.
  all: split; [show_settled|].
  all: first [right; reflexivity | left; repeat split; reflexivity].
Qed.

Lemma process_split (in_ : GS.texture) :
  VFX.process in_
  = (VFX.resize (GS.get_width in_) (GS.get_height in_) ;; finish in_).
Proof. reflexivity. Qed.




(** X5: In the steady state, an adapter in working order at the size of
    the frame and not dirty, [process] asks for one copy and three
    runtime calls and for nothing else; and whether it returns or a call
    fails, the adapter is afterwards in working order as before. *)
Theorem steady_frame (o : VFX.background_removal) (in_ : GS.texture)
    (w : world) :
  settled o (GS.get_width in_) (GS.get_height in_) ->
  VFX._dirty o = false ->
  let '(r, o', w') := VFX.process in_ o w in
  (exists rest,
      frame_work = attempted (added (trace w) (trace w')) ++ rest)
  /\ match r with
     | Ok _ => added (trace w) (trace w') = frame_work
     | Throw _ => True
     end
  /\ settled o' (GS.get_width in_) (GS.get_height in_)
  /\ VFX._dirty o' = false.
Proof.
  intros H Hd. destruct in_ as [iw' ih' ifmt' ipx'].
  simpl GS.get_width in *. simpl GS.get_height in *.
  open_settled H o. simpl in Hd. subst.
  destruct w as [tr sc pl nh].
  crank_sizes.
  repeat (first [code_case | eqb_case]; crank_sizes).
  all: split; [norm_added; eexists; reflexivity|].
  all: split; [first [exact I | norm_added; reflexivity]|].
  all: split; [show_settled | reflexivity].
Qed.

Lemma steady_frame_witness :
  settled fresh_adapter 160 90
  /\ let '(r, o', w') :=
       VFX.process (CV.make_gs_texture 160 90 GS_RGBA_UNORM)
         fresh_adapter quiet in
     added (trace quiet) (trace w') = frame_work
     /\ settled o' 160 90.
Proof.
  split; [exact fresh_adapter_settled|].
  pose proof (steady_frame fresh_adapter
                (CV.make_gs_texture 160 90 GS_RGBA_UNORM) quiet
                fresh_adapter_settled eq_refl) as T.
  destruct (VFX.process (CV.make_gs_texture 160 90 GS_RGBA_UNORM)
              fresh_adapter quiet) as [[r o'] w'] eqn:E.
  pose proof E as E'. vm_compute in E'. injection E' as Hr _ _.
  rewrite <- Hr in T.
  destruct T as [_ [T2 [T3 _]]]. split; [exact T2 | exact T3].
Defined.

(** ** The adapter: a failure while the new input texture is mapped *)

(** X6: When [resize] finds the input size changed and the runtime refuses
    to wrap or to map the new input texture, [resize] throws with that
    texture already at the requested size and not mapped; no later
    [resize] to that size, whatever the runtime answers, touches the
    input texture again. *)
Theorem failed_mapping_is_not_retried (o : VFX.background_removal)
    (input : CV.texture) (source destination : CV.image)
    (output : CV.texture) (tmp : CV.image)
    (width height : Z) (w : world) (code : Z) (rest : list result) :
  bound o input source destination output tmp ->
  VFX.size_differs width height input = true ->
  script w = SUCCESS :: SUCCESS :: FAILURE code :: rest
  \/ script w = SUCCESS :: SUCCESS :: SUCCESS :: FAILURE code :: rest ->
  let '(r, o1, w1) := VFX.resize width height o w in
  (exists what, r = Throw (runtime_error what))
  /\ exists t1,
       VFX._input o1 = Some t1
       /\ has_size t1 width height
       /\ CV._image t1 <> CV.mapped
       /\ forall w2,
            VFX._input (snd (fst (VFX.resize width height o1 w2)))
            = Some t1.
Proof.
  intros Hb Hdiff Hsc. open_bound Hb o.
  destruct w as [tr sc pl nh]. simpl in Hsc.
  destruct Hsc as [-> | ->].
  - crank. rewrite Hdiff. crank.
    split; [eexists; reflexivity|].
    eexists. split; [reflexivity|]. split; [split; reflexivity|].
    split; [discriminate|].
    intros [tr2 sc2 pl2 nh2].
    crank_sizes.
    repeat (first [code_case | eqb_case]; crank_sizes).
    all: reflexivity.
  - crank. rewrite Hdiff. crank.
    split; [eexists; reflexivity|].
    eexists. split; [reflexivity|]. split; [split; reflexivity|].
    split; [discriminate|].
    intros [tr2 sc2 pl2 nh2].
    crank_sizes.
    repeat (first [code_case | eqb_case]; crank_sizes).
    all: reflexivity.
Qed.

Lemma failed_mapping_is_not_retried_witness :
  VFX.size_differs 1280 720 fresh_input = true
  /\ let '(r, o1, _) :=
       VFX.resize 1280 720 fresh_adapter
         (FilterTerms.scripted [SUCCESS; SUCCESS; FAILURE 5] quiet) in
     (exists what, r = Throw (runtime_error what))
     /\ exists t1,
          VFX._input o1 = Some t1
          /\ CV._image t1 <> CV.mapped
          /\ forall w2,
               VFX._input (snd (fst (VFX.resize 1280 720 o1 w2))) = Some t1.
Proof.
  split; [reflexivity|].
  assert (bound fresh_adapter fresh_input (fresh_image r_source)
            (fresh_image r_destination) fresh_output (fresh_image r_tmp))
    as H by (repeat split).
  pose proof (failed_mapping_is_not_retried fresh_adapter _ _ _ _ _
                1280 720
                (FilterTerms.scripted [SUCCESS; SUCCESS; FAILURE 5] quiet)
                5 [] H eq_refl (or_introl eq_refl)) as T.
  destruct (VFX.resize 1280 720 fresh_adapter _) as [[r o1] w1].
  destruct T as [T1 [t1 [T2 [_ [T4 T5]]]]].
  split; [exact T1|]. exists t1. auto.
Defined.

(** ** The adapter: destruction *)

(** X7: The destructor of an adapter in working order, for every answer of
    the runtime: it asks for the effect to be destroyed and then for
    each buffer to be released, once and in the order of the members,
    each texture being unmapped before it is deallocated; the answers to
    the requests it does not check change nothing.  It raises no
    exception: it returns when every texture was unmapped and
    deallocated, and when the runtime refuses one of the two the refusal
    is logged and the process ends there, with the buffers after that
    texture not released. *)
Theorem destruction_contract {S : Type} (o : VFX.background_removal)
    (width height : Z) (s : S) (w : world) :
  settled o width height ->
  let '(r, s', w') := VFX.delete_background_removal o s w in
  s' = s
  /\ (exists rest,
         release = attempted (added (trace w) (trace w')) ++ rest)
  /\ match r with
     | Ok _ => attempted (added (trace w) (trace w')) = release
     | Throw e =>
         e = terminate
         /\ logged_last w'
         /\ attempted (added (trace w) (trace w')) <> release
     end.
Proof.
  intros H. open_settled H o.
  destruct w as [tr sc pl nh].
  crank.
  repeat (code_case; crank).
  all: split; [reflexivity|].
  all: split; [norm_added; eexists; reflexivity|].
  all: first [ norm_added; reflexivity
             | split; [reflexivity
                      | split; [solve_logged | norm_added; discriminate]] ].
Qed.

Lemma destruction_contract_witness :
  settled fresh_adapter 160 90
  /\ let '(r, _, w') := VFX.delete_background_removal fresh_adapter tt quiet in
     r = Ok tt
     /\ attempted (added (trace quiet) (trace w')) = release.
Proof.
  split; [exact fresh_adapter_settled|].
  pose proof (destruction_contract fresh_adapter 160 90 tt quiet
                fresh_adapter_settled) as T.
  destruct (VFX.delete_background_removal fresh_adapter tt quiet)
    as [[r s'] w'] eqn:E.
  pose proof E as E'. vm_compute in E'. injection E' as Hr _ _.
  rewrite <- Hr in T. destruct T as [_ [_ T]].
  split; [now rewrite <- Hr | exact T].
Defined.

End AdapterSpec.

(* ------------------------------------------------------------------ *)
(** ** The instance over its life *)

Module PipelineSpec.
Import Filter FilterTerms FilterLife VFXTerms AdapterTerms PipelineTerms.
Import AdapterSpec.

(** ** What leaves the thread pool alone *)

Lemma keeps_pool_ret {S A} (a : A) : keeps_pool (@ret S A a).
Proof. intros s w. split; reflexivity. Qed.

Lemma keeps_pool_bind {S A B} (m : M S A) (k : A -> M S B) :
  keeps_pool m -> (forall a, keeps_pool (k a)) -> keeps_pool (bind m k).
Proof.
  intros Hm Hk s w. unfold bind.
  specialize (Hm s w).
  destruct (m s w) as [[[a|e] s1] w1]; simpl in Hm.
  - destruct (Hk a s1 w1) as [H1 H2]. destruct Hm as [H3 H4].
    split; congruence.
  - exact Hm.
Qed.

Lemma keeps_pool_nv {S} c : keeps_pool (@nv S c).
Proof. intros s w. split; reflexivity. Qed.

Lemma keeps_pool_emit {S} e : keeps_pool (@emit S e).
Proof. intros s w. split; reflexivity. Qed.

Lemma keeps_pool_throw {S A} e : keeps_pool (@throw S A e).
Proof. intros s w. split; reflexivity. Qed.

Lemma keeps_pool_get {S} : keeps_pool (@get S).
Proof. intros s w. split; reflexivity. Qed.

Lemma keeps_pool_modify {S} f : keeps_pool (@modify S f).
Proof. intros s w. split; reflexivity. Qed.

Lemma keeps_pool_checked {S} c from msg what :
  keeps_pool (@checked S c from msg what).
Proof.
  unfold checked. apply keeps_pool_bind; [apply keeps_pool_nv|].
  intros res. destruct (is_success res); [apply keeps_pool_ret|].
  apply keeps_pool_bind; [apply keeps_pool_emit|].
  intros _. apply keeps_pool_throw.
Qed.

Lemma keeps_pool_construct {S T} (init : T) (body : M T unit)
    (unwind : T -> M S unit) :
  keeps_pool body -> (forall t, keeps_pool (unwind t)) ->
  keeps_pool (@construct S T init body unwind).
Proof.
  intros Hb Hu s w. unfold construct. specialize (Hb init w).
  destruct (body init w) as [[[[]|[what| |]] t] w1]; try exact Hb.
  specialize (Hu t s w1). simpl in Hb.
  destruct (unwind t s w1) as [[[[]|e] s2] w2]; simpl in *;
    destruct Hb, Hu; split; congruence.
Qed.

Lemma keeps_pool_on_member {S T A} (member : S -> option T)
    (store : option T -> S -> S) (m : M T A) :
  keeps_pool m -> keeps_pool (on_member member store m).
Proof.
  intros Hm s w. unfold on_member.
  destruct (member s) as [t|]; [|split; reflexivity].
  specialize (Hm t w). destruct (m t w) as [[o t'] w']. exact Hm.
Qed.

Lemma keeps_pool_with_lock {S A} (m : M S A) :
  keeps_pool m -> keeps_pool (with_lock m).
Proof.
  intros Hm s w. unfold with_lock.
  specialize (Hm s (record_event Lock w)).
  destruct (m s (record_event Lock w)) as [[[a|[what| |]] s'] w']; exact Hm.
Qed.

Lemma keeps_pool_try_catch_all {S A} (m handler : M S A) :
  keeps_pool m -> keeps_pool handler -> keeps_pool (try_catch_all m handler).
Proof.
  intros Hm Hh s w. unfold try_catch_all.
  specialize (Hm s w).
  destruct (m s w) as [[[a|[what| |]] s1] w1]; [exact Hm| | |exact Hm].
  - specialize (Hh s1 w1). simpl in Hm. destruct Hm, Hh. split; congruence.
  - specialize (Hh s1 w1). simpl in Hm. destruct Hm, Hh. split; congruence.
Qed.

Lemma keeps_pool_try_catch_std {S A} (m : M S A) (handler : string -> M S A) :
  keeps_pool m -> (forall what, keeps_pool (handler what)) ->
  keeps_pool (try_catch_std m handler).
Proof.
  intros Hm Hh s w. unfold try_catch_std.
  specialize (Hm s w). destruct (m s w) as [[[a|[what| |]] s1] w1];
    [exact Hm| |exact Hm|exact Hm].
  specialize (Hh what s1 w1). simpl in Hm. destruct Hm, Hh. split; congruence.
Qed.

Ltac pool_step :=
  first
    [ apply keeps_pool_checked | apply keeps_pool_ret | apply keeps_pool_nv
    | apply keeps_pool_emit | apply keeps_pool_get | apply keeps_pool_modify
    | apply keeps_pool_throw
    | apply keeps_pool_construct; [|intros] | apply keeps_pool_on_member
    | apply keeps_pool_with_lock
    | apply keeps_pool_try_catch_all
    | apply keeps_pool_try_catch_std; [|intros]
    | apply keeps_pool_bind; [|intros]
    | match goal with
      | |- keeps_pool (if ?b then _ else _) => destruct b
      | |- keeps_pool (match ?x with Some _ => _ | None => _ end) =>
          destruct x
      | |- keeps_pool (let '(_, _) := ?x in _) => destruct x
      end ].

Lemma keeps_pool_free : keeps_pool CV.free.
Proof. unfold CV.free. repeat pool_step. Qed.

Lemma keeps_pool_alloc : keeps_pool CV.alloc.
Proof. unfold CV.alloc. repeat pool_step. Qed.

Lemma keeps_pool_delete_texture {S} t : keeps_pool (@CV.delete_texture S t).
Proof.
  intros s w. unfold CV.delete_texture.
  pose proof (keeps_pool_free t w) as H.
  destruct (CV.free t w) as [[[a|e] t'] w']; exact H.
Qed.

Lemma keeps_pool_texture_resize width height :
  keeps_pool (CV.resize width height).
Proof.
  unfold CV.resize.
  repeat first [apply keeps_pool_free | apply keeps_pool_alloc | pool_step].
Qed.

Lemma keeps_pool_new_texture {S} r width height fmt :
  keeps_pool (@CV.new_texture S r width height fmt).
Proof.
  unfold CV.new_texture.
  repeat first [apply keeps_pool_alloc | pool_step].
Qed.

Lemma keeps_pool_new_image {S} r width height :
  keeps_pool (@CV.new_image S r width height).
Proof. unfold CV.new_image. repeat pool_step. Qed.

Lemma keeps_pool_resize_image width height :
  keeps_pool (CV.resize_image width height).
Proof. unfold CV.resize_image. repeat pool_step. Qed.

Lemma keeps_pool_delete_image {S} i : keeps_pool (@CV.delete_image S i).
Proof. unfold CV.delete_image. repeat pool_step. Qed.

Ltac pool_walk :=
  repeat first
    [ apply keeps_pool_delete_texture | apply keeps_pool_delete_image
    | apply keeps_pool_texture_resize | apply keeps_pool_new_texture
    | apply keeps_pool_new_image | apply keeps_pool_resize_image
    | pool_step ].

Lemma keeps_pool_adapter_resize width height :
  keeps_pool (VFX.resize width height).
Proof. unfold VFX.resize. pool_walk. Qed.

Lemma keeps_pool_load : keeps_pool VFX.load.
Proof. unfold VFX.load. pool_walk. Qed.

Lemma keeps_pool_unwind_background_removal {S} o :
  keeps_pool (@VFX.unwind_background_removal S o).
Proof.
  unfold VFX.unwind_background_removal, VFX.destroy_effect. pool_walk.
Qed.

Lemma keeps_pool_new_background_removal {S} :
  keeps_pool (@VFX.new_background_removal S).
Proof.
  unfold VFX.new_background_removal.
  repeat first [ apply keeps_pool_adapter_resize | apply keeps_pool_load
               | apply keeps_pool_unwind_background_removal
               | pool_step ].
Qed.

Lemma keeps_pool_process in_ : keeps_pool (VFX.process in_).
Proof.
  unfold VFX.process.
  repeat first [ apply keeps_pool_adapter_resize | apply keeps_pool_load
               | pool_step ].
Qed.

Lemma keeps_pool_delete_background_removal {S} o :
  keeps_pool (@VFX.delete_background_removal S o).
Proof.
  unfold VFX.delete_background_removal, VFX.destroy_effect. pool_walk.
Qed.

Ltac pool_filter :=
  repeat first
    [ apply keeps_pool_process | apply keeps_pool_new_background_removal
    | apply keeps_pool_delete_background_removal
    | pool_step
    | match goal with
      | |- keeps_pool (match ?p with
                       | INVALID => _ | AUTOMATIC => _
                       | NVIDIA_GREEN_SCREEN => _ end) => destruct p
      end ].

Lemma keeps_pool_nvidia_load : keeps_pool nvidia_load.
Proof. unfold nvidia_load. pool_filter. Qed.

Lemma keeps_pool_nvidia_unload : keeps_pool nvidia_unload.
Proof. unfold nvidia_unload. pool_filter. Qed.

Lemma keeps_pool_task spd : keeps_pool (task_switch_provider spd).
Proof.
  unfold task_switch_provider, task_begin, task_locked, unload_previous,
    load_new.
  repeat first [ apply keeps_pool_nvidia_load | apply keeps_pool_nvidia_unload
               | pool_filter ].
Qed.

Lemma keeps_pool_video_tick h : keeps_pool (video_tick h).
Proof.
  unfold video_tick, nvidia_size. cbv zeta. pool_filter.
Qed.

Lemma keeps_pool_video_render h : keeps_pool (video_render h).
Proof.
  unfold video_render, refresh, draw, capture, process_step, mask_step,
    nvidia_process.
  cbv zeta. pool_filter.
Qed.


(** ** The adapter of the instance *)

Lemma fresh_adapter_alive : alive fresh_adapter.
Proof.
  split; [reflexivity|].
  exists fresh_input, (fresh_image r_source), (fresh_image r_destination),
    fresh_output, (fresh_image r_tmp).
  repeat split.
Qed.

Lemma constructed_is_fresh {S : Type} (s s' : S) (w w' : world)
    (o : VFX.background_removal) :
  VFX.new_background_removal s w = (Ok o, s', w') -> o = fresh_adapter.
Proof.
  destruct w as [tr sc pl nh].
  cbv -[app].
  repeat next_code;
    (intros E; first [discriminate E | injection E as <- _ _]);
    reflexivity.
Qed.

(** [nvidia_unload] leaves no adapter, however the release ends. *)
Lemma nvidia_unload_result (s : background_removal_instance) (w : world) :
  exists o w',
    nvidia_unload s w = (o, set_nvidia_fx None s, w')
    /\ null_throw o = false.
Proof.
  destruct (FilterSpec.only_fx_nvidia_unload s w) as [o [fx [w' [E Hn]]]].
  exists o, w'. split; [|exact Hn].
  rewrite E. f_equal. f_equal.
  assert (_nvidia_fx (snd (fst (nvidia_unload s w))) = None) as Hfx.
  { unfold nvidia_unload, bind, get, modify.
    destruct (_nvidia_fx s) as [old|]; [|reflexivity].
    rewrite (FilterSpec.keeps_delete_background_removal old). reflexivity. }
  rewrite E in Hfx. simpl in Hfx. now rewrite Hfx.
Qed.

(** [nvidia_load] either fails to build the adapter and leaves the
    instance as it was, or installs the adapter the constructor
    returned; it ends normally only in the second case. *)
Lemma nvidia_load_result (s : background_removal_instance) (w : world) :
  exists o fx w',
    nvidia_load s w = (o, set_nvidia_fx fx s, w')
    /\ null_throw o = false
    /\ (fx = Some fresh_adapter
        \/ (fx = _nvidia_fx s /\ exists e, o = Throw e)).
Proof.
  pose proof (FilterSpec.only_fx_nvidia_load s w) as [o [fx [w' [E Hn]]]].
  exists o, fx, w'. split; [exact E|]. split; [exact Hn|].
  revert E. unfold nvidia_load, bind, get, modify.
  pose proof (keeps_construct
                {| VFX._fx := false; VFX._input := None;
                   VFX._source := None; VFX._destination := None;
                   VFX._output := None; VFX._tmp := None;
                   VFX._dirty := true |}
                _ _ s w : snd (fst (VFX.new_background_removal s w)) = s)
    as Hk.
  destruct (VFX.new_background_removal s w) as [[[a|e] s1] w1] eqn:N;
    simpl in Hk; subst s1.
  - apply constructed_is_fresh in N. subst a.
    destruct (_nvidia_fx s) as [old|].
    + pose proof (FilterSpec.keeps_delete_background_removal old
                    (set_nvidia_fx (Some fresh_adapter) s) w1) as Hd.
      destruct (VFX.delete_background_removal old _ w1) as [[o2 s2] w2].
      simpl in Hd. subst s2. intros E.
      apply (f_equal (fun x => _nvidia_fx (snd (fst x)))) in E.
      simpl in E. left. now symmetry.
    + intros E.
      apply (f_equal (fun x => _nvidia_fx (snd (fst x)))) in E.
      simpl in E. left. now symmetry.
  - intros E. right. split.
    + apply (f_equal (fun x => _nvidia_fx (snd (fst x)))) in E.
      simpl in E. now symmetry.
    + apply (f_equal (fun x => fst (fst x))) in E. simpl in E.
      now exists e.
Qed.

(** The attempt of the task, on an instance whose adapter is alive. *)
Lemma attempt_result (spd : switch_provider_data_t)
    (s : background_removal_instance) (w : world) :
  holds_buffers (_nvidia_fx s) ->
  exists o fx w',
    attempt spd s w = (o, set_nvidia_fx fx s, w')
    /\ null_throw o = false
    /\ holds_buffers fx
    /\ (o = Ok tt -> _provider s = NVIDIA_GREEN_SCREEN ->
        fx = Some fresh_adapter)
    /\ (spd_provider spd <> NVIDIA_GREEN_SCREEN ->
        _provider s <> NVIDIA_GREEN_SCREEN ->
        o = Ok tt /\ fx = _nvidia_fx s /\ w' = w).
Proof.
  intros Ha. unfold attempt, bind, unload_previous.
  assert (forall s1 w1,
             holds_buffers (_nvidia_fx s1) ->
             exists o fx w',
               load_new s1 w1 = (o, set_nvidia_fx fx s1, w')
               /\ null_throw o = false
               /\ holds_buffers fx
               /\ (o = Ok tt -> _provider s1 = NVIDIA_GREEN_SCREEN ->
                   fx = Some fresh_adapter)
               /\ (_provider s1 <> NVIDIA_GREEN_SCREEN ->
                   o = Ok tt /\ fx = _nvidia_fx s1 /\ w' = w1)) as L.
  { intros s1 w1 H1. unfold load_new, bind, get.
    destruct (_provider s1) eqn:Ep.
    - exists (Ok tt), (_nvidia_fx s1), w1.
      rewrite FilterSpec.set_nvidia_fx_same.
      repeat split; auto; discriminate.
    - exists (Ok tt), (_nvidia_fx s1), w1.
      rewrite FilterSpec.set_nvidia_fx_same.
      repeat split; auto; discriminate.
    - destruct (nvidia_load_result s1 w1) as [o [fx [w' [E [Hn C]]]]].
      exists o, fx, w'. split; [exact E|]. split; [exact Hn|].
      split; [|split].
      + destruct C as [-> | [-> _]]; [exact fresh_adapter_alive | exact H1].
      + intros -> _. destruct C as [C | [_ [e C]]];
          [exact C | discriminate C].
      + intros C'. now contradiction C'. }
  assert (forall fx0, set_nvidia_fx fx0 (set_nvidia_fx None s)
                      = set_nvidia_fx fx0 s) as Hset by reflexivity.
  destruct (spd_provider spd) eqn:Es.
  - unfold ret. destruct (L s w Ha) as [o [fx [w' [E [Hn [Hf [H1 H2]]]]]]].
    exists o, fx, w'. rewrite E. repeat split; auto;
      destruct (H2 H0) as [? [? ?]]; auto.
  - unfold ret. destruct (L s w Ha) as [o [fx [w' [E [Hn [Hf [H1 H2]]]]]]].
    exists o, fx, w'. rewrite E. repeat split; auto;
      destruct (H2 H0) as [? [? ?]]; auto.
  - destruct (nvidia_unload_result s w) as [o1 [w1 [E1 Hn1]]].
    rewrite E1. destruct o1 as [[]|e1].
    + destruct (L (set_nvidia_fx None s) w1 I)
        as [o [fx [w' [E [Hn [Hf [H1 H2]]]]]]].
      exists o, fx, w'. rewrite E, Hset.
      split; [reflexivity|]. split; [exact Hn|]. split; [exact Hf|].
      split; [exact H1|]. intros C. now contradiction C.
    + exists (Throw e1), None, w1.
      split; [reflexivity|]. split; [exact Hn1|]. split; [exact I|].
      split; [discriminate|]. intros C. now contradiction C.
Qed.

(** The task from the lock on: it writes [_provider_ready] and
    [_nvidia_fx] and no other member; it returns unless the process ends
    in a release; and an adapter that is alive is followed by one that
    is. *)
Lemma task_locked_result (spd : switch_provider_data_t)
    (s : background_removal_instance) (w : world) :
  holds_buffers (_nvidia_fx s) ->
  exists o ready fx w',
    task_locked spd s w
    = (o, set_provider_ready ready (set_nvidia_fx fx s), w')
    /\ (o = Ok tt \/ o = Throw terminate)
    /\ holds_buffers fx.
Proof.
  intros Ha.
  destruct (attempt_result spd s (record_event Lock w) Ha)
    as [o [fx [w2 [E [Hn [Hf _]]]]]].
  rewrite FilterSpec.task_locked_unfold, E.
  assert (forall fx0,
             set_provider_ready (_provider_ready s) (set_nvidia_fx fx0 s)
             = set_nvidia_fx fx0 s) as Hsame by (now destruct s).
  destruct o as [[]|[what| |]]; [| |discriminate Hn|].
  - exists (Ok tt), true, fx,
      (record_event Unlock (record_event switch_done w2)).
    split; [reflexivity | auto].
  - exists (Ok tt), (_provider_ready s), fx,
      (record_event Unlock (record_event switch_failed w2)).
    rewrite Hsame. split; [reflexivity | auto].
  - exists (Throw terminate), (_provider_ready s), fx, w2.
    rewrite Hsame. split; [reflexivity | auto].
Qed.


(** ** The callbacks, member by member *)

(** The processing step on an instance whose adapter is alive. *)
Lemma process_step_alive (s : background_removal_instance) (w : world) :
  exists o m fx w',
    process_step s w = (o, set_mask m (set_nvidia_fx fx s), w')
    /\ is_none fx = is_none (_nvidia_fx s)
    /\ (holds_buffers (_nvidia_fx s) -> holds_buffers fx).
Proof.
  unfold process_step, bind, get.
  assert (forall w' : world, exists o m fx w'',
             (Ok tt, set_mask None s, w')
             = (o, set_mask m (set_nvidia_fx fx s), w'')
             /\ is_none fx = is_none (_nvidia_fx s)
             /\ (holds_buffers (_nvidia_fx s) -> holds_buffers fx))
    as Hdefault.
  { intros w'. exists (Ok tt), None, (_nvidia_fx s), w'.
    rewrite FilterSpec.set_mask_fx_same. auto. }
  destruct (_provider s); try apply Hdefault.
  unfold nvidia_process, bind, get, modify, on_member.
  destruct (_nvidia_fx s) as [fx|] eqn:E.
  - cbv beta. rewrite E.
    assert (alive fx -> alive (snd (fst (VFX.process (_input s) fx w))))
      as Ha.
    { intros [Hfx [i [src [d [out [t Hb]]]]]].
      destruct (process_keeps_buffers fx i src d out t (_input s) w Hb)
        as [Hfx' [i' [src' [d' [out' Hb']]]]].
      split; [congruence | eauto 6]. }
    destruct (VFX.process (_input s) fx w) as [[[m|e] fx1] w1].
    + exists (Ok tt), m, (Some fx1), w1. auto.
    + exists (Throw e), (_mask s), (Some fx1), w1.
      split; [now destruct s|]. auto.
  - exists (Ok tt), (Some (_input s)), None, w.
    rewrite <- E, FilterSpec.set_mask_fx_same. auto.
Qed.

(** A render call writes [_input], [_mask], [_masked], [_dirty] and
    lets the adapter work on itself; it writes no other member, ends
    normally, and an adapter that is alive stays so. *)
Lemma video_render_frame (h : host) (s : background_removal_instance)
    (w : world) :
  exists input mask masked dirty fx w',
    video_render h s w
    = (Ok tt,
       set_dirty dirty
         (set_masked masked
            (set_mask mask (set_nvidia_fx fx (set_input input s)))),
       w')
    /\ is_none fx = is_none (_nvidia_fx s)
    /\ (holds_buffers (_nvidia_fx s) -> holds_buffers fx).
Proof.
  assert (forall w' : world,
             exists input mask masked dirty fx w'',
               (Ok tt, s, w')
               = (Ok tt,
                  set_dirty dirty
                    (set_masked masked
                       (set_mask mask
                          (set_nvidia_fx fx (set_input input s)))),
                  w'')
               /\ is_none fx = is_none (_nvidia_fx s)
               /\ (holds_buffers (_nvidia_fx s) -> holds_buffers fx))
    as Hsame.
  { intros w'.
    exists (_input s), (_mask s), (_masked s), (_dirty s), (_nvidia_fx s), w'.
    split; [now destruct s | auto]. }
  destruct (must_skip h s) eqn:Hs.
  - rewrite (FilterSpec.video_render_skipped h s w Hs). apply Hsame.
  - destruct (_dirty s) eqn:Hd.
    + rewrite (FilterSpec.video_render_dirty h s w Hs Hd).
      destruct (FilterSpec.render_dirty_cases h s w) as [[_ ->]|[_ C]];
        [apply Hsame|].
      destruct C as [o2 [s2 [w2 [E C]]]].
      unfold processed in E.
      destruct (process_step_alive (captured h s) (capturing s w))
        as [o [m [fx [w' [E' [Hn Ha]]]]]].
      rewrite E in E'. injection E' as -> -> ->.
      assert (forall (d : bool) (k : GS.texture) (w3 : world),
                 exists input mask masked dirty fx0 w'',
                   (Ok tt,
                    set_dirty d
                      (set_masked k
                         (set_mask m (set_nvidia_fx fx (captured h s)))),
                    w3)
                   = (Ok tt,
                      set_dirty dirty
                        (set_masked masked
                           (set_mask mask
                              (set_nvidia_fx fx0 (set_input input s)))),
                      w'')
                   /\ is_none fx0 = is_none (_nvidia_fx s)
                   /\ (holds_buffers (_nvidia_fx s) -> holds_buffers fx0))
        as Hgen.
      { intros d k w3.
        exists (_input (captured h s)), m, k, d, fx, w3.
        split; [reflexivity | auto]. }
      assert (set_mask m (set_nvidia_fx fx (captured h s))
              = set_dirty true
                  (set_masked (_masked s)
                     (set_mask m (set_nvidia_fx fx (captured h s)))))
        as Hkeep.
      { clear - Hd. destruct s. simpl in Hd. subst. reflexivity. }
      destruct C as [[e [_ ->]] | [[_ [_ ->]] | [C | C]]].
      * rewrite Hkeep. apply Hgen.
      * rewrite Hkeep. apply Hgen.
      * destruct C as [mask [_ [_ [_ ->]]]]. rewrite Hkeep. apply Hgen.
      * destruct C as [mask [_ [_ [_ ->]]]]. apply Hgen.
    + rewrite (FilterSpec.video_render_clean h s w Hs Hd). apply Hsame.
Qed.

(** A tick writes the two sizes and the dirty flag. *)
Lemma video_tick_frame (h : host) (s : background_removal_instance)
    (w : world) :
  exists w',
    video_tick h s w
    = (Ok tt,
       set_dirty true
         (set_out_size (base_width h, base_height h)
            (set_in_size (base_width h, base_height h) s)),
       w').
Proof.
  unfold video_tick, with_lock, nvidia_size, VFX.size, bind, get, modify,
    ret.
  simpl.
  destruct (target h), (_provider_ready s), (_provider s); simpl;
    try (eexists; reflexivity);
    destruct (_nvidia_fx s); simpl; eexists; reflexivity.
Qed.

(** The provider an update asks for. *)
Lemma update_unfold (f : background_removal_factory) (data : Z)
    (p : background_removal_provider)
    (s : background_removal_instance) (w : world) :
  provider_of_int data = Some p ->
  let resolved := if provider_eqb p AUTOMATIC then first_available f else p in
  update f data s w
  = let '(_, s', w') := switch_provider resolved s w in
    if provider_eqb resolved (_provider s) then
      (Ok tt, s, if _provider_ready s then after [Lock; Unlock] w else w)
    else
      (Ok tt, s', if _provider_ready s then after [Lock; Unlock] w' else w').
Proof.
  intros Hp resolved. unfold update. rewrite Hp. cbv zeta.
  assert ((if provider_eqb p AUTOMATIC
           then resolve_automatic f provider_priority p else p) = resolved)
    as ->.
  { unfold resolved. destruct (provider_eqb p AUTOMATIC) eqn:E; [|reflexivity].
    apply provider_eqb_eq in E. subst p.
    rewrite FilterSpec.resolve_automatic_find. reflexivity. }
  unfold bind at 1. unfold get at 1. unfold bind at 1.
  destruct (provider_eqb resolved (_provider s)) eqn:E.
  - destruct (switch_provider resolved s w) as [[o1 s1] w1].
    simpl. unfold bind, get, with_lock, after, record_event. simpl.
    destruct (_provider_ready s); simpl; [|reflexivity].
    now rewrite <- app_assoc.
  - apply provider_eqb_neq in E.
    change (negb false) with true. cbv iota.
    rewrite (FilterSpec.switch_provider_other resolved s w E).
    unfold bind, get, with_lock, after, record_event. simpl.
    destruct (_provider_ready s); simpl; [|reflexivity].
    now rewrite <- !app_assoc.
Qed.


(** ** A runtime that reports success *)

Ltac success_code H :=
  match goal with
  | |- context [match ?sc with [] => _ | _ :: _ => _ end] =>
      is_var sc; destruct sc as [|[|?] sc];
      [ | simpl in H | simpl in H; discriminate H ]
  end.

(** The constructor returns the adapter with its 160x90 buffers. *)
Lemma construction_cooperates {S : Type} (s : S) (w : world) :
  forallb is_success (script w) = true ->
  exists w',
    VFX.new_background_removal s w = (Ok fresh_adapter, s, w')
    /\ forallb is_success (script w') = true
    /\ added (trace w) (trace w') = construction.
Proof.
  intros Hok. destruct w as [tr sc pl nh]. simpl in Hok.
  crank.
  repeat (success_code Hok; crank).
  all: eexists; split; [reflexivity|]; split;
    [first [exact Hok | reflexivity] | norm_added; reflexivity].
Qed.

(** The destructor of any adapter returns. *)
Lemma destruction_cooperates {S : Type} (o : VFX.background_removal)
    (s : S) (w : world) :
  forallb is_success (script w) = true ->
  exists w',
    VFX.delete_background_removal o s w = (Ok tt, s, w')
    /\ forallb is_success (script w') = true.
Proof.
  intros Hok. destruct w as [tr sc pl nh]. simpl in Hok.
  destruct o as [fx [[itag itex iimg]|] [src|] [dst|] [[otag otex oimg]|]
                   [tmp|] dirty];
    destruct fx.
  all: crank.
  all: repeat (success_code Hok; crank).
  all: eexists; split; [reflexivity|]; first [exact Hok | reflexivity].
Qed.

(** [resize] on an adapter that has its buffers returns. *)
Lemma resize_cooperates (o : VFX.background_removal)
    (input : CV.texture) (source destination : CV.image)
    (output : CV.texture) (tmp : CV.image)
    (width height : Z) (w : world) :
  bound o input source destination output tmp ->
  forallb is_success (script w) = true ->
  exists o1 w1,
    VFX.resize width height o w = (Ok tt, o1, w1)
    /\ forallb is_success (script w1) = true.
Proof.
  intros Hb Hok. open_bound Hb o.
  destruct w as [tr sc pl nh]. simpl in Hok.
  crank.
  repeat (first [success_code Hok | size_case]; crank).
  all: do 2 eexists; split; [reflexivity|]; first [exact Hok | reflexivity].
Qed.

(** The rest of [process] on an adapter in working order returns. *)
Lemma finish_cooperates (o : VFX.background_removal) (w0 h0 : Z)
    (in_ : GS.texture) (w : world) :
  settled o w0 h0 ->
  forallb is_success (script w) = true ->
  exists m o' w',
    finish in_ o w = (Ok m, o', w')
    /\ forallb is_success (script w') = true.
Proof.
  intros H Hok. destruct in_ as [iw' ih' ifmt' ipx'].
  open_settled H o.
  destruct w as [tr sc pl nh]. simpl in Hok.
  crank.
  repeat (first [success_code Hok | flag_case]; crank).
  all: do 3 eexists; split; [reflexivity|]; first [exact Hok | reflexivity].
Qed.

(** [process] on an adapter in working order returns. *)
Lemma process_cooperates (o : VFX.background_removal) (w0 h0 : Z)
    (in_ : GS.texture) (w : world) :
  settled o w0 h0 ->
  forallb is_success (script w) = true ->
  exists m o' w',
    VFX.process in_ o w = (Ok m, o', w')
    /\ forallb is_success (script w') = true.
Proof.
  intros H Hok. rewrite process_split. unfold bind.
  assert (exists input source destination output tmp,
             bound o input source destination output tmp) as Hb.
  { destruct H as [i [src [d [out [t [Hb _]]]]]]. eauto 6. }
  destruct Hb as [i [src [d [out [t Hb]]]]].
  destruct (resize_cooperates o i src d out t
              (GS.get_width in_) (GS.get_height in_) w Hb Hok)
    as [o1 [w1 [R Hok1]]].
  rewrite R.
  destruct (resize_settles o w0 h0 _ _ w o1 w1 H R) as [H1 _].
  exact (finish_cooperates o1 _ _ in_ w1 H1 Hok1).
Qed.


(** ** Requests for a provider *)

(** A request on an instance that knows what is queued. *)
Lemma queue_after_switch (provider : background_removal_provider)
    (s : background_removal_instance) (w : world) :
  queue_in_hand s w ->
  exists s' w',
    switch_provider provider s w = (Ok tt, s', w')
    /\ _provider s' = provider
    /\ _nvidia_fx s' = _nvidia_fx s
    /\ _provider_ready s' = _provider_ready s
    /\ queue_in_hand s' w'
    /\ script w' = script w
    /\ runtime_calls (added (trace w) (trace w')) = []
    /\ (provider <> _provider s ->
        pool w' = [{| task_handle := next_handle w;
                      task_data := {| spd_provider := _provider s |} |}])
    /\ (provider = _provider s -> s' = s /\ pool w' = pool w).
Proof.
  intros [Hq Hl].
  destruct (provider_eqb provider (_provider s)) eqn:E.
  - apply provider_eqb_eq in E. subst provider.
    exists s, (record_event Unlock (record_event Lock w)).
    split.
    { unfold switch_provider, with_lock, bind, get.
      rewrite provider_eqb_refl. reflexivity. }
    repeat split; auto.
    + simpl. rewrite <- app_assoc, added_app. reflexivity.
    + congruence.
  - apply provider_eqb_neq in E.
    rewrite (FilterSpec.switch_provider_other provider s w E).
    assert (cancelled (_provider_task s) (pool w) = []) as Hc.
    { unfold cancelled. destruct (_provider_task s) as [h|] eqn:Eh.
      - clear Hl. induction Hq as [|t q Ht Hq IH]; simpl; [reflexivity|].
        injection Ht as ->. rewrite Nat.eqb_refl. simpl. exact IH.
      - destruct Hq as [|t q Ht _]; [reflexivity | discriminate Ht]. }
    do 2 eexists. split; [reflexivity|].
    simpl. rewrite Hc. simpl.
    repeat split; auto; try congruence.
    + repeat constructor.
    + rewrite added_app. destruct (_provider_task s); reflexivity.
Qed.

Lemma last_default {A : Type} (a : A) (l : list A) (d d' : A) :
  last (a :: l) d = last (a :: l) d'.
Proof.
  revert a. induction l as [|b l IH]; intros a; [reflexivity|].
  change (last (b :: l) d = last (b :: l) d'). apply IH.
Qed.

(** X8: After any number of requests made one after the other the active
    provider is the one asked for last, at most one task is queued and
    it is the one the instance holds the handle of; the requests leave
    the adapter and the readiness flag as they were and call the runtime
    not once. *)
Theorem last_request_wins (ps : list background_removal_provider)
    (s : background_removal_instance) (w : world) :
  queue_in_hand s w ->
  let '(s', w') := request_all ps s w in
  _provider s' = last ps (_provider s)
  /\ queue_in_hand s' w'
  /\ _nvidia_fx s' = _nvidia_fx s
  /\ _provider_ready s' = _provider_ready s
  /\ script w' = script w.
Proof.
  revert s w. induction ps as [|p rest IH]; intros s w Hq.
  - simpl. auto.
  - simpl request_all.
    destruct (queue_after_switch p s w Hq)
      as [s1 [w1 [E [Hp [Hfx [Hr [Hq1 [Hsc _]]]]]]]].
    rewrite E. specialize (IH s1 w1 Hq1).
    destruct (request_all rest s1 w1) as [s' w'].
    destruct IH as [I1 [I2 [I3 [I4 I5]]]].
    split; [|split; [exact I2 | repeat split; congruence]].
    rewrite I1, Hp. destruct rest as [|b rest]; [reflexivity|].
    change (last (p :: b :: rest) (_provider s))
      with (last (b :: rest) (_provider s)).
    apply last_default.
Qed.

Lemma last_request_wins_witness :
  queue_in_hand initial quiet
  /\ let '(s', w') :=
       request_all [NVIDIA_GREEN_SCREEN; INVALID; NVIDIA_GREEN_SCREEN]
         initial quiet in
     _provider s' = NVIDIA_GREEN_SCREEN
     /\ queue_in_hand s' w'.
Proof.
  assert (queue_in_hand initial quiet) as H
    by (split; [constructor | simpl; lia]).
  split; [exact H|].
  pose proof (last_request_wins
                [NVIDIA_GREEN_SCREEN; INVALID; NVIDIA_GREEN_SCREEN]
                initial quiet H) as T.
  destruct (request_all _ initial quiet) as [s' w'].
  destruct T as [T1 [T2 _]]. split; [exact T1 | exact T2].
Defined.

(** ** The invariant of the instance *)

Lemma consistent_initial (codes : list result) :
  consistent initial (scripted codes quiet).
Proof.
  split; [exact I|].
  split; [constructor | simpl; lia].
Qed.

Lemma update_keeps_consistent (f : background_removal_factory) (data : Z)
    (s : background_removal_instance) (w : world) :
  consistent s w ->
  let '(_, s', w') := update f data s w in consistent s' w'.
Proof.
  intros [Ha Hq].
  destruct (provider_of_int data) as [p|] eqn:Hp.
  - rewrite (update_unfold f data p s w Hp). cbv zeta.
    set (resolved := if provider_eqb p AUTOMATIC
                     then first_available f else p).
    destruct (queue_after_switch resolved s w Hq)
      as [s1 [w1 [E [H1 [H2 [H3 [H4 [H5 [H6 [H7 H8]]]]]]]]]].
    rewrite E.
    destruct (provider_eqb resolved (_provider s)) eqn:Eq.
    + split; [exact Ha|].
      destruct (_provider_ready s); exact Hq.
    + split; [now rewrite H2|].
      destruct (_provider_ready s); exact H4.
  - unfold update. rewrite Hp. unfold with_lock, throw. simpl.
    split; [exact Ha | exact Hq].
Qed.

Lemma tick_keeps_consistent (h : host) (s : background_removal_instance)
    (w : world) :
  consistent s w ->
  let '(_, s', w') := video_tick h s w in consistent s' w'.
Proof.
  intros [Ha Hq].
  pose proof (keeps_pool_video_tick h s w) as [Hp _].
  destruct (video_tick_frame h s w) as [w' E]. rewrite E in *.
  simpl in Hp. unfold consistent, queue_in_hand. simpl. rewrite Hp.
  auto.
Qed.

Lemma render_keeps_consistent (h : host) (s : background_removal_instance)
    (w : world) :
  consistent s w ->
  let '(_, s', w') := video_render h s w in consistent s' w'.
Proof.
  intros [Ha Hq].
  pose proof (keeps_pool_video_render h s w) as [Hp _].
  destruct (video_render_frame h s w)
    as [input [mask [masked [dirty [fx [w' [E [Hn Hf]]]]]]]].
  rewrite E in *. simpl in Hp.
  unfold consistent, queue_in_hand. simpl. rewrite Hp.
  split; [auto | exact Hq].
Qed.

(** A worker picks a task up: the queue loses its head, the instance its
    readiness. *)
Lemma start_keeps_consistent (s : background_removal_instance) (w : world) :
  consistent s w ->
  let '(_, s', w') := start_next_task s w in consistent s' w'.
Proof.
  intros [Ha [Hq Hl]].
  unfold start_next_task, threadpool_take, task_begin, bind, modify, ret.
  destruct (pool w) as [|t rest] eqn:Ep.
  - split; [exact Ha|]. unfold queue_in_hand. rewrite Ep. auto.
  - split; [exact Ha|]. split; simpl.
    + now inversion Hq.
    + simpl in Hl. lia.
Qed.

(** A worker gets the lock and runs the rest of its task, whichever the
    task and however long ago it was begun. *)
Lemma locked_keeps_consistent (spd : switch_provider_data_t)
    (s : background_removal_instance) (w : world) :
  consistent s w ->
  let '(_, s', w') := task_locked spd s w in consistent s' w'.
Proof.
  intros [Ha Hq].
  assert (keeps_pool (task_locked spd)) as Hk.
  { unfold task_locked, unload_previous, load_new.
    repeat first [ apply keeps_pool_nvidia_load
                 | apply keeps_pool_nvidia_unload | pool_filter ]. }
  pose proof (Hk s w) as [Hp _].
  destruct (task_locked_result spd s w Ha) as [o [ready [fx [w' [E [_ Hf]]]]]].
  rewrite E in *. simpl in Hp.
  unfold consistent, queue_in_hand. simpl. rewrite Hp.
  split; [exact Hf | exact Hq].
Qed.

Lemma task_keeps_consistent (s : background_removal_instance) (w : world) :
  consistent s w ->
  let '(_, s', w') := run_next_task s w in consistent s' w'.
Proof.
  intros H. rewrite FilterSpec.run_next_task_unfold.
  destruct (pool w) as [|t rest] eqn:Ep; [exact H|].
  set (w0 := {| trace := trace w; script := script w; pool := rest;
                next_handle := next_handle w |}).
  assert (consistent (set_provider_ready false s) w0) as H0.
  { destruct H as [Ha [Hq Hl]]. rewrite Ep in Hq, Hl.
    split; [exact Ha|]. split; simpl; [now inversion Hq | simpl in Hl; lia]. }
  pose proof (locked_keeps_consistent (task_data t) _ _ H0) as Hl.
  change (task_switch_provider (task_data t) s w0)
    with (task_locked (task_data t) (set_provider_ready false s) w0).
  destruct (task_locked (task_data t) (set_provider_ready false s) w0)
    as [[[[]|e] s3] w3]; exact Hl.
Qed.

Lemma perform_keeps_consistent (c : call) (s : background_removal_instance)
    (w : world) :
  consistent s w ->
  let '(_, s', w') := perform c s w in consistent s' w'.
Proof.
  intros H. destruct c as [f data|h|h|]; simpl perform.
  - exact (update_keeps_consistent f data s w H).
  - exact (tick_keeps_consistent h s w H).
  - exact (render_keeps_consistent h s w H).
  - pose proof (task_keeps_consistent s w H) as T. unfold bind.
    destruct (run_next_task s w) as [[[b|e] s'] w']; exact T.
Qed.

Lemma move_keeps_consistent (m : move) (p : system) :
  consistent (instance p) (surroundings p) ->
  consistent (instance (move_on m p)) (surroundings (move_on m p)).
Proof.
  intros H. unfold move_on.
  destruct (ended p); [exact H|].
  destruct m as [c| |n].
  - pose proof (perform_keeps_consistent c _ _ H) as P.
    destruct (perform c (instance p) (surroundings p)) as [[r s] w].
    exact P.
  - pose proof (start_keeps_consistent _ _ H) as P.
    destruct (start_next_task (instance p) (surroundings p)) as [[r s] w].
    exact P.
  - destruct (nth_error (begun p) n) as [spd|]; [|exact H].
    pose proof (locked_keeps_consistent spd _ _ H) as P.
    destruct (task_locked spd (instance p) (surroundings p)) as [[r s] w].
    exact P.
Qed.

(** X9: Whatever the host, the user and the workers of the pool do with an
    instance from its construction on, in whatever order and whatever
    the runtime answers, a worker taking the lock any time after it has
    picked its task up, with other tasks queued, begun and finished in
    between: after every step, the one on which the process ends
    included, the adapter the instance holds, if any, has its effect
    handle and its five buffers, and the queue holds at most one switch
    task, the one whose handle the instance keeps. *)
Theorem every_history_is_consistent (f : background_removal_factory)
    (data : option Z) (ms : list move) (codes : list result) :
  let '(_, s0, w0) := new_instance f data initial (scripted codes quiet) in
  let p := play ms (at_rest s0 w0) in
  consistent (instance p) (surroundings p).
Proof.
  assert (forall ms p, consistent (instance p) (surroundings p) ->
            consistent (instance (play ms p)) (surroundings (play ms p)))
    as Hall.
  { clear ms. induction ms as [|m rest IH]; intros p H.
    - exact H.
    - simpl play. apply IH. apply move_keeps_consistent. exact H. }
  pose proof (consistent_initial codes) as H0.
  destruct data as [d|]; simpl new_instance.
  - pose proof (update_keeps_consistent f d _ _ H0) as P.
    destruct (update f d initial (scripted codes quiet)) as [[o s0] w0].
    cbv zeta. apply Hall. exact P.
  - unfold ret. cbv zeta. apply Hall. exact H0.
Qed.

(** X25: A worker that is overtaken: the filter runs the NVIDIA provider;
    the settings name no provider, and a worker picks that switch up;
    the settings name NVIDIA again, and a second worker runs that switch
    from start to end before the first gets the lock.  The first then
    unloads the adapter the second has built, and the runtime refuses it
    a new effect.  What is left is an instance whose active provider is
    the NVIDIA one and marked ready, with no adapter and no task queued
    or under way: readiness is no sign of an adapter. *)
Example overtaken_worker_leaves_readiness_without_adapter :
  let '(_, s, w) := running in
  let p :=
    play [calls (do_update with_nvidia (-1)); begins;
          calls (do_update with_nvidia 1); begins;
          proceeds 1; proceeds 0]
      (at_rest s (scripted (repeat SUCCESS 31 ++ [FAILURE 1]) w)) in
  ended p = false
  /\ begun p = []
  /\ pool (surroundings p) = []
  /\ _provider (instance p) = NVIDIA_GREEN_SCREEN
  /\ _provider_ready (instance p) = true
  /\ _nvidia_fx (instance p) = None
  /\ filter_logs (added (trace w) (trace (surroundings p)))
     = [switching; switching; switch_done; switch_failed].
Proof. vm_compute. repeat split. Qed.


(** ** Switching with a runtime that reports success *)

Lemma nvidia_unload_cooperates (s : background_removal_instance)
    (w : world) :
  forallb is_success (script w) = true ->
  exists w',
    nvidia_unload s w = (Ok tt, set_nvidia_fx None s, w')
    /\ forallb is_success (script w') = true.
Proof.
  intros Hok. unfold nvidia_unload, bind, get, modify.
  destruct (_nvidia_fx s) as [old|].
  - destruct (destruction_cooperates old (set_nvidia_fx None s) w Hok)
      as [w' [E Hok']].
    rewrite E. eauto.
  - exists w. auto.
Qed.

Lemma nvidia_load_cooperates (s : background_removal_instance)
    (w : world) :
  forallb is_success (script w) = true ->
  exists w',
    nvidia_load s w = (Ok tt, set_nvidia_fx (Some fresh_adapter) s, w')
    /\ forallb is_success (script w') = true.
Proof.
  intros Hok. unfold nvidia_load, bind, get, modify.
  destruct (construction_cooperates s w Hok) as [w1 [E [Hok1 _]]].
  rewrite E.
  destruct (_nvidia_fx s) as [old|].
  - destruct (destruction_cooperates old
                (set_nvidia_fx (Some fresh_adapter) s) w1 Hok1)
      as [w' [E' Hok']].
    rewrite E'. eauto.
  - exists w1. auto.
Qed.

(** The task with a runtime that reports success: it ends with the
    provider marked ready and with the adapter the two providers call
    for. *)
Lemma task_cooperates (spd : switch_provider_data_t)
    (s : background_removal_instance) (w : world) :
  forallb is_success (script w) = true ->
  exists w',
    task_switch_provider spd s w
    = (Ok tt,
       set_provider_ready true
         (set_nvidia_fx (adapter_after (spd_provider spd) s) s), w')
    /\ forallb is_success (script w') = true.
Proof.
  intros Hok. rewrite FilterSpec.task_switch_provider_unfold.
  set (s0 := set_provider_ready false s).
  assert (forallb is_success (script (record_event Lock w)) = true) as Hok0
    by exact Hok.
  assert (forall s1 w1,
             forallb is_success (script w1) = true ->
             exists w',
               load_new s1 w1
               = (Ok tt,
                  set_nvidia_fx
                    (match _provider s1 with
                     | NVIDIA_GREEN_SCREEN => Some fresh_adapter
                     | _ => _nvidia_fx s1
                     end) s1, w')
               /\ forallb is_success (script w') = true) as L.
  { intros s1 w1 H1. unfold load_new, bind, get.
    destruct (_provider s1).
    - exists w1. now rewrite FilterSpec.set_nvidia_fx_same.
    - exists w1. now rewrite FilterSpec.set_nvidia_fx_same.
    - exact (nvidia_load_cooperates s1 w1 H1). }
  unfold attempt, bind, unload_previous, adapter_after.
  destruct (spd_provider spd).
  - destruct (L s0 _ Hok0) as [w' [E Hok']]. unfold ret. rewrite E.
    exists (record_event Unlock (record_event switch_done w')).
    split; [|exact Hok']. subst s0. simpl. destruct (_provider s); reflexivity.
  - destruct (L s0 _ Hok0) as [w' [E Hok']]. unfold ret. rewrite E.
    exists (record_event Unlock (record_event switch_done w')).
    split; [|exact Hok']. subst s0. simpl. destruct (_provider s); reflexivity.
  - destruct (nvidia_unload_cooperates s0 _ Hok0) as [w1 [E1 Hok1]].
    rewrite E1.
    destruct (L (set_nvidia_fx None s0) w1 Hok1) as [w' [E Hok']].
    rewrite E.
    exists (record_event Unlock (record_event switch_done w')).
    split; [|exact Hok']. subst s0. simpl. destruct (_provider s); reflexivity.
Qed.

(** X10: With a runtime that reports success the pool worker completes the
    queued switch: the task is taken off the queue, the provider that is
    active when the task runs ends up marked ready, with a newly built
    adapter when it is the NVIDIA one, with none when only the previous
    one was, and the last thing logged is the success. *)
Theorem cooperative_switch_completes (t : task) (rest : list task)
    (s : background_removal_instance) (w : world) :
  forallb is_success (script w) = true ->
  pool w = t :: rest ->
  let '(r, s', w') := run_next_task s w in
  r = Ok true
  /\ pool w' = rest
  /\ _provider_ready s' = true
  /\ _provider s' = _provider s
  /\ _nvidia_fx s' = adapter_after (spd_provider (task_data t)) s
  /\ forallb is_success (script w') = true
  /\ exists pre, trace w' = pre ++ [switch_done; Unlock].
Proof.
  intros Hok Hp. rewrite FilterSpec.run_next_task_unfold, Hp.
  set (w0 := {| trace := trace w; script := script w; pool := rest;
                next_handle := next_handle w |}).
  pose proof (keeps_pool_task (task_data t) s w0) as [Hpool _].
  pose proof (FilterSpec.task_ready_is_fresh (task_data t) s w0) as Hfresh.
  destruct (task_cooperates (task_data t) s w0 Hok) as [w' [E Hok']].
  rewrite E in *. simpl in Hpool.
  repeat split; auto.
Qed.

Lemma cooperative_switch_completes_witness :
  let '(_, s, w) := update with_nvidia 1 initial quiet in
  forallb is_success (script w) = true
  /\ let '(r, s', w') := run_next_task s w in
     r = Ok true /\ _provider_ready s' = true
     /\ _nvidia_fx s' = Some fresh_adapter.
Proof.
  destruct (update with_nvidia 1 initial quiet) as [[o s] w] eqn:E.
  vm_compute in E. injection E as <- <- <-.
  assert (forallb is_success
            (script
               {| trace := [Lock; switching; MakeSwitchData INVALID;
                            PoolPush 0; Unlock];
                  script := [];
                  pool := [{| task_handle := 0;
                              task_data := {| spd_provider := INVALID |} |}];
                  next_handle := 1 |}) = true) as H by reflexivity.
  split; [exact H|].
  match goal with
  | |- context [run_next_task ?s0 ?w0] =>
      pose proof (cooperative_switch_completes _ _ s0 w0 H eq_refl) as T;
      cbv zeta in T;
      destruct (run_next_task s0 w0) as [[r s'] w']
  end.
  destruct T as [T1 [_ [T3 [_ [T5 _]]]]].
  split; [exact T1|]. split; [exact T3 | exact T5].
Defined.


(** ** A switch that is overtaken *)

(** X11: The task that replaces a cancelled one knows the provider the
    cancelled one was to unload only if that is the provider it replaces
    itself.  An instance that runs the NVIDIA provider and is asked for
    another provider and then, before the pool gets to it, for a third:
    the task that runs unloads nothing, the adapter stays loaded, and the
    third provider is marked ready; the runtime is not called once. *)
Theorem overtaken_switch_keeps_adapter
    (p1 p2 : background_removal_provider)
    (s : background_removal_instance) (w : world) :
  queue_in_hand s w ->
  _provider s = NVIDIA_GREEN_SCREEN ->
  p1 <> NVIDIA_GREEN_SCREEN ->
  p2 <> NVIDIA_GREEN_SCREEN ->
  p2 <> p1 ->
  let '(s2, w2) := request_all [p1; p2] s w in
  let '(r, s3, w3) := run_next_task s2 w2 in
  r = Ok true
  /\ _provider s3 = p2
  /\ _provider_ready s3 = true
  /\ _nvidia_fx s3 = _nvidia_fx s
  /\ pool w3 = []
  /\ runtime_calls (added (trace w) (trace w3)) = [].
Proof.
  intros Hq Hs H1 H2 H21. simpl request_all.
  assert (p1 <> _provider s) as Hn1 by congruence.
  rewrite (FilterSpec.switch_provider_other p1 s w Hn1).
  assert (cancelled (_provider_task s) (pool w) = []) as Hc.
  { destruct Hq as [Hq _]. unfold cancelled.
    destruct (_provider_task s) as [h|] eqn:Eh.
    - induction Hq as [|t q Ht Hq IH]; simpl; [reflexivity|].
      injection Ht as ->. rewrite Nat.eqb_refl. simpl. exact IH.
    - destruct Hq as [|t q Ht _]; [reflexivity | discriminate Ht]. }
  rewrite Hc.
  match goal with
  | |- context [switch_provider p2 ?s1 ?w1] =>
      rewrite (FilterSpec.switch_provider_other p2 s1 w1 H21)
  end.
  rewrite FilterSpec.run_next_task_unfold.
  unfold cancelled. simpl. rewrite Nat.eqb_refl. simpl.
  rewrite FilterSpec.task_switch_provider_unfold.
  unfold attempt, unload_previous, load_new, bind, get, ret. simpl.
  destruct p1; [| |now contradiction H1];
    (destruct p2; [| |now contradiction H2]); simpl;
    try (now contradiction H21).
  all: repeat split.
  all: repeat rewrite <- app_assoc; rewrite added_app.
  all: destruct (_provider_task s); reflexivity.
Qed.

Lemma overtaken_switch_keeps_adapter_witness :
  let '(_, s, w) := running in
  _provider s = NVIDIA_GREEN_SCREEN
  /\ let '(s2, w2) := request_all [INVALID; AUTOMATIC] s w in
     let '(_, s3, _) := run_next_task s2 w2 in
     _provider s3 = AUTOMATIC
     /\ _provider_ready s3 = true
     /\ _nvidia_fx s3 = Some fresh_adapter.
Proof.
  unfold running. cbv iota beta.
  match goal with
  | |- context [request_all _ ?s0 ?w0] =>
      assert (queue_in_hand s0 w0) as Hq
        by (split; [constructor | simpl; lia]);
      pose proof (overtaken_switch_keeps_adapter INVALID AUTOMATIC s0 w0 Hq
                    eq_refl) as T
  end.
  split; [reflexivity|].
  assert (INVALID <> NVIDIA_GREEN_SCREEN) as A by discriminate.
  assert (AUTOMATIC <> NVIDIA_GREEN_SCREEN) as B by discriminate.
  assert (AUTOMATIC <> INVALID) as C by discriminate.
  specialize (T A B C).
  destruct (request_all [INVALID; AUTOMATIC] _ _) as [s2 w2].
  destruct (run_next_task s2 w2) as [[r s3] w3].
  destruct T as [_ [T2 [T3 [T4 _]]]].
  split; [exact T2|]. split; [exact T3 | exact T4].
Defined.

(** ** Configuration *)

(** X12: An update with settings that name a provider: the automatic value
    stands for the first provider of the priority list the factory
    offers (for itself when it offers none), any other value is taken as
    it is, whether or not the factory offers that provider.  When the
    update returns that provider is the active one, at most one switch
    task is queued and the runtime has not been called; and the same
    update made again changes nothing: no second task is queued. *)
Theorem update_settles (f : background_removal_factory) (data : Z)
    (p : background_removal_provider)
    (s : background_removal_instance) (w : world) :
  provider_of_int data = Some p ->
  queue_in_hand s w ->
  let resolved := if provider_eqb p AUTOMATIC then first_available f else p in
  let '(r, s1, w1) := update f data s w in
  r = Ok tt
  /\ _provider s1 = resolved
  /\ queue_in_hand s1 w1
  /\ runtime_calls (added (trace w) (trace w1)) = []
  /\ let '(r2, s2, w2) := update f data s1 w1 in
     r2 = Ok tt /\ s2 = s1 /\ pool w2 = pool w1
     /\ next_handle w2 = next_handle w1.
Proof.
  intros Hp Hq resolved.
  assert (forall s0 w0, _provider s0 = resolved ->
            exists w', update f data s0 w0 = (Ok tt, s0, w')
                       /\ pool w' = pool w0
                       /\ next_handle w' = next_handle w0
                       /\ runtime_calls (added (trace w0) (trace w')) = [])
    as Hsame.
  { intros s0 w0 E. rewrite (update_unfold f data p s0 w0 Hp).
    cbv zeta. fold resolved. rewrite <- E, provider_eqb_refl.
    destruct (switch_provider (_provider s0) s0 w0) as [[o1 s1] w1].
    destruct (_provider_ready s0).
    - eexists. split; [reflexivity|]. simpl. rewrite added_app. auto.
    - eexists. split; [reflexivity|]. rewrite added_same. auto. }
  destruct (provider_eqb resolved (_provider s)) eqn:E.
  - apply provider_eqb_eq in E. symmetry in E.
    destruct (Hsame s w E) as [w1 [E1 [P1 [N1 R1]]]]. rewrite E1.
    split; [reflexivity|]. split; [exact E|].
    split; [destruct Hq; split; now rewrite P1|].
    split; [exact R1|].
    destruct (Hsame s w1 E) as [w2 [E2 [P2 [N2 _]]]]. rewrite E2. auto.
  - rewrite (update_unfold f data p s w Hp). cbv zeta. fold resolved.
    rewrite E.
    destruct (queue_after_switch resolved s w Hq)
      as [s1 [w1 [E1 [H1 [_ [H3 [H4 [_ [H6 _]]]]]]]]].
    rewrite E1.
    set (w1' := if _provider_ready s then after [Lock; Unlock] w1 else w1).
    assert (pool w1' = pool w1) as P1
      by (unfold w1'; destruct (_provider_ready s); reflexivity).
    assert (exists evs, trace w1' = trace w1 ++ evs
                        /\ runtime_calls evs = []) as [evs [T1 R1]].
    { unfold w1'. destruct (_provider_ready s).
      - exists [Lock; Unlock]. auto.
      - exists []. now rewrite app_nil_r. }
    split; [reflexivity|]. split; [exact H1|].
    split; [destruct H4; split; now rewrite P1|].
    split.
    + rewrite T1. revert H6.
      assert (exists evs1, trace w1 = trace w ++ evs1) as [evs1 T0].
      { apply provider_eqb_neq in E.
        rewrite (FilterSpec.switch_provider_other resolved s w E) in E1.
        injection E1 as _ <-. simpl. eauto. }
      rewrite T0, <- app_assoc, !added_app.
      unfold runtime_calls. rewrite filter_app. intros ->. exact R1.
    + destruct (Hsame s1 w1' H1) as [w2 [E2 [P2 [N2 _]]]]. rewrite E2. auto.
Qed.

Lemma update_settles_witness :
  provider_of_int 1 = Some NVIDIA_GREEN_SCREEN
  /\ queue_in_hand initial quiet
  /\ let '(_, s1, w1) := update without_nvidia 1 initial quiet in
     _provider s1 = NVIDIA_GREEN_SCREEN
     /\ let '(_, s2, w2) := update without_nvidia 1 s1 w1 in
        s2 = s1 /\ pool w2 = pool w1.
Proof.
  assert (queue_in_hand initial quiet) as H
    by (split; [constructor | simpl; lia]).
  split; [reflexivity|]. split; [exact H|].
  pose proof (update_settles without_nvidia 1 NVIDIA_GREEN_SCREEN
                initial quiet eq_refl H) as T.
  cbv zeta in T.
  destruct (update without_nvidia 1 initial quiet) as [[r s1] w1].
  destruct T as [_ [T2 [_ [_ T5]]]].
  split; [exact T2|].
  destruct (update without_nvidia 1 s1 w1) as [[r2 s2] w2].
  destruct T5 as [_ [T6 [T7 _]]]. split; [exact T6 | exact T7].
Defined.


(** ** A frame through the ready NVIDIA provider *)





(** ** What the video callbacks leave alone *)

(** X14: Neither video callback lets an exception out, whatever the runtime
    answers, and neither touches the active provider, its readiness, the
    task handle or the queue; a tick reports the size of the target as
    the output size, whatever the provider, and calls the runtime not at
    all; a render call leaves both sizes as the tick set them and
    neither installs nor drops an adapter. *)
Theorem video_callbacks_are_contained (h : host)
    (s : background_removal_instance) (w : world) :
  (let '(r, s', w') := video_tick h s w in
   r = Ok tt
   /\ (_provider s' = _provider s
       /\ _provider_ready s' = _provider_ready s
       /\ _provider_task s' = _provider_task s
       /\ _nvidia_fx s' = _nvidia_fx s)
   /\ (pool w' = pool w /\ next_handle w' = next_handle w)
   /\ _in_size s' = _out_size s'
   /\ get_width s' = Z.max (base_width h) 1
   /\ get_height s' = Z.max (base_height h) 1
   /\ script w' = script w)
  /\ (let '(r, s', w') := video_render h s w in
      r = Ok tt
      /\ (_provider s' = _provider s
          /\ _provider_ready s' = _provider_ready s
          /\ _provider_task s' = _provider_task s
          /\ is_none (_nvidia_fx s') = is_none (_nvidia_fx s))
      /\ (pool w' = pool w /\ next_handle w' = next_handle w)
      /\ _in_size s' = _in_size s
      /\ _out_size s' = _out_size s).
Proof.
  split.
  - pose proof (keeps_pool_video_tick h s w) as Hp.
    assert (script (snd (video_tick h s w)) = script w) as Hsc.
    { unfold video_tick, with_lock, nvidia_size, VFX.size, bind, get,
        modify, ret.
      simpl.
      destruct (target h), (_provider_ready s), (_provider s); simpl;
        try reflexivity; destruct (_nvidia_fx s); reflexivity. }
    destruct (video_tick_frame h s w) as [w' E]. rewrite E in *.
    simpl in Hp, Hsc. unfold get_width, get_height. simpl. auto 10.
  - pose proof (keeps_pool_video_render h s w) as Hp.
    destruct (video_render_frame h s w)
      as [input [mask [masked [dirty [fx [w' [E [Hn _]]]]]]]].
    rewrite E in *. simpl in Hp. simpl. auto 10.
Qed.


(** ** From the settings to the first frame *)

Lemma must_skip_presentable (h : host) (s : background_removal_instance) :
  must_skip h s = negb (_provider_ready s) || negb (presentable h).
Proof.
  unfold must_skip, presentable.
  destruct (_provider_ready s), (is_none _), (base_width h =? 0),
    (base_height h =? 0); reflexivity.
Qed.





(** ** The end of an instance *)

Lemma destroy_requests_app (a b : list event) :
  destroy_requests (a ++ b) = destroy_requests a ++ destroy_requests b.
Proof. apply filter_app. Qed.

(** The destructor of an adapter that is alive asks once for its effect
    to be destroyed. *)
Lemma delete_destroys_once {S : Type} (o : VFX.background_removal)
    (s : S) (w : world) :
  alive o ->
  exists r evs w',
    VFX.delete_background_removal o s w = (r, s, w')
    /\ trace w' = trace w ++ evs
    /\ List.length (destroy_requests evs) = 1%nat.
Proof.
  intros [Hfx [i [src [d [out [t Hb]]]]]].
  open_bound Hb o. simpl in Hfx. subst.
  destruct i as [itag itex iimg]. destruct out as [otag otex oimg].
  destruct w as [tr sc pl nh].
  crank.
  repeat (code_case; crank).
  all: do 3 eexists; split; [reflexivity|]; split;
    [repeat rewrite <- app_assoc; reflexivity | reflexivity].
Qed.

Lemma keeps_pool_delete_instance : keeps_pool delete_instance.
Proof.
  unfold delete_instance.
  repeat first [apply keeps_pool_nvidia_unload | pool_filter].
Qed.

(** X16: The destructor of the instance, whatever the active provider and
    whatever the runtime answers: an adapter the instance still holds is
    released, by the body when the NVIDIA provider is the active one and
    with the members otherwise, so that its effect is destroyed exactly
    once; an instance that holds none does not call the runtime; the
    queue is left alone, a task that is still queued included. *)
Theorem instance_destruction (s : background_removal_instance)
    (w : world) :
  holds_buffers (_nvidia_fx s) ->
  let '(r, s', w') := delete_instance s w in
  _nvidia_fx s' = None
  /\ List.length (destroy_requests (added (trace w) (trace w')))
     = (if is_none (_nvidia_fx s) then 0 else 1)%nat
  /\ pool w' = pool w
  /\ (_nvidia_fx s = None ->
      r = Ok tt /\ added (trace w) (trace w') = [Lock; Unlock]).
Proof.
  intros Ha.
  pose proof (keeps_pool_delete_instance s w) as [Hp _].
  revert Hp.
  unfold delete_instance, with_lock, nvidia_unload, bind, get, modify, ret.
  destruct (_nvidia_fx s) as [fx|] eqn:Efx.
  - simpl in Ha.
    destruct (_provider s).
    + cbv beta iota. simpl _nvidia_fx. rewrite Efx.
      destruct (delete_destroys_once fx (set_nvidia_fx None s)
                  (record_event Unlock (record_event Lock w)) Ha)
        as [r [evs [w' [E [T L]]]]].
      rewrite E. simpl. intros Hp. rewrite T. simpl.
      rewrite <- !app_assoc, added_app.
      split; [reflexivity|]. split; [exact L|]. split; [exact Hp|].
      discriminate.
    + cbv beta iota. simpl _nvidia_fx. rewrite Efx.
      destruct (delete_destroys_once fx (set_nvidia_fx None s)
                  (record_event Unlock (record_event Lock w)) Ha)
        as [r [evs [w' [E [T L]]]]].
      rewrite E. simpl. intros Hp. rewrite T. simpl.
      rewrite <- !app_assoc, added_app.
      split; [reflexivity|]. split; [exact L|]. split; [exact Hp|].
      discriminate.
    + cbv beta iota. rewrite Efx.
      destruct (delete_destroys_once fx (set_nvidia_fx None s)
                  (record_event Lock w) Ha)
        as [r [evs [w' [E [T L]]]]].
      rewrite E.
      destruct r as [[]|[what| |]]; simpl; intros Hp; rewrite T; simpl.
      4: { rewrite <- !app_assoc, added_app.
           change (Lock :: evs) with ([Lock] ++ evs).
           rewrite !destroy_requests_app, !length_app, L.
           repeat split; auto; discriminate. }
      all: rewrite <- !app_assoc, added_app;
        change (Lock :: evs ++ [Unlock]) with ([Lock] ++ evs ++ [Unlock]);
        rewrite !destroy_requests_app, !length_app, L;
        repeat split; auto; discriminate.
  - destruct (_provider s); cbv beta iota; simpl; try rewrite Efx; simpl;
      intros Hp; rewrite <- ?app_assoc, added_app; auto.
Qed.

Lemma instance_destruction_witness :
  let '(_, s, w) := running in
  holds_buffers (_nvidia_fx s)
  /\ let '(_, s', w') := delete_instance s w in
     _nvidia_fx s' = None
     /\ List.length (destroy_requests (added (trace w) (trace w'))) = 1%nat.
Proof.
  unfold running. cbv iota beta.
  match goal with
  | |- context [delete_instance ?s0 ?w0] =>
      assert (holds_buffers (_nvidia_fx s0)) as H
        by exact fresh_adapter_alive;
      pose proof (instance_destruction s0 w0 H) as T;
      split; [exact H|];
      destruct (delete_instance s0 w0) as [[r s'] w']
  end.
  destruct T as [T1 [T2 _]]. split; [exact T1 | exact T2].
Defined.

End PipelineSpec.

(* ------------------------------------------------------------------ *)
(** ** Finding the runtime *)

Module LoaderSpec.
Import Loader LoaderTerms.
Local Open Scope string_scope.

Lemma load_symbols_complete (lib_name : string) (lib : library)
    (names : list string) :
  load_symbols lib_name lib names = Ok tt <-> complete lib names.
Proof.
  unfold complete. induction names as [|n rest IH]; simpl.
  - split; [intros _ name [] | reflexivity].
  - destruct (load_symbol lib n) eqn:E.
    + rewrite IH. split.
      * intros H name [<-|Hin]; auto.
      * intros H name Hin. apply H. now right.
    + split; [discriminate|].
      intros H. specialize (H n (or_introl eq_refl)). congruence.
Qed.

Lemma load_symbols_throws (lib_name : string) (lib : library)
    (names : list string) (e : exn) :
  load_symbols lib_name lib names = Throw e ->
  exists name,
    In name names /\ load_symbol lib name = false
    /\ e = runtime_error
             ("Failed to load '" ++ name ++ "' from '" ++ lib_name ++ "'.").
Proof.
  induction names as [|n rest IH]; simpl; [discriminate|].
  destruct (load_symbol lib n) eqn:E.
  - intros H. destruct (IH H) as [name [Hin [Hl He]]].
    exists name. auto.
  - intros H. injection H as <-. exists n. auto.
Qed.

Lemma find_append {A : Type} (f : A -> bool) (l l' : list A) :
  find f (l ++ l')%list
  = match find f l with
    | Some x => Some x
    | None => find f l'
    end.
Proof.
  induction l as [|a l IH]; simpl; [reflexivity|].
  destruct (f a); [reflexivity | exact IH].
Qed.

Lemma try_paths_last (pf : platform) (paths : list path)
    (acc : option library) :
  CVImage.try_paths pf paths acc
  = match last_loadable pf paths with
    | Some lib => Some lib
    | None => acc
    end.
Proof.
  unfold last_loadable. revert acc.
  induction paths as [|p rest IH]; intros acc; simpl; [reflexivity|].
  rewrite find_append.
  destruct (load pf p) as [lib|] eqn:E; rewrite IH.
  - destruct (find _ (rev rest)) as [q|] eqn:F.
    + apply find_some in F. destruct F as [_ F].
      destruct (load pf q); [reflexivity | discriminate F].
    + simpl. rewrite E. simpl. now rewrite E.
  - destruct (find _ (rev rest)) as [q|] eqn:F.
    + reflexivity.
    + simpl. rewrite E. reflexivity.
Qed.


Lemma install_path_exists (pf : platform) (base : path)
    (sdk lib_name : string) :
  path_exists pf (install_path base sdk lib_name)
  = file_exists pf (install_path base sdk lib_name).
Proof. unfold install_path. destruct base; reflexivity. Qed.

Lemma symbols_checked (lib_name : string) (lib : library)
    (names : list string) :
  match load_symbols lib_name lib names with
  | Ok _ => complete lib names
  | Throw _ => ~ complete lib names
  end.
Proof.
  destruct (load_symbols lib_name lib names) as [[]|e] eqn:E.
  - now apply load_symbols_complete in E.
  - intros C. apply (load_symbols_complete lib_name) in C. congruence.
Qed.

(** The library [nvidia::cv::cv] ends up with. *)
Lemma cv_find_library (pf : platform) (lib : library) :
  CVImage.find_library pf = Ok lib
  <-> (load pf [CVImage.LIB_NAME pf] = Some lib
       \/ (load pf [CVImage.LIB_NAME pf] = None
           /\ win32 pf = true
           /\ last_loadable pf (CVImage.lib_paths pf) = Some lib)).
Proof.
  unfold CVImage.find_library.
  destruct (load pf [CVImage.LIB_NAME pf]) as [l|].
  - split.
    + intros E. injection E as ->. now left.
    + intros [E | [E _]]; [now injection E as -> | discriminate E].
  - destruct (win32 pf).
    + destruct (CVImage.lib_paths pf) as [|p ps].
      * split; [discriminate|].
        intros [E | [_ [_ E]]]; discriminate E.
      * rewrite try_paths_last.
        destruct (last_loadable pf (p :: ps)) as [l|].
        -- split.
           ++ intros E. injection E as ->. right. auto.
           ++ intros [E | [_ [_ E]]];
                [discriminate E | now injection E as ->].
        -- split; [discriminate|].
           intros [E | [_ [_ E]]]; discriminate E.
    + split; [discriminate|].
      intros [E | [_ [E _]]]; discriminate E.
Qed.

(** X17: The constructor of [nvidia::cv::cv] returns with a library exactly
    when that library has every symbol of the list and is either the one
    found on the search path, which is tried before anything else, or,
    on Windows and with none on the search path, the last of the
    candidate paths that loads: a later candidate that loads replaces an
    earlier one. *)
Theorem cv_loader_contract (pf : platform) (lib : library) :
  CVImage.new_cv pf = Ok lib
  <-> complete lib (CVImage.symbols pf)
      /\ (load pf [CVImage.LIB_NAME pf] = Some lib
          \/ (load pf [CVImage.LIB_NAME pf] = None
              /\ win32 pf = true
              /\ last_loadable pf (CVImage.lib_paths pf) = Some lib)).
Proof.
  rewrite <- cv_find_library. unfold CVImage.new_cv.
  destruct (CVImage.find_library pf) as [l|e].
  - pose proof (symbols_checked (CVImage.LIB_NAME pf) l (CVImage.symbols pf))
      as C.
    destruct (load_symbols _ l _) as [[]|e].
    + split.
      * intros E. injection E as ->. auto.
      * intros [_ E]. exact E.
    + split; [discriminate|].
      intros [C' E]. injection E as ->. now contradiction C.
  - split; [discriminate|]. intros [_ E]. discriminate E.
Qed.

(** The library [nvidia::vfx::vfx] ends up with. *)
Lemma vfx_find_library (pf : platform) (lib : library) :
  VideoEffects.find_library pf = Ok lib
  <-> (load pf [VideoEffects.LIB_NAME pf] = Some lib
       \/ (load pf [VideoEffects.LIB_NAME pf] = None
           /\ win32 pf = true
           /\ path_exists pf (VideoEffects.sdk_path pf) = true
           /\ load pf (VideoEffects.sdk_path pf) = Some lib)).
Proof.
  unfold VideoEffects.find_library.
  destruct (load pf [VideoEffects.LIB_NAME pf]) as [l|].
  - split.
    + intros E. injection E as ->. now left.
    + intros [E | [E _]]; [now injection E as -> | discriminate E].
  - destruct (win32 pf).
    + cbv zeta.
      destruct (path_exists pf (VideoEffects.sdk_path pf)); simpl.
      * destruct (load pf (VideoEffects.sdk_path pf)) as [l|].
        -- split.
           ++ intros E. injection E as ->. right. auto.
           ++ intros [E | [_ [_ [_ E]]]];
                [discriminate E | now injection E as ->].
        -- split; [discriminate|].
           intros [E | [_ [_ [_ E]]]]; discriminate E.
      * split; [discriminate|].
        intros [E | [_ [_ [E _]]]]; discriminate E.
    + split; [discriminate|].
      intros [E | [_ [E _]]]; discriminate E.
Qed.

(** X18: The constructor of [nvidia::vfx::vfx] returns with a library exactly
    when that library has every symbol of the list and is either the one
    found on the search path or, on Windows and with none there, the one
    at the path the environment variable gives, or the install path when
    the variable is not set, provided that path exists and loads. *)
Theorem vfx_loader_contract (pf : platform) (lib : library) :
  VideoEffects.new_vfx pf = Ok lib
  <-> complete lib VideoEffects.symbols
      /\ (load pf [VideoEffects.LIB_NAME pf] = Some lib
          \/ (load pf [VideoEffects.LIB_NAME pf] = None
              /\ win32 pf = true
              /\ path_exists pf (VideoEffects.sdk_path pf) = true
              /\ load pf (VideoEffects.sdk_path pf) = Some lib)).
Proof.
  rewrite <- vfx_find_library. unfold VideoEffects.new_vfx.
  destruct (VideoEffects.find_library pf) as [l|e].
  - pose proof (symbols_checked (VideoEffects.LIB_NAME pf) l
                  VideoEffects.symbols) as C.
    destruct (load_symbols _ l _) as [[]|e].
    + split.
      * intros E. injection E as ->. auto.
      * intros [_ E]. exact E.
    + split; [discriminate|].
      intros [C' E]. injection E as ->. now contradiction C.
  - split; [discriminate|]. intros [_ E]. discriminate E.
Qed.

(** Neither constructor throws anything but a [std::runtime_error]. *)
Lemma load_symbols_runtime_error (lib_name : string) (lib : library)
    (names : list string) :
  null_throw (load_symbols lib_name lib names) = false.
Proof.
  induction names as [|n rest IH]; simpl; [reflexivity|].
  destruct (load_symbol lib n); [exact IH | reflexivity].
Qed.

Lemma new_cv_runtime_error (pf : platform) :
  null_throw (CVImage.new_cv pf) = false.
Proof.
  unfold CVImage.new_cv, CVImage.find_library.
  assert (forall l,
             null_throw
               match load_symbols (CVImage.LIB_NAME pf) l (CVImage.symbols pf)
               with
               | Ok _ => Ok l
               | Throw e => Throw e
               end = false) as Hs.
  { intros l.
    pose proof (load_symbols_runtime_error (CVImage.LIB_NAME pf) l
                  (CVImage.symbols pf)) as H.
    destruct (load_symbols _ l _); [reflexivity | exact H]. }
  destruct (load pf [CVImage.LIB_NAME pf]); [apply Hs|].
  destruct (win32 pf); [|reflexivity].
  destruct (CVImage.lib_paths pf); [reflexivity|].
  destruct (CVImage.try_paths pf _ None); [apply Hs | reflexivity].
Qed.

Lemma new_vfx_runtime_error (pf : platform) :
  null_throw (VideoEffects.new_vfx pf) = false.
Proof.
  unfold VideoEffects.new_vfx, VideoEffects.find_library.
  assert (forall l,
             null_throw
               match load_symbols (VideoEffects.LIB_NAME pf) l
                       VideoEffects.symbols
               with
               | Ok _ => Ok l
               | Throw e => Throw e
               end = false) as Hs.
  { intros l.
    pose proof (load_symbols_runtime_error (VideoEffects.LIB_NAME pf) l
                  VideoEffects.symbols) as H.
    destruct (load_symbols _ l _); [reflexivity | exact H]. }
  destruct (load pf [VideoEffects.LIB_NAME pf]); [apply Hs|].
  destruct (win32 pf); [|reflexivity].
  cbv zeta. destruct (path_exists pf _); simpl; [|reflexivity].
  destruct (load pf (VideoEffects.sdk_path pf)); [apply Hs | reflexivity].
Qed.

(** Nor does either end the process. *)
Lemma load_symbols_lives (lib_name : string) (lib : library)
    (names : list string) :
  ends_process (load_symbols lib_name lib names) = false.
Proof.
  induction names as [|n rest IH]; simpl; [reflexivity|].
  destruct (load_symbol lib n); [exact IH | reflexivity].
Qed.

Lemma new_cv_lives (pf : platform) :
  ends_process (CVImage.new_cv pf) = false.
Proof.
  unfold CVImage.new_cv, CVImage.find_library.
  assert (forall l,
             ends_process
               match load_symbols (CVImage.LIB_NAME pf) l (CVImage.symbols pf)
               with
               | Ok _ => Ok l
               | Throw e => Throw e
               end = false) as Hs.
  { intros l.
    pose proof (load_symbols_lives (CVImage.LIB_NAME pf) l
                  (CVImage.symbols pf)) as H.
    destruct (load_symbols _ l _); [reflexivity | exact H]. }
  destruct (load pf [CVImage.LIB_NAME pf]); [apply Hs|].
  destruct (win32 pf); [|reflexivity].
  destruct (CVImage.lib_paths pf); [reflexivity|].
  destruct (CVImage.try_paths pf _ None); [apply Hs | reflexivity].
Qed.

Lemma new_vfx_lives (pf : platform) :
  ends_process (VideoEffects.new_vfx pf) = false.
Proof.
  unfold VideoEffects.new_vfx, VideoEffects.find_library.
  assert (forall l,
             ends_process
               match load_symbols (VideoEffects.LIB_NAME pf) l
                       VideoEffects.symbols
               with
               | Ok _ => Ok l
               | Throw e => Throw e
               end = false) as Hs.
  { intros l.
    pose proof (load_symbols_lives (VideoEffects.LIB_NAME pf) l
                  VideoEffects.symbols) as H.
    destruct (load_symbols _ l _); [reflexivity | exact H]. }
  destruct (load pf [VideoEffects.LIB_NAME pf]); [apply Hs|].
  destruct (win32 pf); [|reflexivity].
  cbv zeta. destruct (path_exists pf _); simpl; [|reflexivity].
  destruct (load pf (VideoEffects.sdk_path pf)); [apply Hs | reflexivity].
Qed.

(** X19: On Windows, with no library on the search path, with
    [NV_AR_SDK_PATH] not set and the program-files folder known, the
    constructor of [nvidia::cv::cv] puts the install path of the AR SDK
    where the path of the Video Effects SDK was: that one is the only
    candidate, wherever the Video Effects SDK is and whatever
    [NV_VIDEO_EFFECTS_PATH] says.  When nothing is at the AR install
    path the constructor throws, and a factory of the filter that finds
    no image library alive reports the NVIDIA provider unavailable and
    does not register the filter, unless fetching the CUDA runtime has
    already brought the process down, through an empty pointer or by
    ending it. *)
Theorem video_effects_install_is_overlooked (pf : platform) (base : path)
    (cuda : outcome unit) (vfx_instance : option library) :
  win32 pf = true ->
  load pf [CVImage.LIB_NAME pf] = None ->
  getenv pf ENV_NVIDIA_AR_SDK_PATH = None ->
  program_files pf = Some base ->
  let ar_install := install_path base "NVIDIA AR SDK" (CVImage.LIB_NAME pf) in
  CVImage.lib_paths pf
  = (if file_exists pf ar_install then [ar_install] else [])
  /\ (file_exists pf ar_install = false ->
      CVImage.new_cv pf = Throw (failed_to_load (CVImage.LIB_NAME pf))
      /\ (null_throw cuda = false ->
          new_factory pf cuda None vfx_instance
          = if ends_process cuda then Throw terminate
            else Ok ({| Filter._nvidia_available := false |}, false))).
Proof.
  intros Hw Hl Har Hpf ar_install.
  assert (CVImage.lib_paths pf
          = (if file_exists pf ar_install then [ar_install] else [])) as Hp.
  { unfold CVImage.lib_paths, CVImage.sdk_paths.
    rewrite Har, Hpf. fold ar_install.
    unfold ar_install at 1. rewrite install_path_exists. fold ar_install.
    simpl path_exists. now rewrite app_nil_r. }
  split; [exact Hp|].
  intros Hno.
  assert (CVImage.new_cv pf = Throw (failed_to_load (CVImage.LIB_NAME pf)))
    as Hcv.
  { unfold CVImage.new_cv, CVImage.find_library.
    rewrite Hl, Hw, Hp, Hno. reflexivity. }
  split; [exact Hcv|].
  intros Hc. unfold new_factory, get_cv. rewrite Hcv.
  destruct cuda as [[]|[what| |]];
    [reflexivity | reflexivity | discriminate Hc | reflexivity].
Qed.

Lemma video_effects_install_is_overlooked_witness :
  let pf := video_effects_only ["D:"; "sdk"] full_library in
  VideoEffects.new_vfx (video_effects_only ["D:"; "sdk"] full_library)
  = Ok full_library
  /\ CVImage.new_cv pf = Throw (failed_to_load "NVCVImage.dll")
  /\ new_factory pf (Ok tt) None None
     = Ok ({| Filter._nvidia_available := false |}, false).
Proof.
  cbv zeta.
  split; [vm_compute; reflexivity|].
  pose proof (video_effects_install_is_overlooked
                (video_effects_only ["D:"; "sdk"] full_library)
                ["C:"; "Program Files"] (Ok tt) None
                eq_refl eq_refl eq_refl eq_refl) as T.
  cbv zeta in T. destruct T as [_ T].
  destruct (T eq_refl) as [T1 T2].
  split; [exact T1 | exact (T2 eq_refl)].
Defined.

(** X20: The constructor of the factory lets nothing out but what is no
    exception at all, an empty pointer or the end of the process, and
    that only from fetching the CUDA runtime.  The
    factory it builds offers the NVIDIA provider exactly when the CUDA
    runtime is there and the image library and the effects library are
    each either alive already or load with every symbol; it registers
    the filter with the host exactly then; and then, and only then, the
    automatic setting stands for the NVIDIA provider. *)
Theorem factory_offers_nvidia_iff_all_load (pf : platform)
    (cuda : outcome unit) (cv_instance vfx_instance : option library) :
  match new_factory pf cuda cv_instance vfx_instance with
  | Ok (f, registered) =>
      registered = Filter._nvidia_available f
      /\ (Filter._nvidia_available f = true
          <-> cuda = Ok tt
              /\ (exists lib, get_cv pf cv_instance = Ok lib)
              /\ (exists lib, get_vfx pf vfx_instance = Ok lib))
      /\ FilterTerms.first_available f
         = (if Filter._nvidia_available f then NVIDIA_GREEN_SCREEN
            else AUTOMATIC)
  | Throw e => cuda = Throw e /\ (e = null_pointer \/ e = terminate)
  end.
Proof.
  assert (null_throw (get_cv pf cv_instance) = false) as Hcv
    by (destruct cv_instance; [reflexivity | apply new_cv_runtime_error]).
  assert (null_throw (get_vfx pf vfx_instance) = false) as Hvfx
    by (destruct vfx_instance; [reflexivity | apply new_vfx_runtime_error]).
  assert (ends_process (get_cv pf cv_instance) = false) as Hcv'
    by (destruct cv_instance; [reflexivity | apply new_cv_lives]).
  assert (ends_process (get_vfx pf vfx_instance) = false) as Hvfx'
    by (destruct vfx_instance; [reflexivity | apply new_vfx_lives]).
  unfold new_factory. cbv zeta.
  destruct cuda as [[]|[what| |]].
  - destruct (get_cv pf cv_instance) as [l1|[w1| |]];
      [| |discriminate Hcv|discriminate Hcv'].
    + destruct (get_vfx pf vfx_instance) as [l2|[w2| |]];
        [| |discriminate Hvfx|discriminate Hvfx'].
      * split; [reflexivity|]. split; [|reflexivity].
        split; [eauto | reflexivity].
      * split; [reflexivity|]. split; [|reflexivity].
        split; [discriminate|]. intros [_ [_ [l E]]]. discriminate E.
    + split; [reflexivity|]. split; [|reflexivity].
      split; [discriminate|]. intros [_ [[l E] _]]. discriminate E.
  - split; [reflexivity|]. split; [|reflexivity].
    split; [discriminate|]. intros [E _]. discriminate E.
  - split; [reflexivity | left; reflexivity].
  - split; [reflexivity | right; reflexivity].
Qed.

Close Scope string_scope.
End LoaderSpec.

(* ------------------------------------------------------------------ *)
(** ** Frame after frame *)

Module CycleSpec.
Import Filter FilterTerms FilterLife VFXTerms AdapterTerms PipelineTerms.
Import CycleTerms AdapterSpec PipelineSpec.

Lemma after_after (a b : list event) (w : world) :
  after b (after a w) = after (a ++ b) w.
Proof. unfold after. simpl. now rewrite app_assoc. Qed.

Lemma after_nil (w : world) : after [] w = w.
Proof. unfold after. rewrite app_nil_r. now destruct w. Qed.

Lemma added_after (evs : list event) (w : world) :
  added (trace w) (trace (after evs w)) = evs.
Proof. simpl. apply added_app. Qed.

Lemma runtime_calls_app (a b : list event) :
  runtime_calls (a ++ b) = runtime_calls a ++ runtime_calls b.
Proof. apply filter_app. Qed.

Lemma filter_logs_app (a b : list event) :
  filter_logs (a ++ b) = filter_logs a ++ filter_logs b.
Proof. apply filter_app. Qed.

Lemma frames_cons (h : host) (rest : list host)
    (s : background_removal_instance) (w : world) :
  perform_all (frames (h :: rest)) s w
  = let '(_, s1, w1) := video_tick h s w in
    let '(_, s2, w2) := video_render h s1 w1 in
    perform_all (frames rest) s2 w2.
Proof.
  simpl frames. cbn [perform_all perform].
  destruct (video_tick_frame h s w) as [w1 ->].
  match goal with
  | |- context [video_render h ?s1 w1] =>
      destruct (video_render_frame h s1 w1)
        as [i [m [k [d [fx [w2 [-> _]]]]]]]
  end.
  reflexivity.
Qed.

(** What a tick adds to the trace: the lock and its release when it
    asks the provider, nothing otherwise. *)
Lemma video_tick_world (h : host) (s : background_removal_instance)
    (w : world) :
  exists evs,
    video_tick h s w
    = (Ok tt,
       set_dirty true
         (set_out_size (base_width h, base_height h)
            (set_in_size (base_width h, base_height h) s)),
       after evs w)
    /\ (evs = [] \/ evs = [Lock; Unlock]).
Proof.
  unfold video_tick, with_lock, nvidia_size, VFX.size, bind, get, modify,
    ret, after, record_event.
  simpl.
  destruct (target h), (_provider_ready s), (_provider s); simpl;
    try (exists []; split; [rewrite app_nil_r; now destruct w | now left]);
    try (exists [Lock; Unlock]; split;
         [now rewrite <- app_assoc | now right]);
    destruct (_nvidia_fx s); simpl;
    exists [Lock; Unlock]; (split; [now rewrite <- app_assoc | now right]).
Qed.

(** ** A ready provider that is not the NVIDIA one *)

(** One dirty render call with a ready provider that has no
    implementation. *)
Lemma render_without_provider (h : host)
    (s : background_removal_instance) (w : world) :
  _provider s <> NVIDIA_GREEN_SCREEN ->
  _provider_ready s = true ->
  _dirty s = true ->
  capturable h ->
  video_render h s w
  = (Ok tt, set_mask None (captured h s),
     after [Lock; ProcessFilterBegin true;
            CaptureInput (fst (_in_size s)) (snd (_in_size s));
            no_result; SkipVideoFilter; Unlock] w).
Proof.
  intros Hp Hr Hd [Hpres Hb].
  assert (must_skip h s = false) as Hs
    by (rewrite must_skip_presentable, Hr, Hpres; reflexivity).
  rewrite (FilterSpec.video_render_dirty h s w Hs Hd).
  assert (processed h s w = (Ok tt, set_mask None (captured h s),
                             capturing s w)) as E.
  { unfold processed, process_step, bind, get, modify.
    change (_provider (captured h s)) with (_provider s).
    destruct (_provider s); [reflexivity | reflexivity | now contradiction Hp]. }
  destruct (FilterSpec.render_dirty_cases h s w) as [[C _]|[_ C]];
    [congruence|].
  destruct C as [o2 [s2 [w2 [E' C]]]].
  rewrite E in E'. injection E' as <- <- <-.
  destruct C as [[e [C _]] | [[_ [_ ->]] | [C | C]]].
  - discriminate C.
  - unfold capturing, after, record_event. simpl.
    now rewrite <- !app_assoc.
  - destruct C as [mask [_ [C _]]]. discriminate C.
  - destruct C as [mask [_ [C _]]]. discriminate C.
Qed.

(** X21: A provider that is marked ready and is not the NVIDIA one (the
    automatic value with nothing on offer, or no provider at all, once
    the switch task has run) yields no frame: over any run of ticks and
    render calls against a host that lets the filter capture, every
    render call captures, logs that the provider did not return a
    result and skips, so that there is one error line for each frame;
    the cached frame is never written and never drawn, and the runtime
    is never called. *)
Theorem idle_provider_logs_every_frame (hs : list host)
    (s : background_removal_instance) (w : world) :
  _provider s <> NVIDIA_GREEN_SCREEN ->
  _provider_ready s = true ->
  Forall capturable hs ->
  let '(s', w') := perform_all (frames hs) s w in
  exists evs,
    w' = after evs w
    /\ filter_logs evs = repeat no_result (List.length hs)
    /\ runtime_calls evs = []
    /\ (forall t a b, ~ In (DrawSprite t a b) evs)
    /\ _masked s' = _masked s
    /\ _provider s' = _provider s
    /\ _provider_ready s' = true.
Proof.
  intros Hp Hr Hall. revert s w Hp Hr.
  induction Hall as [|h rest Hh Hrest IH]; intros s w Hp Hr.
  - exists []. rewrite after_nil. simpl. repeat split; auto.
  - rewrite frames_cons.
    destruct (video_tick_world h s w) as [evs1 [E1 Hevs1]]. rewrite E1.
    cbv beta iota.
    match goal with
    | |- context [video_render h ?s1 ?w1] =>
        rewrite (render_without_provider h s1 w1 Hp Hr eq_refl Hh)
    end.
    match goal with
    | |- context [perform_all (frames rest) ?s2 ?w2] =>
        specialize (IH s2 w2 Hp Hr);
        destruct (perform_all (frames rest) s2 w2) as [s' w']
    end.
    destruct IH as [evs [-> [L [R [D [M [P Rd]]]]]]].
    rewrite !after_after.
    eexists. split; [reflexivity|].
    split; [|split; [|split]].
    + rewrite !filter_logs_app, L.
      destruct Hevs1 as [-> | ->]; reflexivity.
    + rewrite !runtime_calls_app, R.
      destruct Hevs1 as [-> | ->]; reflexivity.
    + intros t a b Hin. rewrite !in_app_iff in Hin.
      specialize (D t a b).
      destruct Hevs1 as [-> | ->]; simpl in Hin; intuition discriminate.
    + split; [exact M|]. split; [exact P | exact Rd].
Qed.


Lemma idle_provider_logs_every_frame_witness :
  let '(s, w) := idling in
  _provider s <> NVIDIA_GREEN_SCREEN
  /\ _provider_ready s = true
  /\ Forall capturable [hd_view 1; hd_view 2]
  /\ let '(s', w') := perform_all (frames [hd_view 1; hd_view 2]) s w in
     exists evs,
       w' = after evs w
       /\ filter_logs evs = [no_result; no_result]
       /\ runtime_calls evs = [].
Proof.
  unfold idling. cbv beta iota.
  match goal with
  | |- context [perform_all _ ?s0 ?w0] =>
      assert (_provider s0 <> NVIDIA_GREEN_SCREEN) as Hp
        by (simpl; discriminate);
      assert (Forall capturable [hd_view 1; hd_view 2]) as Hc
        by (repeat constructor);
      pose proof (idle_provider_logs_every_frame [hd_view 1; hd_view 2]
                    s0 w0 Hp eq_refl Hc) as T;
      split; [exact Hp|]; split; [reflexivity|]; split; [exact Hc|];
      destruct (perform_all (frames [hd_view 1; hd_view 2]) s0 w0)
        as [s' w']
  end.
  destruct T as [evs [T1 [T2 [T3 _]]]].
  exists evs. auto.
Defined.

(** ** The window between the request and the task *)

(** X22: The readiness flag of the provider before outlives the request
    for the NVIDIA provider until the task runs.  A render call in that
    window, on an instance that has no adapter yet, finds the NVIDIA
    provider active and marked ready, and takes the captured frame
    itself for the mask: the frame is composited with its own alpha and
    drawn, the dirty flag is cleared, and the runtime is not called. *)
Theorem stale_readiness_draws_unmasked_frame (h : host)
    (s : background_removal_instance) (w : world) :
  must_skip h s = false ->
  _dirty s = true ->
  _provider s = NVIDIA_GREEN_SCREEN ->
  _nvidia_fx s = None ->
  filter_begin h = true ->
  mask_throws h = false ->
  let '(r, s', w') := video_render h s w in
  r = Ok tt
  /\ _dirty s' = false
  /\ _mask s' = Some (_input s')
  /\ _masked s'
     = {| GS.get_width := base_width h;
          GS.get_height := base_height h;
          GS.get_color_format := GS_RGBA_UNORM;
          GS.get_pixels := Masked (Frame (frame h)) (Frame (frame h)) |}
  /\ runtime_calls (added (trace w) (trace w')) = []
  /\ script w' = script w
  /\ exists pre,
       trace w'
       = pre ++ [DrawSprite (_masked s') (fst (_out_size s))
                   (snd (_out_size s))].
Proof.
  intros Hs Hd Hp Hfx Hb Ht.
  rewrite (FilterSpec.video_render_dirty h s w Hs Hd).
  assert (processed h s w
          = (Ok tt,
             set_mask (Some (_input (captured h s))) (captured h s),
             capturing s w)) as E.
  { unfold processed, process_step, bind, get.
    change (_provider (captured h s)) with (_provider s). rewrite Hp.
    unfold nvidia_process, bind, get, modify.
    change (_nvidia_fx (captured h s)) with (_nvidia_fx s). rewrite Hfx.
    reflexivity. }
  destruct (FilterSpec.render_dirty_cases h s w) as [[C _]|[_ C]];
    [congruence|].
  destruct C as [o2 [s2 [w2 [E' C]]]].
  rewrite E in E'. injection E' as <- <- <-.
  destruct C as [[e [C _]] | [[_ [C _]] | [C | C]]].
  - discriminate C.
  - discriminate C.
  - destruct C as [mask [_ [_ [C _]]]]. congruence.
  - destruct C as [mask [_ [Hm [_ ->]]]].
    simpl in Hm. injection Hm as <-.
    split; [reflexivity|]. split; [reflexivity|].
    split; [reflexivity|]. split; [reflexivity|].
    split.
    { unfold capturing, after, record_event. simpl.
      rewrite <- !app_assoc, added_app. reflexivity. }
    split; [reflexivity|].
    eexists. unfold after. simpl trace.
    match goal with
    | |- _ ++ [?a; ?b; ?c] = _ =>
        change [a; b; c] with ([a; b] ++ [c])
    end.
    rewrite app_assoc. reflexivity.
Qed.

Lemma stale_readiness_draws_unmasked_frame_witness :
  let '(s, w) := awaiting_switch in
  (_provider s = NVIDIA_GREEN_SCREEN /\ _provider_ready s = true
   /\ _nvidia_fx s = None /\ pool w <> [])
  /\ let '(_, s', w') := video_render (hd_view 5) s w in
     GS.get_pixels (_masked s') = Masked (Frame 5) (Frame 5)
     /\ runtime_calls (added (trace w) (trace w')) = [].
Proof.
  unfold awaiting_switch. cbv beta iota.
  split; [repeat split; discriminate|].
  match goal with
  | |- context [video_render _ ?s0 ?w0] =>
      pose proof (stale_readiness_draws_unmasked_frame (hd_view 5) s0 w0
                    eq_refl eq_refl eq_refl eq_refl eq_refl eq_refl) as T;
      destruct (video_render (hd_view 5) s0 w0) as [[r s'] w']
  end.
  destruct T as [_ [_ [_ [T4 [T5 _]]]]].
  split; [now rewrite T4 | exact T5].
Defined.


(** ** The steady state *)






(** ** After a switch that failed *)




End CycleSpec.
